(** * thetacheck: a shallow embedding of [thetacheck.py] and its properties

    The harness runs a program on every [<name>.in] file of a directory,
    compares what it prints with [<name>.out] and reports statistics.

    Layout of the development:
    - [PyStr], [PyFloat]: the Python values the harness computes with
      (text, binary64 floats with [float()], [round()], true division);
    - the state-and-exception monad [M] in which [main] is written;
    - [Env]: the operating system as the harness sees it (files, processes,
      the clock, the random generator);
    - [Ordering] and the section [Harness]: [main] and the functions it
      is made of, statement by statement, with the line numbers of
      [thetacheck.py];
    - [Script]: a small concrete operating system to run [main] on;
    - the vocabulary of the properties: the predicate transformer [wp],
      the statistics, the lines of the report, the comparison modes of
      the specification;
    - the properties: rules of [wp], lemmas on the parts of [main], and
      the claims C1 to C10, each with its theorem;
    - more properties, X1 to X26, of the code around the claims: the
      order of the tests, how a test ends, what is printed, failures
      outside the tests, the fallback of [call_with_io] and the command
      line. *)

From Stdlib Require Import ZArith List String Ascii Bool Lia.
From Stdlib Require Import Permutation Sorted OrderedTypeEx.
From Stdlib Require Import Floats.SpecFloat.
Import ListNotations.

Local Open Scope string_scope.
Local Open Scope list_scope.
Local Open Scope Z_scope.

(** ** Python text *)

Module PyStr.

(** The ASCII characters [str.isspace] accepts: tab, newline, vertical tab,
    form feed, carriage return, the four separators 0x1c-0x1f and space.
    A [string] is a sequence of bytes here; text outside ASCII is carried
    along unchanged. *)
Definition is_space (c : ascii) : bool :=
  let n := nat_of_ascii c in
  ((9 <=? n) && (n <=? 13) || (28 <=? n) && (n <=? 32))%nat.

Fixpoint lstrip (s : string) : string :=
  match s with
  | String c r => if is_space c then lstrip r else s
  | EmptyString => EmptyString
  end.

(** [rstrip] keeps a character when it is not a space or when something
    is kept after it. *)
Fixpoint rstrip (s : string) : string :=
  match s with
  | String c r =>
      match rstrip r with
      | EmptyString => if is_space c then EmptyString else String c EmptyString
      | r' => String c r'
      end
  | EmptyString => EmptyString
  end.

(** [s.strip()] *)
Definition strip (s : string) : string := rstrip (lstrip s).

(** [s[:-3]]: everything but the last three characters. *)
Definition drop_last3 (s : string) : string :=
  substring 0 (String.length s - 3) s.

(** [not s] for a string. *)
Definition is_empty (s : string) : bool :=
  match s with EmptyString => true | _ => false end.

(** [x in l] for a list (or set) of strings. *)
Definition mem (x : string) (l : list string) : bool :=
  existsb (String.eqb x) l.

(** [l[:n]] for any integer [n]: the first [n] elements, or all but the
    last [-n] when [n] is negative. *)
Definition slice_to {A} (l : list A) (n : Z) : list A :=
  if n <? 0 then firstn (Z.to_nat (Z.of_nat (List.length l) + n)) l
  else firstn (Z.to_nat n) l.

(** [posixpath.join a b] *)
Definition path_join (a b : string) : string :=
  match b with
  | String "/" _ => b
  | _ =>
      match a with
      | EmptyString => b
      | _ => if String.eqb (substring (String.length a - 1) 1 a) "/"
             then (a ++ b)%string else (a ++ "/" ++ b)%string
      end
  end.

End PyStr.

(** ** Python floats

    A Python float is an IEEE 754 binary64 number. The operations are the
    ones of [SpecFloat] at precision 53, computing in exact integer
    arithmetic and rounding to nearest, ties to even. *)

Module PyFloat.

Definition prec : Z := 53.
Definition emax : Z := 1024.
Definition float : Type := spec_float.

(** The finite values are the canonical ones: a mantissa of at most 53
    bits with the least exponent that allows it. *)
Definition valid (x : float) : bool := valid_binary prec emax x.

Definition sub : float -> float -> float := SFsub prec emax.
Definition mul : float -> float -> float := SFmul prec emax.
Definition abs : float -> float := SFabs.
Definition leb : float -> float -> bool := SFleb.
Definition ltb : float -> float -> bool := SFltb.

(** An integer as an exact operand (the mantissa is not rounded). *)
Definition Z_exact (z : Z) : float :=
  match z with
  | Z0 => S754_zero false
  | Zpos p => S754_finite false p 0
  | Zneg p => S754_finite true p 0
  end.

(** [float(n)] for an integer [n]. *)
Definition of_Z (z : Z) : float := binary_normalize prec emax z 0 false.

(** The float nearest to [p / q], with sign [s], for [0 <= p] and [0 < q]. *)
Definition ratio (s : bool) (p q : Z) : float :=
  match p, q with
  | Z0, _ => S754_zero s
  | Zpos p', Zpos q' =>
      SFdiv prec emax (S754_finite s p' 0) (S754_finite false q' 0)
  | _, _ => S754_nan
  end.

(** [a / b] on integers: the correctly rounded quotient, [None] standing
    for [ZeroDivisionError]. *)
Definition int_truediv (a b : Z) : option float :=
  if b =? 0 then None else Some (SFdiv prec emax (Z_exact a) (Z_exact b)).

(** The integer nearest to [p / q] ([0 <= p], [0 < q]), ties to even. *)
Definition round_half_even (p q : Z) : Z :=
  let (d, r) := Z.div_eucl p q in
  match 2 * r ?= q with
  | Lt => d
  | Gt => d + 1
  | Eq => if Z.even d then d else d + 1
  end.

(** [round(x, ndigits)] for [0 <= ndigits]: the exact value of [x] is
    rounded to [ndigits] decimals, ties to even, and the decimal is
    converted back to the nearest float. Zeros, infinities and nan round
    to themselves. *)
Definition round (x : float) (ndigits : Z) : float :=
  match x with
  | S754_finite s m e =>
      let scale := 10 ^ ndigits in
      let n := if 0 <=? e then Zpos m * 2 ^ e * scale
               else round_half_even (Zpos m * scale) (2 ^ (- e)) in
      ratio s n scale
  | _ => x
  end.

(** [bool(x)]: a float is false exactly when it is a zero. *)
Definition truthy (x : float) : bool :=
  match x with S754_zero _ => false | _ => true end.

(** *** [float(s)] for text

    The grammar is the one of the language reference restricted to
    ASCII: surrounding white space, a sign, then [inf], [infinity] or
    [nan] in any case, or digits with an optional point and an optional
    exponent; an underscore may stand between two digits. *)

Definition is_digit (c : ascii) : bool :=
  let n := nat_of_ascii c in ((48 <=? n) && (n <=? 57))%nat.

Definition digit_val (c : ascii) : Z := Z.of_nat (nat_of_ascii c) - 48.

Definition is_underscore (c : ascii) : bool := Ascii.eqb c "_".

(** Removes the underscores, each of which must stand between two digits. *)
Fixpoint drop_underscores (prev : option ascii) (l : list ascii)
  : option (list ascii) :=
  match l with
  | [] =>
      match prev with
      | Some p => if is_underscore p then None else Some []
      | None => Some []
      end
  | c :: r =>
      if is_underscore c then
        match prev with
        | Some p => if is_digit p then drop_underscores (Some c) r else None
        | None => None
        end
      else
        match prev with
        | Some p =>
            if is_underscore p && negb (is_digit c) then None
            else option_map (cons c) (drop_underscores (Some c) r)
        | None => option_map (cons c) (drop_underscores (Some c) r)
        end
  end.

Fixpoint span_digits (l : list ascii) : list ascii * list ascii :=
  match l with
  | c :: r =>
      if is_digit c then let (ds, rest) := span_digits r in (c :: ds, rest)
      else ([], l)
  | [] => ([], [])
  end.

Definition digits_val (ds : list ascii) : Z :=
  fold_left (fun acc c => 10 * acc + digit_val c) ds 0.

Definition take_sign (l : list ascii) : bool * list ascii :=
  match l with
  | "-"%char :: r => (true, r)
  | "+"%char :: r => (false, r)
  | _ => (false, l)
  end.

Definition lower (c : ascii) : ascii :=
  let n := nat_of_ascii c in
  if ((65 <=? n) && (n <=? 90))%nat then ascii_of_nat (n + 32) else c.

Definition lower_string (l : list ascii) : string :=
  string_of_list_ascii (map lower l).

(** The exponent part: nothing, or [e], an optional sign and digits. *)
Definition parse_exponent (l : list ascii) : option Z :=
  match l with
  | [] => Some 0
  | c :: r =>
      if Ascii.eqb (lower c) "e" then
        let (neg, r1) := take_sign r in
        match span_digits r1 with
        | ((_ :: _) as ds, []) =>
            Some (if neg then - digits_val ds else digits_val ds)
        | _ => None
        end
      else None
  end.

(** The value [m * 10 ^ e] with sign [s], correctly rounded. *)
Definition of_decimal (s : bool) (m e : Z) : float :=
  if 0 <=? e then ratio s (m * 10 ^ e) 1 else ratio s m (10 ^ (- e)).

(** [float(s)]; [None] stands for [ValueError]. *)
Definition of_string (s : string) : option float :=
  match drop_underscores None (list_ascii_of_string (PyStr.strip s)) with
  | None => None
  | Some l =>
      let (neg, body) := take_sign l in
      let word := lower_string body in
      if String.eqb word "inf" || String.eqb word "infinity"
      then Some (S754_infinity neg)
      else if String.eqb word "nan" then Some S754_nan
      else
        let (ip, r1) := span_digits body in
        let (fp, r2) :=
          match r1 with
          | "."%char :: r => span_digits r
          | _ => ([], r1)
          end in
        match ip ++ fp with
        | [] => None
        | ds =>
            match parse_exponent r2 with
            | Some e =>
                Some (of_decimal neg (digits_val ds) (e - Z.of_nat (List.length fp)))
            | None => None
            end
        end
  end.

End PyFloat.

Abbreviation float := PyFloat.float.

(** ** Exceptions, output and the state of a run *)

(** What a library call can raise, as far as the harness tells them
    apart: Ctrl-C, the non-zero exit of [subprocess.check_output], and any
    other subclass of [Exception] ([OSError], [UnicodeDecodeError], ...). *)
Inductive os_exn : Type :=
| Sigint
| ExitStatus (returncode : Z)
| Failure (name : string).

(** The exceptions of a run. [ZeroDivisionError] and [ValueError] are the
    two the harness can raise by its own arithmetic ([/] and [float()]);
    a library call raises none of them under these names, so that a
    division by zero in [main] is told apart from a failure outside. *)
Inductive exn : Type :=
| KeyboardInterrupt
| CalledProcessError (returncode : Z)
| LibraryError (name : string)
| ZeroDivisionError
| ValueError.

Definition of_os_exn (e : os_exn) : exn :=
  match e with
  | Sigint => KeyboardInterrupt
  | ExitStatus c => CalledProcessError c
  | Failure n => LibraryError n
  end.

(** [except Exception] catches everything but [KeyboardInterrupt]. *)
Definition is_Exception (e : exn) : bool :=
  match e with KeyboardInterrupt => false | _ => true end.

Definition is_KeyboardInterrupt (e : exn) : bool :=
  match e with KeyboardInterrupt => true | _ => false end.

(** The expected output as the harness shows it: the text of the [.out]
    file, or, once a checker ran, the note
    ["[[Got status code {code} from {checker}]]"] that replaces it. *)
Inductive expected : Type :=
| Text (outdata : string)
| StatusNote (code : Z) (checker : string).

(** One constructor per [print] of [main], carrying the values that are
    formatted (numbers are kept as numbers, not as their digits).
    [EvTraceback] is [traceback.print_exc()], which writes to stderr. *)
Inductive event : Type :=
| EvTest (test_name : string) (filenote : option (string * string))
         (total approx_total : Z) (percent : float)
| EvBlank
| EvMissingOut (infile : string)
| EvEmptyInput (infile : string)
| EvInput (indata : string)
| EvExpected (outdata : string)
| EvException (test_name app : string)
| EvTraceback (e : exn)
| EvProcessTook (seconds : float)
| EvGot (out : string)
| EvChecker (outdata : expected)
| EvCorrect
| EvWrong (outdata : expected) (out : string)
| EvDone (app : string)
| EvNoValidTests
| EvSummary (correct total : Z) (percent : float)
| EvFailedHeader
| EvNames (names : list string)
| EvOvertime (overtime_count total : Z) (percent : float)
| EvTimes (rounded : list float).

(** The arguments of [main]. *)
Record config : Type := {
  app : string;
  directory : string;
  checker : option string;
  verbose : bool;
  extra_verbose : bool;
  result_dist : option float;
  one_file : option string;
  limit : option Z;
  shuffle : bool;
  do_sort : bool;
  natural_sort : bool;
  empty_means_any : bool;
  timer : bool
}.

(** The counters and lists of [main] (lines 59-81). *)
Record locals : Type := {
  approx_total : Z;
  total : Z;
  correct : Z;
  overtime_count : Z;
  wrong : list string;
  overtime : list string;
  times : list float
}.

Definition set_approx_total (f : Z -> Z) (v : locals) : locals :=
  {| approx_total := f (approx_total v); total := total v;
     correct := correct v; overtime_count := overtime_count v;
     wrong := wrong v; overtime := overtime v; times := times v |}.

Definition set_total (f : Z -> Z) (v : locals) : locals :=
  {| approx_total := approx_total v; total := f (total v);
     correct := correct v; overtime_count := overtime_count v;
     wrong := wrong v; overtime := overtime v; times := times v |}.

Definition set_correct (f : Z -> Z) (v : locals) : locals :=
  {| approx_total := approx_total v; total := total v;
     correct := f (correct v); overtime_count := overtime_count v;
     wrong := wrong v; overtime := overtime v; times := times v |}.

Definition set_wrong (f : list string -> list string) (v : locals) : locals :=
  {| approx_total := approx_total v; total := total v;
     correct := correct v; overtime_count := overtime_count v;
     wrong := f (wrong v); overtime := overtime v; times := times v |}.

(** [overtime_count += 1; overtime.append(name)] *)
Definition add_overtime (name : string) (v : locals) : locals :=
  {| approx_total := approx_total v; total := total v;
     correct := correct v; overtime_count := overtime_count v + 1;
     wrong := wrong v; overtime := overtime v ++ [name]; times := times v |}.

Definition set_times (f : list float -> list float) (v : locals) : locals :=
  {| approx_total := approx_total v; total := total v;
     correct := correct v; overtime_count := overtime_count v;
     wrong := wrong v; overtime := overtime v; times := f (times v) |}.

(** Lines 76-81, with the [approx_total] computed before them. *)
Definition fresh_locals (n : Z) : locals :=
  {| approx_total := n; total := 0; correct := 0; overtime_count := 0;
     wrong := []; overtime := []; times := [] |}.

(** ** The monad of [main]

    A computation takes the state of the run (the world outside, what
    was printed so far, the local variables) and returns a value or
    raises, with the state it left behind: an exception keeps every
    update made before it. *)

Inductive res (A : Type) : Type :=
| Ret (a : A)
| Raise (e : exn).
Arguments Ret {A} a.
Arguments Raise {A} e.

Record state (W : Type) : Type := {
  world : W;
  stdout : list event;
  vars : locals
}.
Arguments world {W} s.
Arguments stdout {W} s.
Arguments vars {W} s.

Definition M (W A : Type) : Type := state W -> res A * state W.

Section Monad.
Context {W : Type}.

Definition ret {A} (a : A) : M W A := fun s => (Ret a, s).

Definition bind {A B} (m : M W A) (f : A -> M W B) : M W B :=
  fun s =>
    match m s with
    | (Ret a, s1) => f a s1
    | (Raise e, s1) => (Raise e, s1)
    end.

Definition raise {A} (e : exn) : M W A := fun s => (Raise e, s).

(** [try: m / except <catches>: handler / else: orelse]. An exception of
    [handler] or of [orelse] is not caught. *)
Definition try_else {A B} (m : M W A) (catches : exn -> bool)
    (handler : exn -> M W B) (orelse : A -> M W B) : M W B :=
  fun s =>
    match m s with
    | (Ret a, s1) => orelse a s1
    | (Raise e, s1) => if catches e then handler e s1 else (Raise e, s1)
    end.

Definition get_vars : M W locals := fun s => (Ret (vars s), s).

Definition modify_vars (f : locals -> locals) : M W unit :=
  fun s => (Ret tt, {| world := world s; stdout := stdout s; vars := f (vars s) |}).

(** [print(...)]: one more line of output. *)
Definition print (e : event) : M W unit :=
  fun s => (Ret tt, {| world := world s; stdout := stdout s ++ [e]; vars := vars s |}).

(** A call into the operating system. *)
Definition os_call {A} (f : W -> (A + os_exn) * W) : M W A :=
  fun s =>
    let (r, w) := f (world s) in
    let s1 := {| world := w; stdout := stdout s; vars := vars s |} in
    match r with
    | inl a => (Ret a, s1)
    | inr e => (Raise (of_os_exn e), s1)
    end.

(** [if b: m] *)
Definition when (b : bool) (m : M W unit) : M W unit :=
  if b then m else ret tt.

(** [for x in l: body x] *)
Fixpoint for_each {A} (body : A -> M W unit) (l : list A) : M W unit :=
  match l with
  | [] => ret tt
  | x :: r => bind (body x) (fun _ => for_each body r)
  end.

(** [[f x for x in l]] for an [f] with effects. *)
Fixpoint map_M {A B} (f : A -> M W B) (l : list A) : M W (list B) :=
  match l with
  | [] => ret []
  | x :: r => bind (f x) (fun y => bind (map_M f r) (fun ys => ret (y :: ys)))
  end.

End Monad.

Declare Scope py_scope.
Delimit Scope py_scope with py.
Notation "x <- m ;; k" := (bind m (fun x => k))
  (at level 100, m at next level, right associativity) : py_scope.
Notation "m ;; k" := (bind m (fun _ => k))
  (at level 100, right associativity) : py_scope.
Local Open Scope py_scope.

(** ** The operating system

    Everything [main] asks of the outside goes through one of these
    calls. Each takes the world and returns it changed, so that two calls
    with the same arguments may answer differently; each may be cut short
    by Ctrl-C ([Sigint]). These calls are where the interpreter waits,
    and the only places where Ctrl-C is delivered here: the statements
    between two calls run without interruption.

    [call_with_io] is the function of that name, imported from the
    [gamma] extension when there is one and wrapping [subprocess.run]
    otherwise (lines 16-26): it runs a command on an input text and
    returns what the command printed. [check_output] is
    [subprocess.check_output(command, shell=True, input=...)], whose
    output [call_for_status_code] ignores; [read_text] opens a file and
    reads it; [randbelow] is the random integer that [random.shuffle]
    draws. [tqdm_enabled] tells whether the progress-bar library was
    found (lines 10-15). *)
Record Env (W : Type) : Type := {
  tqdm_enabled : bool;
  time_time : W -> (float + os_exn) * W;
  call_with_io : string -> string -> W -> (string + os_exn) * W;
  check_output : string -> string -> W -> (unit + os_exn) * W;
  read_text : string -> W -> (string + os_exn) * W;
  path_exists : string -> W -> (bool + os_exn) * W;
  listdir : string -> W -> (list string + os_exn) * W;
  glob : string -> W -> (list string + os_exn) * W;
  getsize : string -> W -> (Z + os_exn) * W;
  randbelow : Z -> W -> (Z + os_exn) * W
}.
Arguments tqdm_enabled {W} e.
Arguments time_time {W} e.
Arguments call_with_io {W} e.
Arguments check_output {W} e.
Arguments read_text {W} e.
Arguments path_exists {W} e.
Arguments listdir {W} e.
Arguments glob {W} e.
Arguments getsize {W} e.
Arguments randbelow {W} e.

(** ** Ordering the tests (lines 64-72) *)

Module Ordering.

(** A stable insertion sort: [x] stood before every element of the
    sorted [l] and goes before the first one that is not smaller. It
    compares with [lt] only, as [list.sort] does. *)
Fixpoint insert {K A} (lt : K -> K -> bool) (x : K * A) (l : list (K * A))
  : list (K * A) :=
  match l with
  | [] => [x]
  | y :: r => if lt (fst y) (fst x) then y :: insert lt x r else x :: l
  end.

Definition sort_by_key {K A} (lt : K -> K -> bool) (l : list (K * A))
  : list (K * A) :=
  fold_right (insert lt) [] l.

(** [l.sort(key=...)], the keys being computed already. *)
Definition sorted_by {K A} (lt : K -> K -> bool) (keys : list K) (l : list A)
  : list A :=
  map snd (sort_by_key lt (combine keys l)).

(** [re.split("([0-9]+)", f)]: the text between the runs of digits and
    the runs themselves, in turn, starting and ending with text. *)
Fixpoint split_runs (l : list ascii) (in_digits : bool) (cur : list ascii)
  : list string :=
  match l with
  | [] =>
      let piece := string_of_list_ascii (rev cur) in
      if in_digits then [piece; ""] else [piece]
  | c :: r =>
      if Bool.eqb (PyFloat.is_digit c) in_digits
      then split_runs r in_digits (c :: cur)
      else string_of_list_ascii (rev cur) :: split_runs r (PyFloat.is_digit c) [c]
  end.

Definition re_split_digits (f : string) : list string :=
  split_runs (list_ascii_of_string f) false [].

Inductive key_part : Type :=
| KInt (n : Z)
| KStr (s : string).

(** [tryint]: [int(c)] when it succeeds, [c] otherwise. A piece of the
    split is a run of digits or has no digit, and [int] accepts the
    former only. *)
Definition tryint (c : string) : key_part :=
  let l := list_ascii_of_string c in
  if negb (PyStr.is_empty c) && forallb PyFloat.is_digit l
  then KInt (PyFloat.digits_val l) else KStr c.

Definition natural_key (f : string) : list key_part :=
  map tryint (re_split_digits f).

(** [a < b] on keys: the first position where they differ decides, and a
    proper prefix is smaller. Text and numbers alternate in every key, so
    a number is never compared with a text (a [TypeError] in Python). *)
Fixpoint key_lt (a b : list key_part) : bool :=
  match a, b with
  | [], [] => false
  | [], _ :: _ => true
  | _ :: _, [] => false
  | x :: a', y :: b' =>
      match x, y with
      | KInt m, KInt n => if m =? n then key_lt a' b' else m <? n
      | KStr s, KStr t => if String.eqb s t then key_lt a' b' else String.ltb s t
      | _, _ => false
      end
  end.

(** [files.sort(key=lambda f: [tryint(c) for c in re.split(...)])] *)
Definition natural_sorted (files : list string) : list string :=
  sorted_by key_lt (map natural_key files) files.

(** [x[i], x[j] = x[j], x[i]]; indices outside the list, which
    [randbelow] never returns, leave it as it is. *)
Definition set_nth {A} (l : list A) (i : nat) (a : A) : list A :=
  firstn i l ++ match skipn i l with [] => [] | _ :: r => a :: r end.

Definition swap {A} (l : list A) (i j : nat) : list A :=
  match nth_error l i, nth_error l j with
  | Some a, Some b => set_nth (set_nth l i b) j a
  | _, _ => l
  end.

End Ordering.

(** ** The harness *)

Section Harness.
Context {W : Type} (E : Env W) (cfg : config).

Definition newline : string := String (ascii_of_nat 10) EmptyString.

(** Line 55: [verbose = verbose or extra_verbose]. *)
Definition verbose' : bool := verbose cfg || extra_verbose cfg.

Definition verbose_print (e : event) : M W unit := when verbose' (print e).

Definition extra_verbose_print (e : event) : M W unit :=
  when (extra_verbose cfg) (print e).

(** Lines 28-35. *)
Definition call_for_status_code (command input : string) : M W Z :=
  try_else (os_call (check_output E command input))
    (fun e => match e with CalledProcessError _ => true | _ => false end)
    (fun e => match e with CalledProcessError c => ret c | _ => raise e end)
    (fun _ => ret 0).

(** Lines 37-41. *)
Definition call_with_io_timed (command input : string)
  : M W (string * float) :=
  start <- os_call (time_time E) ;;
  result <- os_call (call_with_io E command input) ;;
  end_ <- os_call (time_time E) ;;
  ret (result, PyFloat.sub end_ start).

(** Lines 43-46. *)
Definition readfile (filename : string) : M W string :=
  os_call (read_text E filename).

(** [round(a / b * 100, 2)] on integers [a] and [b]. *)
Definition percentage (a b : Z) : M W float :=
  match PyFloat.int_truediv a b with
  | None => raise ZeroDivisionError
  | Some q => ret (PyFloat.round (PyFloat.mul q (PyFloat.of_Z 100)) 2)
  end.

(** *** Finding and ordering the tests (lines 56-75) *)

(** Lines 56-63: [all_files], [files] and [approx_total]. *)
Definition discover : M W (list string * list string * Z) :=
  match one_file cfg with
  | Some one =>
      let candidates := [(one ++ ".in")%string; (one ++ ".out")%string] in
      found <- map_M (fun f => os_call (path_exists E f)) candidates ;;
      let all_files :=
        map fst (filter snd (combine candidates found)) in
      ret (all_files, [(one ++ ".in")%string], 1)
  | None =>
      names <- os_call (listdir E (directory cfg)) ;;
      let all_files := map (PyStr.path_join (directory cfg)) names in
      files <- os_call (glob E (PyStr.path_join (directory cfg) "*.in")) ;;
      again <- os_call (glob E (PyStr.path_join (directory cfg) "*.in")) ;;
      ret (all_files, files, Z.of_nat (List.length again))
  end.

(** [random.shuffle(x)]: for [i] from the last index down to 1, swap
    [x[i]] with [x[randbelow(i + 1)]]. [shuffle_from i] runs the loop
    from index [i] down. *)
Fixpoint shuffle_from (i : nat) (x : list string) : M W (list string) :=
  match i with
  | O => ret x
  | S i' =>
      j <- os_call (randbelow E (Z.of_nat i + 1)) ;;
      shuffle_from i' (Ordering.swap x i (Z.to_nat j))
  end.

Definition random_shuffle (x : list string) : M W (list string) :=
  shuffle_from (List.length x - 1) x.

(** Lines 64-72. *)
Definition order_files (files : list string) : M W (list string) :=
  if shuffle cfg then random_shuffle files
  else if do_sort cfg then
    sizes <- map_M (fun f => os_call (getsize E f)) files ;;
    ret (Ordering.sorted_by Z.ltb sizes files)
  else if natural_sort cfg then ret (Ordering.natural_sorted files)
  else ret files.

(** Lines 73-75. *)
Definition apply_limit (files : list string) (approx : Z) : list string * Z :=
  match limit cfg with
  | Some n => if n <? approx then (PyStr.slice_to files n, n) else (files, approx)
  | None => (files, approx)
  end.

(** *** One test (lines 90-147) *)

(** Line 131: [round(abs(float(outdata) - float(out)), 10) <= result_dist];
    [None] when one of the two [float()] raises [ValueError]. *)
Definition within_tolerance (eps : float) (outdata out : string) : option bool :=
  match PyFloat.of_string outdata with
  | None => None
  | Some a =>
      match PyFloat.of_string out with
      | None => None
      | Some b =>
          Some (PyFloat.leb (PyFloat.round (PyFloat.abs (PyFloat.sub a b)) 10) eps)
      end
  end.

(** Lines 129-139: the verdict, with the expected output as shown
    afterwards (the checker's note replaces it at line 135). *)
Definition evaluate (indata outdata out : string) : M W (bool * expected) :=
  match result_dist cfg with
  | Some eps =>
      match within_tolerance eps outdata out with
      | Some is_correct => ret (is_correct, Text outdata)
      | None => raise ValueError
      end
  | None =>
      match checker cfg with
      | Some chk =>
          let checker_input := (indata ++ newline ++ out)%string in
          code <- call_for_status_code chk checker_input ;;
          let outdata' := StatusNote code chk in
          extra_verbose_print (EvChecker outdata') ;;
          ret (code =? 0, outdata')
      | None =>
          ret (empty_means_any cfg && PyStr.is_empty outdata
               || String.eqb outdata out, Text outdata)
      end
  end.

(** Lines 121-147: the [else] branch of the [try], after the program ran. *)
Definition judge (test_name indata outdata out : string) (time_taken : float)
  : M W unit :=
  let over := PyFloat.ltb (PyFloat.of_Z 1) time_taken in
  when (verbose' && (timer cfg || over))
       (print (EvProcessTook (PyFloat.round time_taken 2))) ;;
  when over (modify_vars (add_overtime test_name)) ;;
  when (timer cfg) (modify_vars (set_times (fun l => l ++ [time_taken]))) ;;
  extra_verbose_print (EvGot out) ;;
  verdict <- evaluate indata outdata out ;;
  (if fst verdict then
     verbose_print EvCorrect ;;
     modify_vars (set_correct (Z.add 1))
   else
     when (negb (extra_verbose cfg)) (verbose_print (EvWrong (snd verdict) out)) ;;
     modify_vars (set_wrong (fun l => l ++ [test_name]))) ;;
  modify_vars (set_total (Z.add 1)).

(** Lines 113-147: the [try] around the program, with its [except] and
    its [else]. *)
Definition try_case (tqdm_running : bool) (test_name indata outdata : string)
  : M W unit :=
  try_else
    (r <- call_with_io_timed (app cfg) indata ;;
     ret (PyStr.strip (fst r), snd r))
    is_Exception
    (fun e =>
       when tqdm_running (print EvBlank) ;;
       print (EvException test_name (app cfg)) ;;
       print (EvTraceback e))
    (fun r => judge test_name indata outdata (fst r) (snd r)).

(** Lines 106-147: from the check of the input on. *)
Definition run_case (tqdm_running : bool) (test_name infile indata outdata : string)
  : M W unit :=
  if PyStr.is_empty indata then
    when tqdm_running (print EvBlank) ;;
    print (EvEmptyInput infile) ;;
    modify_vars (set_approx_total (fun n => n - 1))
  else
    extra_verbose_print (EvInput indata) ;;
    extra_verbose_print
      (EvExpected (if PyStr.is_empty outdata then "[[None given]]" else outdata)) ;;
    try_case tqdm_running test_name indata outdata.

(** Lines 93-95: the progress line, whose percentage is computed
    whether it is printed or not, and the input of the test. *)
Definition open_case (test_name infile : string)
    (filenote : option (string * string)) : M W string :=
  v <- get_vars ;;
  pct <- percentage (total v) (approx_total v) ;;
  verbose_print (EvTest test_name filenote (total v) (approx_total v) pct) ;;
  raw <- readfile infile ;;
  ret (PyStr.strip raw).

(** Line 97: a missing [.out] file is an error. *)
Definition missing_out_is_error : bool :=
  negb (empty_means_any cfg)
  && match checker cfg with None => true | Some _ => false end.

(** Lines 90-147: the body of the loop. *)
Definition for_body (all_files : list string) (tqdm_running : bool)
    (file : string) : M W unit :=
  let test_name := PyStr.drop_last3 file in
  let infile := file in
  let outfile := (test_name ++ ".out")%string in
  let filenote := if extra_verbose cfg then Some (infile, outfile) else None in
  indata <- open_case test_name infile filenote ;;
  if negb (PyStr.mem outfile all_files) then
    if missing_out_is_error then
      when tqdm_running (print EvBlank) ;;
      print (EvMissingOut infile) ;;
      modify_vars (set_approx_total (fun n => n - 1))
    else run_case tqdm_running test_name infile indata ""
  else
    raw_out <- readfile outfile ;;
    run_case tqdm_running test_name infile indata (PyStr.strip raw_out).

(** *** The run (lines 76-164) *)

(** Lines 83-147: the loop inside the [try]. *)
Definition test_loop (all_files files : list string) : M W unit :=
  let tqdm_running := tqdm_enabled E && negb verbose' in
  for_each (for_body all_files tqdm_running) files.

(** Lines 151-164: the report. *)
Definition report : M W bool :=
  print (EvDone (app cfg)) ;;
  v <- get_vars ;;
  if total v =? 0 then
    print EvNoValidTests ;;
    ret false
  else
    pct <- percentage (correct v) (total v) ;;
    print (EvSummary (correct v) (total v) pct) ;;
    when (negb (match wrong v with [] => true | _ => false end))
         (print EvFailedHeader ;; print (EvNames (wrong v))) ;;
    when (negb (match overtime v with [] => true | _ => false end))
         (pct_over <- percentage (overtime_count v) (total v) ;;
          print (EvOvertime (overtime_count v) (total v) pct_over) ;;
          print (EvNames (overtime v))) ;;
    when (timer cfg)
         (print (EvTimes
            (map (fun t => PyFloat.round t 4)
               (filter (fun t => PyFloat.truthy (PyFloat.round t 4)) (times v))))) ;;
    ret true.

(** Lines 76-164, for the [all_files], [files] and [approx_total] that
    lines 56-75 computed: [except KeyboardInterrupt: pass] ends the loop,
    and the report follows in either case. *)
Definition run_tests (all_files files : list string) (approx : Z) : M W bool :=
  modify_vars (fun _ => fresh_locals approx) ;;
  try_else (test_loop all_files files) is_KeyboardInterrupt
    (fun _ => ret tt) (fun _ => ret tt) ;;
  report.

(** Lines 48-164. *)
Definition main : M W bool :=
  found <- discover ;;
  let all_files := fst (fst found) in
  ordered <- order_files (snd (fst found)) ;;
  let limited := apply_limit ordered (snd found) in
  run_tests all_files (fst limited) (snd limited).

End Harness.

(** A run of [main] from a world, nothing printed yet. *)
Definition initial_state {W} (w : W) : state W :=
  {| world := w; stdout := []; vars := fresh_locals 0 |}.

(** The state in which the loop starts (line 82), nothing printed yet. *)
Definition loop_state {W} (approx : Z) (w : W) : state W :=
  {| world := w; stdout := []; vars := fresh_locals approx |}.

(** ** A scripted operating system

    One directory of named files, a program and a checker given as
    functions of their input, and a clock that returns the readings of a
    list one after the other. It serves to run [main] on concrete tests. *)

Module Script.

Record world : Type := {
  dir : string;
  files : list (string * string);
  clock : list float;
  program : string -> string + os_exn;
  checker_program : string -> unit + os_exn
}.

Definition tick (w : world) : world :=
  {| dir := dir w; files := files w; clock := tl (clock w);
     program := program w; checker_program := checker_program w |}.

Definition lookup (path : string) (w : world) : option string :=
  option_map snd
    (find (fun f => String.eqb (PyStr.path_join (dir w) (fst f)) path) (files w)).

(** [*.in]: the name ends in [.in] and does not start with a dot. *)
Definition is_in_file (name : string) : bool :=
  String.eqb (substring (String.length name - 3) 3 name) ".in"
  && negb (String.eqb (substring 0 1 name) ".").

Definition env : Env world := {|
  tqdm_enabled := false;
  time_time w := (inl (hd (S754_zero false) (clock w)), tick w);
  call_with_io _ input w := (program w input, w);
  check_output _ input w := (checker_program w input, w);
  read_text path w :=
    (match lookup path w with
     | Some text => inl text
     | None => inr (Failure "FileNotFoundError")
     end, w);
  path_exists path w :=
    (inl (match lookup path w with Some _ => true | None => false end), w);
  listdir d w :=
    (if String.eqb d (dir w) then inl (map fst (files w))
     else inr (Failure "FileNotFoundError"), w);
  glob pattern w :=
    (inl (if String.eqb pattern (PyStr.path_join (dir w) "*.in")
          then map (PyStr.path_join (dir w)) (filter is_in_file (map fst (files w)))
          else []), w);
  getsize path w :=
    (match lookup path w with
     | Some text => inl (Z.of_nat (String.length text))
     | None => inr (Failure "FileNotFoundError")
     end, w);
  randbelow _ w := (inl 0, w)
|}.

(** The same system with a directory that changes under the harness:
    the listing loses its last file once the clock has been read or a
    listing taken (the list of readings serves as the count of the
    listings to come that are still complete). *)
Definition shrinking_env : Env world := {|
  tqdm_enabled := tqdm_enabled env;
  time_time := time_time env;
  call_with_io := call_with_io env;
  check_output := check_output env;
  read_text := read_text env;
  path_exists := path_exists env;
  listdir := listdir env;
  glob pattern w :=
    (match fst (glob env pattern w), clock w with
     | inl found, [] => inl (removelast found)
     | r, _ => r
     end, tick w);
  getsize := getsize env;
  randbelow := randbelow env
|}.

(** The program that prints its input back. *)
Definition echo (input : string) : string + os_exn := inl input.

(** The echo program, interrupted by Ctrl-C on the input [stop]. *)
Definition echo_until (stop input : string) : string + os_exn :=
  if String.eqb input stop then inr Sigint else inl input.

(** A checker that accepts everything, and one that is interrupted. *)
Definition accept (_ : string) : unit + os_exn := inl tt.
Definition interrupted (_ : string) : unit + os_exn := inr Sigint.

(** [main(app, "tests")] with every option at its default, but for
    [empty_means_any], which the command line passes as [False]. *)
Definition defaults : config := {|
  app := "./app"; directory := "tests"; checker := None;
  verbose := false; extra_verbose := false; result_dist := None;
  one_file := None; limit := None;
  shuffle := false; do_sort := false; natural_sort := true;
  empty_means_any := false; timer := false
|}.

Definition with_result_dist (eps : float) (c : config) : config := {|
  app := app c; directory := directory c; checker := checker c;
  verbose := verbose c; extra_verbose := extra_verbose c;
  result_dist := Some eps; one_file := one_file c; limit := limit c;
  shuffle := shuffle c; do_sort := do_sort c; natural_sort := natural_sort c;
  empty_means_any := empty_means_any c; timer := timer c
|}.

Definition with_checker (chk : string) (c : config) : config := {|
  app := app c; directory := directory c; checker := Some chk;
  verbose := verbose c; extra_verbose := extra_verbose c;
  result_dist := result_dist c; one_file := one_file c; limit := limit c;
  shuffle := shuffle c; do_sort := do_sort c; natural_sort := natural_sort c;
  empty_means_any := empty_means_any c; timer := timer c
|}.

Definition with_verbose (c : config) : config := {|
  app := app c; directory := directory c; checker := checker c;
  verbose := true; extra_verbose := extra_verbose c;
  result_dist := result_dist c; one_file := one_file c; limit := limit c;
  shuffle := shuffle c; do_sort := do_sort c; natural_sort := natural_sort c;
  empty_means_any := empty_means_any c; timer := timer c
|}.

Definition with_limit (n : Z) (c : config) : config := {|
  app := app c; directory := directory c; checker := checker c;
  verbose := verbose c; extra_verbose := extra_verbose c;
  result_dist := result_dist c; one_file := one_file c; limit := Some n;
  shuffle := shuffle c; do_sort := do_sort c; natural_sort := natural_sort c;
  empty_means_any := empty_means_any c; timer := timer c
|}.

Definition with_empty_means_any (c : config) : config := {|
  app := app c; directory := directory c; checker := checker c;
  verbose := verbose c; extra_verbose := extra_verbose c;
  result_dist := result_dist c; one_file := one_file c; limit := limit c;
  shuffle := shuffle c; do_sort := do_sort c; natural_sort := natural_sort c;
  empty_means_any := true; timer := timer c
|}.

Definition with_timer (c : config) : config := {|
  app := app c; directory := directory c; checker := checker c;
  verbose := verbose c; extra_verbose := extra_verbose c;
  result_dist := result_dist c; one_file := one_file c; limit := limit c;
  shuffle := shuffle c; do_sort := do_sort c; natural_sort := natural_sort c;
  empty_means_any := empty_means_any c; timer := true
|}.

(** The directory [tests] with the given files, the echo program, an
    accepting checker and a clock that stands still. *)
Definition tests (fs : list (string * string)) : world := {|
  dir := "tests"; files := fs; clock := [];
  program := echo; checker_program := accept
|}.

Definition with_clock (readings : list float) (w : world) : world := {|
  dir := dir w; files := files w; clock := readings;
  program := program w; checker_program := checker_program w
|}.

Definition with_program (p : string -> string + os_exn) (w : world) : world := {|
  dir := dir w; files := files w; clock := clock w;
  program := p; checker_program := checker_program w
|}.

Definition with_checker_program (chk : string -> unit + os_exn) (w : world)
  : world := {|
  dir := dir w; files := files w; clock := clock w;
  program := program w; checker_program := chk
|}.

(** Two tests that pass; the program takes 2 seconds on the first (from
    0 to 2 on the clock) and 0.00003 seconds on the second (from 2 to
    2.00003). *)
Definition two_timed_tests : world :=
  with_clock [PyFloat.of_Z 0; PyFloat.of_Z 2;
              PyFloat.of_Z 2; PyFloat.ratio false 200003 100000]
    (tests [("a.in", "5"); ("a.out", "5"); ("b.in", "6"); ("b.out", "6")]).

(** [main] run on a world. *)
Definition run (c : config) (w : world) : res bool * state world :=
  main env c (initial_state w).

End Script.

(** * Vocabulary of the properties *)

(** ** Reasoning about computations

    [wp m Q s]: run from [s], the computation [m] ends with a result and
    a state that satisfy [Q]. Every computation of [M] ends, so this is
    total correctness. *)

Section Logic.
Context {W : Type}.

Definition wp {A} (m : M W A) (Q : res A -> state W -> Prop) (s : state W)
  : Prop :=
  Q (fst (m s)) (snd (m s)).

(** What [bind m f] asks of [m]. *)
Definition bind_post {A B} (f : A -> M W B) (Q : res B -> state W -> Prop)
  : res A -> state W -> Prop :=
  fun r s1 =>
    match r with
    | Ret a => wp (f a) Q s1
    | Raise e => Q (Raise e) s1
    end.

(** What [try_else m catches handler orelse] asks of [m]. *)
Definition try_post {A B} (catches : exn -> bool) (handler : exn -> M W B)
    (orelse : A -> M W B) (Q : res B -> state W -> Prop)
  : res A -> state W -> Prop :=
  fun r s1 =>
    match r with
    | Ret a => wp (orelse a) Q s1
    | Raise e => if catches e then wp (handler e) Q s1 else Q (Raise e) s1
    end.

End Logic.

(** ** The statistics *)

(** [total == correct + len(wrong)] *)
Definition accounted (v : locals) : Prop :=
  total v = correct v + Z.of_nat (List.length (wrong v)).

(** The three counters of the verdicts are what they were. *)
Definition same_stats (v v' : locals) : Prop :=
  total v' = total v /\ correct v' = correct v /\ wrong v' = wrong v.

(** One more test is counted, as correct or else under its name among
    the wrong ones. *)
Definition counted (name : string) (v v' : locals) : Prop :=
  total v' = total v + 1
  /\ (correct v' = correct v + 1 /\ wrong v' = wrong v
      \/ correct v' = correct v /\ wrong v' = wrong v ++ [name]).

(** ** The output *)

(** The state after some more lines were printed. *)
Definition printing {W} (lines : list event) (s : state W) : state W :=
  {| world := world s; stdout := stdout s ++ lines; vars := vars s |}.

(** [round(a / b * 100, 2)] for a [b] that is not zero. *)
Definition percent (a b : Z) : float :=
  PyFloat.round
    (PyFloat.mul (SFdiv PyFloat.prec PyFloat.emax (PyFloat.Z_exact a) (PyFloat.Z_exact b))
       (PyFloat.of_Z 100)) 2.

(** Line 163: the durations as the report lists them. *)
Definition printed_times (l : list float) : list float :=
  map (fun t => PyFloat.round t 4)
    (filter (fun t => PyFloat.truthy (PyFloat.round t 4)) l).

(** The lines of the report for given statistics (lines 151-163). *)
Definition report_lines (cfg : config) (v : locals) : list event :=
  EvDone (app cfg) ::
  if total v =? 0 then [EvNoValidTests]
  else
    EvSummary (correct v) (total v) (percent (correct v) (total v)) ::
    match wrong v with
    | [] => []
    | _ :: _ => [EvFailedHeader; EvNames (wrong v)]
    end ++
    match overtime v with
    | [] => []
    | _ :: _ =>
        [EvOvertime (overtime_count v) (total v) (percent (overtime_count v) (total v));
         EvNames (overtime v)]
    end ++
    if timer cfg then [EvTimes (printed_times (times v))] else [].

(** How many times a missing file of expected output was reported. *)
Definition missing_out_reports (lines : list event) : nat :=
  List.length
    (filter (fun e => match e with EvMissingOut _ => true | _ => false end) lines).

(** ** Missing expected output, in the words of the specification

    A missing [.out] file is an error when "empty means any" is off and
    neither a checker nor a numeric tolerance is configured. *)
Definition claimed_missing_out_is_error (cfg : config) : bool :=
  negb (empty_means_any cfg)
  && match checker cfg with None => true | Some _ => false end
  && match result_dist cfg with None => true | Some _ => false end.

(** ** A test on its way to the verdict *)

(** Lines 111-112, as far as they print. *)
Definition case_lines (cfg : config) (indata outdata : string) : list event :=
  if extra_verbose cfg
  then [EvInput indata;
        EvExpected (if PyStr.is_empty outdata then "[[None given]]" else outdata)]
  else [].

(** [reaches_verdict E cfg all_files file s indata outdata out t s_j]:
    the body of the loop, run from [s] on [file], arrives at line 121 in
    the state [s_j]: the input was read and is not empty, the expected
    output was read or taken to be empty, and the program ran, printed
    [out] (trimmed) and took [t]. *)
Definition reaches_verdict {W} (E : Env W) (cfg : config)
    (all_files : list string) (file : string) (s : state W)
    (indata outdata out : string) (time_taken : float) (s_j : state W) : Prop :=
  let test_name := PyStr.drop_last3 file in
  let outfile := (test_name ++ ".out")%string in
  let filenote := if extra_verbose cfg then Some (file, outfile) else None in
  exists s1 s2 raw,
    open_case E cfg test_name file filenote s = (Ret indata, s1)
    /\ (PyStr.mem outfile all_files = false
        /\ missing_out_is_error cfg = false /\ outdata = "" /\ s2 = s1
        \/ PyStr.mem outfile all_files = true
           /\ exists raw_out,
                readfile E outfile s1 = (Ret raw_out, s2)
                /\ outdata = PyStr.strip raw_out)
    /\ PyStr.is_empty indata = false
    /\ call_with_io_timed E (app cfg) indata
         (printing (case_lines cfg indata outdata) s2)
       = (Ret (raw, time_taken), s_j)
    /\ out = PyStr.strip raw.

(** Lines 121-128: what [judge] prints and records before the verdict. *)
Definition before_verdict {W} (cfg : config) (test_name out : string)
    (time_taken : float) (s : state W) : state W :=
  let over := PyFloat.ltb (PyFloat.of_Z 1) time_taken in
  {| world := world s;
     stdout := stdout s
       ++ (if verbose' cfg && (timer cfg || over)
           then [EvProcessTook (PyFloat.round time_taken 2)] else [])
       ++ (if extra_verbose cfg then [EvGot out] else []);
     vars :=
       (if timer cfg then set_times (fun l => l ++ [time_taken]) else fun v => v)
         ((if over then add_overtime test_name else fun v => v) (vars s)) |}.

(** ** The comparison modes, in the words of the specification *)

(** Exactly one way of comparing is in use during a run. *)
Inductive ComparisonMode : Type :=
| ExactMatch
| EmptyMeansAny
| NumericTolerance (epsilon : float)
| ExternalChecker (command : string).

(** The mode of a run by the precedence of the specification: the
    numeric tolerance first if configured, else the checker if
    configured, else the exact or the empty-means-any comparison. *)
Definition active_mode (cfg : config) : ComparisonMode :=
  match result_dist cfg with
  | Some eps => NumericTolerance eps
  | None =>
      match checker cfg with
      | Some command => ExternalChecker command
      | None => if empty_means_any cfg then EmptyMeansAny else ExactMatch
      end
  end.

(** The verdict of each mode: equality of the texts; any output when
    nothing is expected, equality otherwise; the distance of the two
    numbers, rounded to 10 decimals, against the tolerance ([None] when
    a text is not a number); the exit status [status] of the checker. *)
Definition spec_verdict (mode : ComparisonMode) (expected actual : string)
    (status : Z) : option bool :=
  match mode with
  | ExactMatch => Some (String.eqb expected actual)
  | EmptyMeansAny =>
      Some (if PyStr.is_empty expected then true else String.eqb expected actual)
  | NumericTolerance eps =>
      match PyFloat.of_string expected, PyFloat.of_string actual with
      | Some x, Some y =>
          Some (PyFloat.leb (PyFloat.round (PyFloat.abs (PyFloat.sub x y)) 10) eps)
      | _, _ => None
      end
  | ExternalChecker _ => Some (status =? 0)
  end.

(** ** The pool of tests *)

(** The two listings of lines 62 and 63 find as many files: the
    directory does not change in between. *)
Definition listing_stable {W} (E : Env W) : Prop :=
  forall pattern w l1 w1 l2 w2,
    glob E pattern w = (inl l1, w1) ->
    glob E pattern w1 = (inl l2, w2) ->
    List.length l2 = List.length l1.

(** [approx_total] cannot reach 0 while [n] tests remain: it counts at
    least the tests that remain, or it is negative. *)
Definition headroom (n : nat) (v : locals) : Prop :=
  Z.of_nat n <= approx_total v \/ approx_total v < 0.

(** The result is the [ZeroDivisionError] of a division of [main]. *)
Definition divides_by_zero {A} (r : res A) : bool :=
  match r with Raise ZeroDivisionError => true | _ => false end.

(** [approx_total] stays or goes down by one. *)
Definition pool_step (v v' : locals) : Prop :=
  approx_total v' = approx_total v \/ approx_total v' = approx_total v - 1.
(** ** The order of the tests, in properties *)

(** A piece of text between two numbers: no digit in it. *)
Definition is_text (p : string) : bool :=
  forallb (fun c => negb (PyFloat.is_digit c)) (list_ascii_of_string p).

(** A run of digits: at least one character, digits only. *)
Definition is_number (p : string) : bool :=
  negb (PyStr.is_empty p) && forallb PyFloat.is_digit (list_ascii_of_string p).

(** The names for which [tryint] is [int] as Python has it: ASCII only
    ([int] also reads the decimal digits of other scripts, which
    [[0-9]] does not match), and shorter than the 4300 digits beyond
    which [int] refuses a text. *)
Definition plain_name (f : string) : bool :=
  forallb (fun c => (nat_of_ascii c <? 128)%nat) (list_ascii_of_string f)
  && (String.length f <? 4300)%nat.

(** Texts and numbers in turn, a text last; [text_next] tells what the
    first piece is. *)
Fixpoint alternating (text_next : bool) (l : list string) : bool :=
  match l with
  | [] => negb text_next
  | p :: r =>
      (if text_next then is_text p else is_number p)
      && alternating (negb text_next) r
  end.

(** The same for the parts of a key. *)
Fixpoint key_shape (text_next : bool) (k : list Ordering.key_part) : bool :=
  match k with
  | [] => negb text_next
  | Ordering.KStr _ :: r => text_next && key_shape false r
  | Ordering.KInt _ :: r => negb text_next && key_shape true r
  end.

(** [a < b] on two lists compares the elements at the first position
    where they are not equal, and a number is never equal to a text:
    the comparison raises [TypeError] when it finds a number against a
    text there. *)
Fixpoint raises_TypeError (a b : list Ordering.key_part) : bool :=
  match a, b with
  | x :: a', y :: b' =>
      match x, y with
      | Ordering.KInt m, Ordering.KInt n =>
          if m =? n then raises_TypeError a' b' else false
      | Ordering.KStr s, Ordering.KStr t =>
          if String.eqb s t then raises_TypeError a' b' else false
      | _, _ => true
      end
  | _, _ => false
  end.

(** [f] does not come after [g] in natural order. *)
Definition natural_le (f g : string) : Prop :=
  Ordering.key_lt (Ordering.natural_key g) (Ordering.natural_key f) = false.

(** Neither of [f] and [g] comes before the other. *)
Definition natural_tie (f g : string) : bool :=
  negb (Ordering.key_lt (Ordering.natural_key f) (Ordering.natural_key g))
  && negb (Ordering.key_lt (Ordering.natural_key g) (Ordering.natural_key f)).

(** [[x for x in l if x == f]] counted: how often [f] stands in [l]. *)
Definition occurrences (f : string) (l : list string) : nat :=
  count_occ string_dec l f.

(** Nothing was printed and no variable changed from [s] to [s']: only
    the world may differ. *)
Definition same_but_world {W} (s s' : state W) : Prop :=
  stdout s' = stdout s /\ vars s' = vars s.

(** [main] told to sort the tests by size, to shuffle them, to run one
    test only. *)
Definition by_size (c : config) : config := {|
  app := app c; directory := directory c; checker := checker c;
  verbose := verbose c; extra_verbose := extra_verbose c;
  result_dist := result_dist c; one_file := one_file c; limit := limit c;
  shuffle := false; do_sort := true; natural_sort := false;
  empty_means_any := empty_means_any c; timer := timer c
|}.

Definition shuffled (c : config) : config := {|
  app := app c; directory := directory c; checker := checker c;
  verbose := verbose c; extra_verbose := extra_verbose c;
  result_dist := result_dist c; one_file := one_file c; limit := limit c;
  shuffle := true; do_sort := false; natural_sort := false;
  empty_means_any := empty_means_any c; timer := timer c
|}.

Definition only_test (name : string) (c : config) : config := {|
  app := app c; directory := directory c; checker := checker c;
  verbose := verbose c; extra_verbose := extra_verbose c;
  result_dist := result_dist c; one_file := Some name; limit := limit c;
  shuffle := shuffle c; do_sort := do_sort c; natural_sort := natural_sort c;
  empty_means_any := empty_means_any c; timer := timer c
|}.

(** ** Numbers *)

(** The sign of a number, when it has one and it is a minus. *)
Definition signed_minus (x : float) : bool :=
  match x with
  | S754_zero s | S754_infinity s | S754_finite s _ _ => s
  | S754_nan => false
  end.

(** ** The lines of output, by kind *)

(** The lines that report a test that could not be run or judged, with
    the blank line that sets them off from the progress bar. *)
Definition is_error_line (e : event) : bool :=
  match e with
  | EvBlank | EvMissingOut _ | EvEmptyInput _ | EvException _ _
  | EvTraceback _ => true
  | _ => false
  end.

(** How many tests were reported as skipped: no expected output, or an
    empty input. *)
Definition skipped (lines : list event) : Z :=
  Z.of_nat
    (List.length
       (filter (fun e => match e with
                         | EvMissingOut _ | EvEmptyInput _ => true
                         | _ => false
                         end) lines)).

(** How many tests were reported as failed by an exception of the
    program. *)
Definition crashed (lines : list event) : Z :=
  Z.of_nat
    (List.length
       (filter (fun e => match e with EvException _ _ => true | _ => false end)
          lines)).

(** The same system with the progress-bar library installed. *)
Definition with_progress_bar {W} (E : Env W) : Env W :=
  Build_Env W true (time_time E) (call_with_io E) (check_output E)
    (read_text E) (path_exists E) (listdir E) (glob E) (getsize E)
    (randbelow E).

(** How many blank lines were printed. *)
Definition blank_lines (lines : list event) : Z :=
  Z.of_nat
    (List.length
       (filter (fun e => match e with EvBlank => true | _ => false end) lines)).

(** The tests that came to an end so far: judged, skipped or failed by
    an exception. *)
Definition settled {W} (s : state W) : Z :=
  total (vars s) + skipped (stdout s) + crashed (stdout s).

(** Nothing ended between [s] and [s']. *)
Definition none_ended {W} (s s' : state W) : Prop :=
  total (vars s') = total (vars s)
  /\ approx_total (vars s') = approx_total (vars s)
  /\ skipped (stdout s') = skipped (stdout s)
  /\ crashed (stdout s') = crashed (stdout s).

(** One test ended between [s] and [s']: it was judged, or it was
    skipped and taken out of the pool, or its program failed. *)
Definition one_ended {W} (s s' : state W) : Prop :=
  (total (vars s') = total (vars s) + 1
   /\ approx_total (vars s') = approx_total (vars s)
   /\ skipped (stdout s') = skipped (stdout s)
   /\ crashed (stdout s') = crashed (stdout s))
  \/ (total (vars s') = total (vars s)
      /\ approx_total (vars s') = approx_total (vars s) - 1
      /\ skipped (stdout s') = skipped (stdout s) + 1
      /\ crashed (stdout s') = crashed (stdout s))
  \/ (total (vars s') = total (vars s)
      /\ approx_total (vars s') = approx_total (vars s)
      /\ skipped (stdout s') = skipped (stdout s)
      /\ crashed (stdout s') = crashed (stdout s) + 1).

(** [s'] has the output of [s] and after it lines that report errors
    only. *)
Definition only_errors_since {W} (s s' : state W) : Prop :=
  exists lines,
    stdout s' = stdout s ++ lines /\ forallb is_error_line lines = true.

(** How many lines "[+] Correct", "[-] Wrong" and "Test ..." there
    are. *)
Definition correct_lines (lines : list event) : Z :=
  Z.of_nat
    (List.length
       (filter (fun e => match e with EvCorrect => true | _ => false end) lines)).

Definition wrong_lines (lines : list event) : Z :=
  Z.of_nat
    (List.length
       (filter (fun e => match e with EvWrong _ _ => true | _ => false end) lines)).

Definition progress_lines (lines : list event) : Z :=
  Z.of_nat
    (List.length
       (filter (fun e => match e with EvTest _ _ _ _ _ => true | _ => false end)
          lines)).

(** The verdicts printed between [s] and [s'] are the verdicts
    counted: one line "[+] Correct" for each test counted as correct, and
    one line "[-] Wrong" for each name added to the failed tests, but
    with [-ev], which prints no such line. *)
Definition verdicts_shown {W} (cfg : config) (s s' : state W) : Prop :=
  correct (vars s') - correct_lines (stdout s')
  = correct (vars s) - correct_lines (stdout s)
  /\ (if extra_verbose cfg
      then wrong_lines (stdout s') = wrong_lines (stdout s)
      else Z.of_nat (List.length (wrong (vars s'))) - wrong_lines (stdout s')
           = Z.of_nat (List.length (wrong (vars s))) - wrong_lines (stdout s)).

(** One test left its name in the list of failed tests, in the list of
    overtime tests, in both or in none. *)
Definition listed (name : string) (v v' : locals) : Prop :=
  exists failed late : bool,
    wrong v' = wrong v ++ (if failed then [name] else [])
    /\ overtime v' = overtime v ++ (if late then [name] else []).

(** The names of the tests picked out of [files] by [picks], in the
    order of [files]. *)
Definition chosen (files : list string) (picks : list bool) : list string :=
  map PyStr.drop_last3 (map fst (filter snd (combine files picks))).

(** The state with one more reading of the world. *)
Definition seeing {W} (w : W) (s : state W) : state W :=
  {| world := w; stdout := stdout s; vars := vars s |}.

(** The progress line of line 93, when it is printed. *)
Definition progress_line (cfg : config) (file : string) (v : locals) : list event :=
  if verbose' cfg then
    [EvTest (PyStr.drop_last3 file)
       (if extra_verbose cfg
        then Some (file, (PyStr.drop_last3 file ++ ".out")%string) else None)
       (total v) (approx_total v) (percent (total v) (approx_total v))]
  else [].

(** ** Durations *)

(** The overtime counter counts the names of the overtime list, no more
    tests went overtime than were judged, and the durations are recorded
    for the judged tests when the timer is on and not at all otherwise. *)
Definition timing_consistent (cfg : config) (v : locals) : Prop :=
  overtime_count v = Z.of_nat (List.length (overtime v))
  /\ overtime_count v <= total v
  /\ (if timer cfg then Z.of_nat (List.length (times v)) = total v
      else times v = []).

(** The same while a verdict may be pending: the last test was timed
    and is not counted yet. *)
Definition timing_pending (cfg : config) (v : locals) : Prop :=
  overtime_count v = Z.of_nat (List.length (overtime v))
  /\ overtime_count v <= total v + 1
  /\ (if timer cfg then Z.of_nat (List.length (times v)) <= total v + 1
      else times v = []).

(** ** The fallback of [call_with_io] (lines 22-26)

    Without the [gamma] extension, [call_with_io] runs the command
    through [subprocess.run] with the input encoded as UTF-8, decodes
    what the command printed (an invalid sequence becomes the replacement
    character) and replaces every CR LF by LF. Text is a sequence of
    UTF-8 bytes here, so that encoding changes nothing; [subprocess_run]
    stands for the run and the decoding. *)

Module Fallback.

Definition CR : ascii := ascii_of_nat 13.
Definition LF : ascii := ascii_of_nat 10.

(** [s.replace("\r\n", "\n")]: from left to right, every CR that is
    followed by LF is left out. *)
Fixpoint crlf_to_lf (s : string) : string :=
  match s with
  | EmptyString => EmptyString
  | String c r =>
      match r with
      | String c' r' =>
          if Ascii.eqb c CR && Ascii.eqb c' LF
          then String LF (crlf_to_lf r')
          else String c (crlf_to_lf r)
      | EmptyString => String c EmptyString
      end
  end.

Definition call_with_io {W}
    (subprocess_run : string -> string -> W -> (string + os_exn) * W)
    (command input : string) (w : W) : (string + os_exn) * W :=
  let (r, w1) := subprocess_run command input w in
  (match r with
   | inl result => inl (crlf_to_lf result)
   | inr e => inr e
   end, w1).

(** The harness with the fallback in the place of [call_with_io]. *)
Definition env {W} (E : Env W)
    (subprocess_run : string -> string -> W -> (string + os_exn) * W) : Env W :=
  Build_Env W (tqdm_enabled E) (time_time E) (call_with_io subprocess_run)
    (check_output E) (read_text E) (path_exists E) (listdir E) (glob E)
    (getsize E) (randbelow E).

(** A CR LF somewhere in the text. *)
Fixpoint has_crlf (s : string) : bool :=
  match s with
  | EmptyString => false
  | String c r =>
      match r with
      | String c' _ => Ascii.eqb c CR && Ascii.eqb c' LF || has_crlf r
      | EmptyString => false
      end
  end.

(** The text without its carriage returns. *)
Fixpoint without_cr (s : string) : string :=
  match s with
  | EmptyString => EmptyString
  | String c r => if Ascii.eqb c CR then without_cr r else String c (without_cr r)
  end.

(** The number of line feeds. *)
Fixpoint line_feeds (s : string) : nat :=
  match s with
  | EmptyString => O
  | String c r => ((if Ascii.eqb c LF then 1 else 0) + line_feeds r)%nat
  end.

End Fallback.

(** ** The command line (lines 196-218)

    [arguments] is the namespace that [parser.parse_args()] returns; the
    parser makes [-s], [-S] and [-N] exclude one another, and [-d] and
    [-o] as well. [entry] is what the script does with it up to the call
    of [main]. *)

Record arguments : Type := {
  a_app : option string;
  a_checker : option string;
  a_verbose : bool;
  a_extra_verbose : bool;
  a_result_dist : option float;
  a_limit : option Z;
  a_auto : bool;
  a_empty_means_any : bool;
  a_timer : bool;
  a_shuffle : bool;
  a_do_sort : bool;
  a_natural_sort : bool;
  a_dir : option string;
  a_one_file : option string
}.

(** The namespace of a command line without options, and what [-a],
    [-d] and [-x] change in it. *)
Definition no_arguments : arguments := {|
  a_app := None; a_checker := None; a_verbose := false;
  a_extra_verbose := false; a_result_dist := None; a_limit := None;
  a_auto := false; a_empty_means_any := false; a_timer := false;
  a_shuffle := false; a_do_sort := false; a_natural_sort := false;
  a_dir := None; a_one_file := None
|}.

Definition with_app (command : string) (a : arguments) : arguments := {|
  a_app := Some command; a_checker := a_checker a; a_verbose := a_verbose a;
  a_extra_verbose := a_extra_verbose a; a_result_dist := a_result_dist a;
  a_limit := a_limit a; a_auto := a_auto a;
  a_empty_means_any := a_empty_means_any a; a_timer := a_timer a;
  a_shuffle := a_shuffle a; a_do_sort := a_do_sort a;
  a_natural_sort := a_natural_sort a; a_dir := a_dir a;
  a_one_file := a_one_file a
|}.

Definition with_dir (d : string) (a : arguments) : arguments := {|
  a_app := a_app a; a_checker := a_checker a; a_verbose := a_verbose a;
  a_extra_verbose := a_extra_verbose a; a_result_dist := a_result_dist a;
  a_limit := a_limit a; a_auto := a_auto a;
  a_empty_means_any := a_empty_means_any a; a_timer := a_timer a;
  a_shuffle := a_shuffle a; a_do_sort := a_do_sort a;
  a_natural_sort := a_natural_sort a; a_dir := Some d;
  a_one_file := a_one_file a
|}.

Definition with_auto (a : arguments) : arguments := {|
  a_app := a_app a; a_checker := a_checker a; a_verbose := a_verbose a;
  a_extra_verbose := a_extra_verbose a; a_result_dist := a_result_dist a;
  a_limit := a_limit a; a_auto := true;
  a_empty_means_any := a_empty_means_any a; a_timer := a_timer a;
  a_shuffle := a_shuffle a; a_do_sort := a_do_sort a;
  a_natural_sort := a_natural_sort a; a_dir := a_dir a;
  a_one_file := a_one_file a
|}.

(** The truth value of an optional text: [None] and the empty text are
    false. *)
Definition given (x : option string) : bool :=
  match x with
  | Some (String _ _) => true
  | _ => false
  end.

(** The two calls of [parser.error], which prints the message and ends
    the script with status 2. *)
Inductive usage_error : Type :=
| AmbiguousAuto (found : Z)
| AppNotProvided.

(** Line 212: "directory argument not provided{}. using cwd (tests/)",
    with ", nor the --auto switch was enabled" in the braces when
    [nor_auto] holds. *)
Inductive notice : Type :=
| DirectoryNotProvided (nor_auto : bool).

(** What the script calls [main] with, as far as lines 202-217 decide
    it, and what it printed before. *)
Record launch : Type := {
  l_app : option string;
  l_directory : string;
  l_natural_sort : bool;
  l_notice : option notice
}.

Inductive outcome : Type :=
| Refused (error : usage_error)
| Raised (e : os_exn)
| Launched (l : launch).

Section Entry.
Context {W : Type} (E : Env W).

(** [os.path.normpath], a function of the path alone, and
    [os.path.realpath], which asks the file system. *)
Context (normpath : string -> string)
        (realpath : option string -> W -> (string + os_exn) * W).

(** Lines 202-208: with [--auto] and neither an application nor a
    directory, the application is the one [*.exe] file and the directory
    is [tests]. *)
Definition locate (a : arguments) (w : W)
  : (option string * option string + outcome) * W :=
  if a_auto a && negb (given (a_app a) || given (a_dir a)) then
    match glob E "*.exe" w with
    | (inl exelist, w1) =>
        match exelist with
        | [exe] => (inl (Some exe, Some "tests"), w1)
        | _ => (inr (Refused (AmbiguousAuto (Z.of_nat (List.length exelist)))), w1)
        end
    | (inr e, w1) => (inr (Raised e), w1)
    end
  else (inl (a_app a, a_dir a), w).

(** Lines 202-217. *)
Definition entry (a : arguments) (w : W) : outcome * W :=
  match locate a w with
  | (inr stop, w1) => (stop, w1)
  | (inl (app, dir0), w1) =>
      if negb (given app) && negb (a_auto a) then (Refused AppNotProvided, w1)
      else
        let note :=
          if given dir0 then None
          else Some (DirectoryNotProvided (negb (a_auto a))) in
        let dir1 := if given dir0 then dir0 else Some "tests" in
        let natural :=
          if negb (a_shuffle a) && negb (a_do_sort a) && negb (a_natural_sort a)
          then true else a_natural_sort a in
        let (resolved, w2) :=
          match dir1 with
          | Some (String c d) => (inl (normpath (String c d)), w1)
          | _ => realpath (a_one_file a) w1
          end in
        match resolved with
        | inl d =>
            (Launched {| l_app := app; l_directory := d;
                         l_natural_sort := natural; l_notice := note |}, w2)
        | inr e => (Raised e, w2)
        end
  end.

End Entry.

(** The directory that is used: the one given, or [tests]. *)
Definition directory_or_tests (a : arguments) : string :=
  match a_dir a with
  | Some (String c d) => String c d
  | _ => "tests"
  end.

(** Lines 214-215: natural order is the order when none is asked for. *)
Definition natural_or_default (a : arguments) : bool :=
  if negb (a_shuffle a) && negb (a_do_sort a) && negb (a_natural_sort a)
  then true else a_natural_sort a.

(** Lines 202 and 203: the script looks for the application itself. *)
Definition searches (a : arguments) : bool :=
  a_auto a && negb (given (a_app a) || given (a_dir a)).

(** A file system without symbolic links, for which [normpath] and
    [realpath] have nothing to do on a plain relative name. *)
Definition plain_normpath (path : string) : string := path.
Definition plain_realpath {W} (path : option string) (w : W)
  : (string + os_exn) * W :=
  (match path with
   | Some p => inl p
   | None => inr (Failure "TypeError")
   end, w).

(** Line 218: the arguments of [main], for an application [app]. *)
Definition launch_config (a : arguments) (l : launch) (app : string) : config := {|
  app := app;
  directory := l_directory l;
  checker := a_checker a;
  verbose := a_verbose a;
  extra_verbose := a_extra_verbose a;
  result_dist := a_result_dist a;
  one_file := a_one_file a;
  limit := a_limit a;
  shuffle := a_shuffle a;
  do_sort := a_do_sort a;
  natural_sort := l_natural_sort l;
  empty_means_any := a_empty_means_any a;
  timer := a_timer a
|}.


(** * Properties *)

(** ** Rules of [wp] *)

Section LogicRules.
Context {W : Type}.

Lemma wp_run {A} (m : M W A) Q s r s' :
  m s = (r, s') -> wp m Q s -> Q r s'.
Proof. unfold wp. intros ->. exact (fun H => H). Qed.

Lemma wp_conseq {A} (m : M W A) (P Q : res A -> state W -> Prop) s :
  wp m P s -> (forall r s', P r s' -> Q r s') -> wp m Q s.
Proof. unfold wp. auto. Qed.

Lemma wp_ret {A} (a : A) (Q : res A -> state W -> Prop) s :
  Q (Ret a) s -> wp (ret a) Q s.
Proof. exact (fun H => H). Qed.

Lemma wp_raise {A} e (Q : res A -> state W -> Prop) s :
  Q (Raise e) s -> wp (raise e) Q s.
Proof. exact (fun H => H). Qed.

Lemma wp_bind {A B} (m : M W A) (f : A -> M W B) Q s :
  wp m (bind_post f Q) s -> wp (bind m f) Q s.
Proof.
  unfold wp, bind_post, bind. destruct (m s) as [[a|e] s1]; exact (fun H => H).
Qed.

Lemma wp_try_else {A B} (m : M W A) catches (handler : exn -> M W B) orelse Q s :
  wp m (try_post catches handler orelse Q) s ->
  wp (try_else m catches handler orelse) Q s.
Proof.
  unfold wp, try_post, try_else. destruct (m s) as [[a|e] s1]; cbn.
  - exact (fun H => H).
  - destruct (catches e); exact (fun H => H).
Qed.

Lemma wp_get_vars (Q : res locals -> state W -> Prop) s :
  Q (Ret (vars s)) s -> wp get_vars Q s.
Proof. exact (fun H => H). Qed.

Lemma wp_modify_vars f (Q : res unit -> state W -> Prop) s :
  Q (Ret tt) {| world := world s; stdout := stdout s; vars := f (vars s) |} ->
  wp (modify_vars f) Q s.
Proof. exact (fun H => H). Qed.

Lemma wp_print ev (Q : res unit -> state W -> Prop) s :
  Q (Ret tt) {| world := world s; stdout := stdout s ++ [ev]; vars := vars s |} ->
  wp (print ev) Q s.
Proof. exact (fun H => H). Qed.

Lemma wp_os_call {A} (f : W -> (A + os_exn) * W) (Q : res A -> state W -> Prop) s :
  (forall r w,
      f (world s) = (r, w) ->
      Q (match r with inl a => Ret a | inr e => Raise (of_os_exn e) end)
        {| world := w; stdout := stdout s; vars := vars s |}) ->
  wp (os_call f) Q s.
Proof.
  unfold wp, os_call. intros H. destruct (f (world s)) as [r w] eqn:Hf.
  specialize (H r w eq_refl). destruct r; exact H.
Qed.

Lemma wp_for_each {A} (body : A -> M W unit) (I : state W -> Prop)
    (Q : res unit -> state W -> Prop) l s :
  I s ->
  (forall x s1, In x l -> I s1 ->
     wp (body x) (fun r s2 => match r with Ret _ => I s2 | Raise e => Q (Raise e) s2 end) s1) ->
  (forall s1, I s1 -> Q (Ret tt) s1) ->
  wp (for_each body l) Q s.
Proof.
  revert s. induction l as [|x l IH]; intros s HI Hbody Hend; cbn [for_each].
  - apply wp_ret. auto.
  - apply wp_bind. eapply wp_conseq.
    + apply Hbody; [left; reflexivity | exact HI].
    + intros [[]|e] s1 H; cbn; [|exact H].
      apply IH; auto. intros y s2 Hy. apply Hbody. right. exact Hy.
Qed.

Lemma wp_percentage a b (Q : res float -> state W -> Prop) s :
  (b = 0 -> Q (Raise ZeroDivisionError) s) ->
  (b <> 0 -> Q (Ret (percent a b)) s) ->
  wp (percentage a b) Q s.
Proof.
  unfold wp, percentage, PyFloat.int_truediv, percent.
  destruct (Z.eqb_spec b 0); cbn; auto.
Qed.

Lemma wp_eq {A} (m : M W A) s r s' :
  wp m (fun r0 s0 => r0 = r /\ s0 = s') s -> m s = (r, s').
Proof.
  unfold wp. intros [<- <-]. apply surjective_pairing.
Qed.

End LogicRules.

(** One step of a computation: the rule of its head, a case analysis
    where it branches. *)
Ltac wp_step :=
  lazymatch goal with
  | |- wp (bind _ _) _ _ => apply wp_bind
  | |- wp (ret _) _ _ => apply wp_ret
  | |- wp (raise _) _ _ => apply wp_raise
  | |- wp (print _) _ _ => apply wp_print
  | |- wp (modify_vars _) _ _ => apply wp_modify_vars
  | |- wp get_vars _ _ => apply wp_get_vars
  | |- wp (percentage _ _) _ _ =>
      let H := fresh "Hdiv" in apply wp_percentage; intros H
  | |- wp (try_else _ _ _ _) _ _ => apply wp_try_else
  | |- wp (os_call _) _ _ =>
      let r := fresh "r" in let w := fresh "w" in let H := fresh "Hos" in
      apply wp_os_call; intros r w H; destruct r
  | |- wp (when ?b _) _ _ => unfold when at 1
  | |- wp (if ?b then _ else _) _ _ => let H := fresh "Hb" in destruct b eqn:H
  | |- wp (match ?x with _ => _ end) _ _ => let H := fresh "Hx" in destruct x eqn:H
  | |- bind_post _ _ _ _ => unfold bind_post at 1; cbv beta iota
  | |- try_post _ _ _ _ _ _ => unfold try_post at 1; cbv beta iota
  | |- (if ?b then _ else _) => let H := fresh "Hb" in destruct b eqn:H
  end.

Ltac wp_steps := repeat wp_step.

(** Projections of the states and variables built along the way. *)
Ltac simpl_state :=
  unfold printing in *;
  cbn [vars stdout world total correct wrong approx_total overtime
       overtime_count times set_total set_correct set_wrong set_approx_total
       add_overtime set_times fresh_locals fst snd] in *.

(** Two states are equal: the same lines, however they were appended. *)
Ltac state_eq :=
  simpl_state; repeat rewrite <- app_assoc; cbn [List.app]; reflexivity.

(** ** The statistics add up *)

Section Accounting.
Context {W : Type} (E : Env W) (cfg : config).

Lemma same_stats_accounted v v' : same_stats v v' -> accounted v -> accounted v'.
Proof. unfold same_stats, accounted. intros (-> & -> & ->). auto. Qed.

Lemma counted_accounted name v v' : counted name v v' -> accounted v -> accounted v'.
Proof.
  unfold counted, accounted.
  intros (-> & [(-> & ->) | (-> & ->)]) H.
  - lia.
  - rewrite length_app. cbn. lia.
Qed.

(** The evaluation of a verdict changes no variable of [main]. *)
Lemma evaluate_vars indata outdata out (s : state W) :
  wp (evaluate E cfg indata outdata out) (fun _ s' => vars s' = vars s) s.
Proof.
  unfold evaluate, call_for_status_code, extra_verbose_print.
  wp_steps; cbn; try reflexivity.
  all: wp_steps; cbn; reflexivity.
Qed.

(** A test that reaches the verdict is counted once; an exception on the
    way leaves the counters alone. *)
Lemma judge_counts test_name indata outdata out time_taken (s : state W) :
  wp (judge E cfg test_name indata outdata out time_taken)
     (fun r s' =>
        match r with
        | Ret _ => counted test_name (vars s) (vars s')
        | Raise _ => same_stats (vars s) (vars s')
        end) s.
Proof.
  unfold judge, verbose_print, extra_verbose_print.
  wp_steps.
  all: (eapply wp_conseq; [apply evaluate_vars|]);
    intros [[b shown]|e] s1 Hv; unfold bind_post; simpl_state;
    [|rewrite Hv; simpl_state; repeat split].
  all: wp_steps; simpl_state; rewrite ?Hv; unfold counted; simpl_state;
    intuition lia.
Qed.

(** A whole test: counted once, or not at all. *)
Lemma run_case_counts tq test_name infile indata outdata (s : state W) :
  wp (run_case E cfg tq test_name infile indata outdata)
     (fun r s' =>
        match r with
        | Ret _ => same_stats (vars s) (vars s') \/ counted test_name (vars s) (vars s')
        | Raise _ => same_stats (vars s) (vars s')
        end) s.
Proof.
  unfold run_case, try_case, call_with_io_timed, extra_verbose_print.
  wp_steps; simpl_state; try (left; repeat split); try (repeat split).
  all: try (eapply wp_conseq; [apply judge_counts|]; simpl_state;
            intros [[]|?] ? ?; auto).
Qed.

Lemma for_body_counts all_files tq file (s : state W) :
  wp (for_body E cfg all_files tq file)
     (fun r s' =>
        match r with
        | Ret _ => same_stats (vars s) (vars s')
                   \/ counted (PyStr.drop_last3 file) (vars s) (vars s')
        | Raise _ => same_stats (vars s) (vars s')
        end) s.
Proof.
  unfold for_body, open_case, readfile, verbose_print.
  wp_steps; simpl_state; try (left; repeat split); try (repeat split).
  all: try (eapply wp_conseq; [apply run_case_counts|]; simpl_state;
            intros [[]|?] ? ?; auto).
Qed.

Lemma test_loop_accounted all_files files (s : state W) :
  accounted (vars s) ->
  wp (test_loop E cfg all_files files) (fun _ s' => accounted (vars s')) s.
Proof.
  intros H. unfold test_loop.
  apply wp_for_each with (I := fun s1 => accounted (vars s1)); auto.
  intros file s1 _ H1. eapply wp_conseq; [apply for_body_counts|].
  intros [[]|e] s2 H2.
  - destruct H2; eauto using same_stats_accounted, counted_accounted.
  - eauto using same_stats_accounted.
Qed.

End Accounting.

(** ** How exceptions and results travel through [main] *)

Section Plumbing.
Context {W : Type} (E : Env W) (cfg : config).

Lemma bind_ret_run {A B} (m : M W A) (f : A -> M W B) s a s1 :
  m s = (Ret a, s1) -> bind m f s = f a s1.
Proof. unfold bind. intros ->. reflexivity. Qed.

Lemma bind_raise_run {A B} (m : M W A) (f : A -> M W B) s e s1 :
  m s = (Raise e, s1) -> bind m f s = (Raise e, s1).
Proof. unfold bind. intros ->. reflexivity. Qed.

Lemma bind_same_run {A B} (m1 m2 : M W A) (f : A -> M W B) s :
  m1 s = m2 s -> bind m1 f s = bind m2 f s.
Proof. unfold bind. intros ->. reflexivity. Qed.

(** An exception of the body ends the loop: no later element is tried. *)
Lemma for_each_raise {A} (body : A -> M W unit) x rest s e s' :
  body x s = (Raise e, s') -> for_each body (x :: rest) s = (Raise e, s').
Proof. intros H. cbn [for_each]. apply bind_raise_run. exact H. Qed.

Lemma for_each_app {A} (body : A -> M W unit) pre post s :
  for_each body (pre ++ post) s
  = bind (for_each body pre) (fun _ => for_each body post) s.
Proof.
  revert s. induction pre as [|x pre IH]; intros s; cbn [for_each List.app].
  - reflexivity.
  - unfold bind. destruct (body x s) as [[[]|e] s1]; [|reflexivity].
    rewrite IH. reflexivity.
Qed.

Lemma percentage_nonzero a b (s : state W) :
  b <> 0 -> percentage a b s = (Ret (percent a b), s).
Proof.
  intros Hb. unfold percentage, PyFloat.int_truediv.
  destruct (Z.eqb_spec b 0); [contradiction|reflexivity].
Qed.

(** The report is a function of the statistics: it prints
    [report_lines] and returns whether a test was counted. *)
Lemma report_eq (s : state W) :
  report cfg s
  = (Ret (negb (total (vars s) =? 0)), printing (report_lines cfg (vars s)) s).
Proof.
  apply wp_eq. unfold report, report_lines.
  apply wp_bind, wp_print. wp_step.
  apply wp_bind, wp_get_vars. wp_step. simpl_state.
  destruct (Z.eqb_spec (total (vars s)) 0) as [H0|H0].
  - wp_steps. split; [reflexivity|state_eq].
  - cbn [negb].
    destruct (wrong (vars s)) as [|w ws] eqn:Hw;
    destruct (overtime (vars s)) as [|o os] eqn:Ho;
    destruct (timer cfg) eqn:Ht;
    wp_steps; simpl_state; try contradiction; try discriminate;
    (split; [reflexivity|rewrite ?Hw, ?Ho; state_eq]).
Qed.

(** The run after the loop: an interrupted loop and a finished one are
    followed by the same report; any other exception leaves [main]. *)
Lemma run_tests_eq all_files files approx (s : state W) :
  run_tests E cfg all_files files approx s
  = let s0 := {| world := world s; stdout := stdout s;
                 vars := fresh_locals approx |} in
    match test_loop E cfg all_files files s0 with
    | (Ret _, s1) => report cfg s1
    | (Raise KeyboardInterrupt, s1) => report cfg s1
    | (Raise e, s1) => (Raise e, s1)
    end.
Proof.
  unfold run_tests. unfold bind at 1. cbn [modify_vars].
  unfold bind at 1, try_else.
  destruct (test_loop E cfg all_files files _) as [[[]|e] s1]; [reflexivity|].
  destruct e; reflexivity.
Qed.

End Plumbing.

(** ** One test, step by step *)

Section Cases.
Context {W : Type} (E : Env W) (cfg : config).

Lemma call_with_io_timed_vars command input (s : state W) :
  wp (call_with_io_timed E command input) (fun _ s' => vars s' = vars s) s.
Proof. unfold call_with_io_timed. wp_steps; reflexivity. Qed.

(** An exception of the program is reported and the test is dropped. *)
Lemma try_case_exception tq test_name indata outdata (s : state W) e s1 :
  call_with_io_timed E (app cfg) indata s = (Raise e, s1) ->
  is_Exception e = true ->
  try_case E cfg tq test_name indata outdata s
  = (Ret tt,
     printing ((if tq then [EvBlank] else [])
               ++ [EvException test_name (app cfg); EvTraceback e]) s1).
Proof.
  intros Hcall He. unfold try_case, try_else.
  rewrite (bind_raise_run _ _ _ _ _ Hcall), He.
  apply wp_eq. destruct tq; wp_steps; (split; [reflexivity|state_eq]).
Qed.

(** Once the program ran, the test goes on to [judge]; what [judge]
    raises is not caught. *)
Lemma try_case_judge tq test_name indata outdata (s : state W) raw t s1 :
  call_with_io_timed E (app cfg) indata s = (Ret (raw, t), s1) ->
  try_case E cfg tq test_name indata outdata s
  = judge E cfg test_name indata outdata (PyStr.strip raw) t s1.
Proof.
  intros Hcall. unfold try_case, try_else.
  rewrite (bind_ret_run _ _ _ _ _ Hcall). reflexivity.
Qed.

Lemma run_case_try_case tq test_name infile indata outdata (s : state W) :
  PyStr.is_empty indata = false ->
  run_case E cfg tq test_name infile indata outdata s
  = try_case E cfg tq test_name indata outdata
      (printing (case_lines cfg indata outdata) s).
Proof.
  intros Hin. unfold run_case, case_lines, extra_verbose_print. rewrite Hin.
  destruct (extra_verbose cfg); cbn [when]; unfold bind, print, ret, printing;
    cbn [stdout vars world]; rewrite <- ?app_assoc, ?app_nil_r; destruct s; reflexivity.
Qed.

Lemma for_body_reaches all_files tq file (s : state W) indata outdata out t s_j :
  reaches_verdict E cfg all_files file s indata outdata out t s_j ->
  for_body E cfg all_files tq file s
  = judge E cfg (PyStr.drop_last3 file) indata outdata out t s_j.
Proof.
  intros (s1 & s2 & raw & Hopen & Hout & Hin & Hcall & ->).
  unfold for_body. rewrite (bind_ret_run _ _ _ _ _ Hopen).
  destruct Hout as [(Hmem & Hstrict & -> & ->) | (Hmem & raw_out & Hread & ->)];
    rewrite Hmem; cbn [negb].
  - rewrite Hstrict, (run_case_try_case _ _ _ _ _ _ Hin).
    apply try_case_judge. exact Hcall.
  - rewrite (bind_ret_run _ _ _ _ _ Hread), (run_case_try_case _ _ _ _ _ _ Hin).
    apply try_case_judge. exact Hcall.
Qed.

(** A test without a file of expected output, once its input was read:
    an error when "empty means any" is off and there is no checker, a
    test with an empty expected output otherwise. *)
Lemma for_body_missing_out all_files tq file (s : state W) indata s1 :
  open_case E cfg (PyStr.drop_last3 file) file
    (if extra_verbose cfg
     then Some (file, (PyStr.drop_last3 file ++ ".out")%string) else None) s
  = (Ret indata, s1) ->
  PyStr.mem (PyStr.drop_last3 file ++ ".out") all_files = false ->
  for_body E cfg all_files tq file s
  = if negb (empty_means_any cfg)
       && match checker cfg with None => true | Some _ => false end
    then (Ret tt,
          {| world := world s1;
             stdout := stdout s1 ++ (if tq then [EvBlank] else [])
                       ++ [EvMissingOut file];
             vars := set_approx_total (fun n => n - 1) (vars s1) |})
    else run_case E cfg tq (PyStr.drop_last3 file) file indata "" s1.
Proof.
  intros Hopen Hmem. unfold for_body.
  rewrite (bind_ret_run _ _ _ _ _ Hopen), Hmem. cbn [negb].
  unfold missing_out_is_error.
  destruct (negb (empty_means_any cfg)
            && match checker cfg with None => true | Some _ => false end);
    [|reflexivity].
  apply wp_eq. destruct tq; wp_steps; (split; [reflexivity|state_eq]).
Qed.

Lemma missing_out_reports_app l1 l2 :
  missing_out_reports (l1 ++ l2) = (missing_out_reports l1 + missing_out_reports l2)%nat.
Proof. unfold missing_out_reports. rewrite filter_app, length_app. reflexivity. Qed.

(** From the check of the input on, a test reports no missing file. *)
Lemma run_case_reports_no_missing_out tq test_name infile indata outdata (s : state W) :
  wp (run_case E cfg tq test_name infile indata outdata)
     (fun _ s' => missing_out_reports (stdout s') = missing_out_reports (stdout s)) s.
Proof.
  assert (Heval : forall i o u (s0 : state W),
             wp (evaluate E cfg i o u)
                (fun _ s' => missing_out_reports (stdout s')
                             = missing_out_reports (stdout s0)) s0).
  { intros. unfold evaluate, call_for_status_code, extra_verbose_print.
    wp_steps; simpl_state; try congruence; try reflexivity.
    all: wp_steps; simpl_state; rewrite ?missing_out_reports_app; cbn; try lia;
      try congruence. }
  assert (Hjudge : forall n i o u t (s0 : state W),
             wp (judge E cfg n i o u t)
                (fun _ s' => missing_out_reports (stdout s')
                             = missing_out_reports (stdout s0)) s0).
  { intros. unfold judge, verbose_print, extra_verbose_print. wp_steps.
    all: (eapply wp_conseq; [apply Heval|]);
      intros [[b shown]|e] s1 Hv; unfold bind_post; simpl_state;
      [|rewrite Hv, ?missing_out_reports_app; cbn; lia].
    all: wp_steps; simpl_state; rewrite ?missing_out_reports_app, ?Hv,
           ?missing_out_reports_app; cbn; lia. }
  unfold run_case, try_case, call_with_io_timed, extra_verbose_print.
  wp_steps; simpl_state; try congruence;
    rewrite ?missing_out_reports_app; cbn; try lia.
  all: try (eapply wp_conseq; [apply Hjudge|]; simpl_state;
            intros ? ? ->; rewrite ?missing_out_reports_app; cbn; lia).
Qed.

(** [judge] up to the verdict. *)
Lemma judge_eq test_name indata outdata out t (s : state W) :
  judge E cfg test_name indata outdata out t s
  = bind (evaluate E cfg indata outdata out)
      (fun verdict =>
         (if fst verdict then
            verbose_print cfg EvCorrect ;;
            modify_vars (set_correct (Z.add 1))
          else
            when (negb (extra_verbose cfg))
                 (verbose_print cfg (EvWrong (snd verdict) out)) ;;
            modify_vars (set_wrong (fun l => l ++ [test_name]))) ;;
         modify_vars (set_total (Z.add 1)))
      (before_verdict cfg test_name out t s).
Proof.
  unfold judge, before_verdict, extra_verbose_print.
  destruct (verbose' cfg && (timer cfg || PyFloat.ltb (PyFloat.of_Z 1) t));
    destruct (PyFloat.ltb (PyFloat.of_Z 1) t);
    destruct (timer cfg); destruct (extra_verbose cfg);
    cbn [when]; unfold bind at 1 2 3 4; unfold print, modify_vars, ret;
    cbn [stdout vars world]; rewrite <- ?app_assoc, ?app_nil_r;
    cbn [List.app]; destruct s; reflexivity.
Qed.

Lemma open_case_vars test_name infile filenote (s : state W) :
  wp (open_case E cfg test_name infile filenote) (fun _ s' => vars s' = vars s) s.
Proof. unfold open_case, readfile, verbose_print. wp_steps; reflexivity. Qed.

Lemma readfile_vars filename (s : state W) :
  wp (readfile E filename) (fun _ s' => vars s' = vars s) s.
Proof. unfold readfile. wp_steps; reflexivity. Qed.

(** Nothing is counted before line 121. *)
Lemma reaches_verdict_vars all_files file (s : state W) indata outdata out t s_j :
  reaches_verdict E cfg all_files file s indata outdata out t s_j ->
  vars s_j = vars s.
Proof.
  intros (s1 & s2 & raw & Hopen & Hout & _ & Hcall & _).
  pose proof (wp_run _ _ _ _ _ Hopen (open_case_vars _ _ _ s)) as H1.
  pose proof (wp_run _ _ _ _ _ Hcall (call_with_io_timed_vars _ _ _)) as Hj.
  cbv beta in H1, Hj. simpl_state. rewrite Hj, <- H1.
  destruct Hout as [(_ & _ & _ & ->) | (_ & raw_out & Hread & _)]; [reflexivity|].
  exact (wp_run _ _ _ _ _ Hread (readfile_vars _ s1)).
Qed.

End Cases.

(** ** The scenarios of the specification, run *)

(** Natural order compares the runs of digits as numbers. *)
Example natural_sort_numbers :
  Ordering.natural_sorted ["t2"; "t10"; "t1"] = ["t1"; "t2"; "t10"].
Proof. vm_compute. reflexivity. Qed.

(** Scenario A: [a.in] and [a.out] hold 5 and the program echoes its
    input: "Correct 1 out of 1 (100.0%)". *)
Example scenario_echo_correct :
  (fst (Script.run Script.defaults (Script.tests [("a.in", "5"); ("a.out", "5")])),
   stdout (snd (Script.run Script.defaults
                  (Script.tests [("a.in", "5"); ("a.out", "5")]))))
  = (Ret true, [EvDone "./app"; EvSummary 1 1 (PyFloat.of_Z 100)]).
Proof. vm_compute. reflexivity. Qed.

(** Scenario B: [a.out] holds 6: the test is listed as failed, "Correct 0
    out of 1 (0.0%)". *)
Example scenario_echo_wrong :
  (fst (Script.run Script.defaults (Script.tests [("a.in", "5"); ("a.out", "6")])),
   stdout (snd (Script.run Script.defaults
                  (Script.tests [("a.in", "5"); ("a.out", "6")]))))
  = (Ret true,
     [EvDone "./app"; EvSummary 0 1 (PyFloat.of_Z 0);
      EvFailedHeader; EvNames ["tests/a"]]).
Proof. vm_compute. reflexivity. Qed.

(** Scenario C: no [a.out] and "empty means any": the test is correct. *)
Example scenario_empty_means_any :
  (fst (Script.run (Script.with_empty_means_any Script.defaults)
          (Script.tests [("a.in", "5")])),
   stdout (snd (Script.run (Script.with_empty_means_any Script.defaults)
                  (Script.tests [("a.in", "5")]))))
  = (Ret true, [EvDone "./app"; EvSummary 1 1 (PyFloat.of_Z 100)]).
Proof. vm_compute. reflexivity. Qed.

(** Scenario D: tolerance 0.01, expected 3.14159, output 3.14. *)
Example scenario_tolerance :
  within_tolerance (PyFloat.ratio false 1 100) "3.14159" "3.14" = Some true.
Proof. vm_compute. reflexivity. Qed.

(** The overtime scenario: a program that takes 2 seconds is listed as
    overtime, correct or not. *)
Example scenario_overtime :
  stdout (snd (Script.run Script.defaults
                 (Script.with_clock [PyFloat.of_Z 0; PyFloat.of_Z 2]
                    (Script.tests [("a.in", "5"); ("a.out", "6")]))))
  = [EvDone "./app"; EvSummary 0 1 (PyFloat.of_Z 0);
     EvFailedHeader; EvNames ["tests/a"];
     EvOvertime 1 1 (PyFloat.of_Z 100); EvNames ["tests/a"]].
Proof. vm_compute. reflexivity. Qed.

(** * The claims *)

(** ** C1: the statistics add up *)

(** C1. For every run of the loop that is not cancelled, the statistics
    add up at its end: [total == correct + len(wrong)] holds after the
    loop whenever it held before, it holds when the loop starts, and the
    report changes no statistic, so it holds at the end of the run.
    A test that reaches the verdict and gets one adds one to [total] and
    either one to [correct] or its name to [wrong]; a test whose program
    raises an exception is reported and changes no variable. (Ctrl-C
    reaches this model inside a library call only; in Python it may also
    fall between [correct += 1] and [total += 1], which is why the claim
    is about runs that are not cancelled.) *)
Theorem statistics_add_up {W} (E : Env W) (cfg : config) (all_files : list string) :
  (forall files (s : state W) r s',
      accounted (vars s) ->
      test_loop E cfg all_files files s = (r, s') ->
      r <> Raise KeyboardInterrupt ->
      accounted (vars s'))
  /\ (forall files approx (s : state W) r s1,
        test_loop E cfg all_files files
          {| world := world s; stdout := stdout s; vars := fresh_locals approx |}
        = (r, s1) ->
        r <> Raise KeyboardInterrupt ->
        accounted (vars s1)
        /\ vars (snd (run_tests E cfg all_files files approx s)) = vars s1)
  /\ (forall tq file (s : state W) indata outdata out t s_j s',
        reaches_verdict E cfg all_files file s indata outdata out t s_j ->
        for_body E cfg all_files tq file s = (Ret tt, s') ->
        counted (PyStr.drop_last3 file) (vars s) (vars s'))
  /\ (forall tq test_name indata outdata (s : state W) e s1,
        call_with_io_timed E (app cfg) indata s = (Raise e, s1) ->
        is_Exception e = true ->
        exists s',
          try_case E cfg tq test_name indata outdata s = (Ret tt, s')
          /\ vars s' = vars s).
Proof.
  split; [|split; [|split]].
  - intros files s r s' Hs Hrun _.
    exact (wp_run _ _ _ _ _ Hrun (test_loop_accounted E cfg all_files files s Hs)).
  - intros files approx s r s1 Hrun _. split.
    + refine (wp_run _ _ _ _ _ Hrun (test_loop_accounted E cfg all_files files _ _)).
      reflexivity.
    + rewrite run_tests_eq. cbv zeta. rewrite Hrun.
      destruct r as [[]|e]; [rewrite report_eq; reflexivity|].
      destruct e; try reflexivity. rewrite report_eq. reflexivity.
  - intros tq file s indata outdata out t s_j s' Hreach Hrun.
    rewrite (for_body_reaches E cfg all_files tq file s _ _ _ _ _ Hreach) in Hrun.
    rewrite <- (reaches_verdict_vars E cfg _ _ _ _ _ _ _ _ Hreach).
    exact (wp_run _ _ _ _ _ Hrun (judge_counts E cfg _ _ _ _ _ s_j)).
  - intros tq test_name indata outdata s e s1 Hcall He.
    rewrite (try_case_exception E cfg tq _ _ _ _ _ _ Hcall He).
    eexists. split; [reflexivity|]. simpl_state.
    exact (wp_run _ _ _ _ _ Hcall (call_with_io_timed_vars E _ _ s)).
Qed.

(** Two tests: [a] is judged wrong, [b] has no expected output and is
    dropped. *)
Lemma statistics_add_up_witness :
  vars (snd (test_loop Script.env Script.defaults ["tests/a.out"]
               ["tests/a.in"; "tests/b.in"]
               (loop_state 2 (Script.tests [("a.in", "5"); ("a.out", "6");
                                            ("b.in", "7")]))))
  = {| approx_total := 1; total := 1; correct := 0; overtime_count := 0;
       wrong := ["tests/a"]; overtime := []; times := [] |}
  /\ accounted
       (vars (snd (test_loop Script.env Script.defaults ["tests/a.out"]
                     ["tests/a.in"; "tests/b.in"]
                     (loop_state 2 (Script.tests [("a.in", "5"); ("a.out", "6");
                                                  ("b.in", "7")]))))).
Proof.
  split; [vm_compute; reflexivity|].
  refine (proj1 (statistics_add_up Script.env Script.defaults ["tests/a.out"])
            _ _ _ _ _ (surjective_pairing _) _).
  - vm_compute. reflexivity.
  - vm_compute. discriminate.
Defined.

(** ** C2: a missing expected output *)

(** C2 as stated does not hold: with a numeric tolerance, "empty means
    any" off and no checker, the specification's rule says the missing
    [a.out] is no error, yet the test is reported, skipped and taken out
    of the pool, and the run ends with no test counted. *)
Lemma missing_out_counterexample :
  claimed_missing_out_is_error
    (Script.with_result_dist (S754_zero false) Script.defaults) = false
  /\ Script.run (Script.with_result_dist (S754_zero false) Script.defaults)
       (Script.tests [("a.in", "5")])
     = (Ret false,
        {| world := Script.tests [("a.in", "5")];
           stdout := [EvMissingOut "tests/a.in"; EvDone "./app"; EvNoValidTests];
           vars := fresh_locals 0 |}).
Proof. split; vm_compute; reflexivity. Qed.

(** C2, amended. For a test whose expected-output file is absent, once
    its input was read: if "empty means any" is off and no checker is
    configured, the test is reported ([EvMissingOut]), skipped and taken
    out of the pool ([approx_total] is decremented), whether a numeric
    tolerance is configured or not; in every other configuration the test
    proceeds with an empty expected output, and no missing file is
    reported. *)
Theorem missing_out_policy {W} (E : Env W) (cfg : config)
    (all_files : list string) (tq : bool) (file : string)
    (s : state W) (indata : string) (s1 : state W) :
  open_case E cfg (PyStr.drop_last3 file) file
    (if extra_verbose cfg
     then Some (file, (PyStr.drop_last3 file ++ ".out")%string) else None) s
  = (Ret indata, s1) ->
  PyStr.mem (PyStr.drop_last3 file ++ ".out") all_files = false ->
  (for_body E cfg all_files tq file s
   = if negb (empty_means_any cfg)
        && match checker cfg with None => true | Some _ => false end
     then (Ret tt,
           {| world := world s1;
              stdout := stdout s1 ++ (if tq then [EvBlank] else [])
                        ++ [EvMissingOut file];
              vars := set_approx_total (fun n => n - 1) (vars s1) |})
     else run_case E cfg tq (PyStr.drop_last3 file) file indata "" s1)
  /\ (negb (empty_means_any cfg)
      && match checker cfg with None => true | Some _ => false end = false ->
      missing_out_reports (stdout (snd (for_body E cfg all_files tq file s)))
      = missing_out_reports (stdout s1)).
Proof.
  intros Hopen Hmem.
  pose proof (for_body_missing_out E cfg all_files tq file s indata s1 Hopen Hmem)
    as Hbody.
  split; [exact Hbody|]. intros Hlax. rewrite Hbody, Hlax.
  apply run_case_reports_no_missing_out.
Qed.

Lemma missing_out_policy_witness :
  for_body Script.env (Script.with_result_dist (S754_zero false) Script.defaults)
    [] false "tests/a.in" (loop_state 1 (Script.tests [("a.in", "5")]))
  = (Ret tt,
     {| world := Script.tests [("a.in", "5")];
        stdout := [EvMissingOut "tests/a.in"];
        vars := fresh_locals 0 |}).
Proof.
  exact (proj1 (missing_out_policy Script.env
                  (Script.with_result_dist (S754_zero false) Script.defaults)
                  [] false "tests/a.in" (loop_state 1 (Script.tests [("a.in", "5")]))
                  "5" (loop_state 1 (Script.tests [("a.in", "5")]))
                  eq_refl eq_refl)).
Defined.

(** ** C3: text that is not a number *)

(** C3 as stated does not hold: with a numeric tolerance and the expected
    output [abc], [main] ends with [ValueError] at the first test. The
    second test is never started and no report is printed: the only line
    of output is the progress line of the first test. *)
Lemma parse_failure_counterexample :
  Script.run (Script.with_verbose
                (Script.with_result_dist (S754_zero false) Script.defaults))
    (Script.tests [("a.in", "5"); ("a.out", "abc"); ("b.in", "5"); ("b.out", "5")])
  = (Raise ValueError,
     {| world := Script.tests [("a.in", "5"); ("a.out", "abc");
                               ("b.in", "5"); ("b.out", "5")];
        stdout := [EvTest "tests/a" None 0 2 (S754_zero false)];
        vars := fresh_locals 2 |}).
Proof. vm_compute. reflexivity. Qed.

Lemma evaluate_parse_failure {W} (E : Env W) cfg eps indata outdata out (s : state W) :
  result_dist cfg = Some eps ->
  PyFloat.of_string outdata = None \/ PyFloat.of_string out = None ->
  evaluate E cfg indata outdata out s = (Raise ValueError, s).
Proof.
  intros Heps Hbad. unfold evaluate, within_tolerance. rewrite Heps.
  destruct Hbad as [-> | Hout]; [reflexivity|].
  rewrite Hout. destruct (PyFloat.of_string outdata); reflexivity.
Qed.

(** C3, amended. With a numeric tolerance, a test that reaches the
    verdict with an expected text or an output that is not a number
    raises [ValueError]: no verdict is recorded ([total], [correct] and
    [wrong] are what they were, so the failure is not an "incorrect"),
    and the error is not recovered. It leaves the loop and [main]: the
    tests after it are not run and no report is printed (the output ends
    with what [judge] printed before the verdict). *)
Theorem parse_failure_ends_run {W} (E : Env W) (cfg : config) (eps : float)
    (all_files pre : list string) (file : string) (rest : list string)
    (approx : Z) (s0 s : state W) (indata outdata out : string) (t : float)
    (s_j : state W) :
  result_dist cfg = Some eps ->
  test_loop E cfg all_files pre
    {| world := world s0; stdout := stdout s0; vars := fresh_locals approx |}
  = (Ret tt, s) ->
  reaches_verdict E cfg all_files file s indata outdata out t s_j ->
  PyFloat.of_string outdata = None \/ PyFloat.of_string out = None ->
  let s' := before_verdict cfg (PyStr.drop_last3 file) out t s_j in
  for_body E cfg all_files (tqdm_enabled E && negb (verbose' cfg)) file s
  = (Raise ValueError, s')
  /\ same_stats (vars s) (vars s')
  /\ run_tests E cfg all_files (pre ++ file :: rest) approx s0
     = (Raise ValueError, s').
Proof.
  intros Heps Hpre Hreach Hbad s'.
  assert (Hbody : for_body E cfg all_files (tqdm_enabled E && negb (verbose' cfg)) file s
                  = (Raise ValueError, s')).
  { rewrite (for_body_reaches E cfg _ _ _ _ _ _ _ _ _ Hreach), judge_eq.
    apply bind_raise_run. eapply evaluate_parse_failure; eassumption. }
  split; [exact Hbody|]. split.
  - rewrite <- (reaches_verdict_vars E cfg _ _ _ _ _ _ _ _ Hreach).
    subst s'. unfold before_verdict, same_stats.
    destruct (timer cfg), (PyFloat.ltb (PyFloat.of_Z 1) t);
      simpl_state; repeat split.
  - rewrite run_tests_eq. cbv zeta. unfold test_loop in *.
    rewrite for_each_app, (bind_ret_run _ _ _ _ _ Hpre).
    rewrite (for_each_raise _ _ _ _ _ _ Hbody). reflexivity.
Qed.

Lemma parse_failure_ends_run_witness :
  run_tests Script.env (Script.with_result_dist (S754_zero false) Script.defaults)
    ["tests/a.out"] ([] ++ "tests/a.in" :: ["tests/b.in"]) 2
    (initial_state (Script.tests [("a.in", "5"); ("a.out", "abc");
                                  ("b.in", "5"); ("b.out", "5")]))
  = (Raise ValueError,
     {| world := Script.tests [("a.in", "5"); ("a.out", "abc");
                               ("b.in", "5"); ("b.out", "5")];
        stdout := [];
        vars := fresh_locals 2 |}).
Proof.
  refine (proj2 (proj2
    (parse_failure_ends_run Script.env
       (Script.with_result_dist (S754_zero false) Script.defaults)
       (S754_zero false) ["tests/a.out"] [] "tests/a.in" ["tests/b.in"] 2
       (initial_state (Script.tests [("a.in", "5"); ("a.out", "abc");
                                     ("b.in", "5"); ("b.out", "5")]))
       _ "5" "abc" "5" (S754_zero false)
       (loop_state 2 (Script.tests [("a.in", "5"); ("a.out", "abc");
                                    ("b.in", "5"); ("b.out", "5")]))
       eq_refl eq_refl _ (or_introl eq_refl)))).
  do 3 eexists. split; [reflexivity|]. split.
  - right. split; [reflexivity|]. eexists. split; reflexivity.
  - split; [reflexivity|]. split; reflexivity.
Defined.

(** ** C4: rounding the distance *)

(** C4 as stated does not hold: with tolerance 0, the expected text
    [1.00000000001] and the output [1.0] are judged correct. *)
Lemma tolerance_rounding_counterexample :
  evaluate Script.env (Script.with_result_dist (S754_zero false) Script.defaults)
    "5" "1.00000000001" "1.0" (loop_state 1 (Script.tests []))
  = (Ret (true, Text "1.00000000001"), loop_state 1 (Script.tests [])).
Proof. vm_compute. reflexivity. Qed.

(** C4, amended. With tolerance 0, the expected text [1.00000000001]
    against the output [1.0] is correct: the two texts denote different
    floats and their distance, about 1e-11, is not zero, but it rounds to
    zero at 10 decimals. A distance that rounds to a tenth decimal
    (expected [1.0000000001]) is incorrect at tolerance 0. The verdict is
    [round(abs(expected - actual), 10) <= epsilon], so a rounded distance
    equal to the tolerance is within it: at tolerance 1e-10 the text
    [1.0000000001] is correct, although the distance before rounding
    exceeds 1e-10. *)
Theorem tolerance_rounding :
  within_tolerance (S754_zero false) "1.00000000001" "1.0" = Some true
  /\ PyFloat.of_string "1.00000000001"
     = Some (S754_finite false 4503599627415532 (-52))
  /\ PyFloat.of_string "1.0" = Some (S754_finite false 4503599627370496 (-52))
  /\ PyFloat.abs (PyFloat.sub (S754_finite false 4503599627415532 (-52))
                              (S754_finite false 4503599627370496 (-52)))
     = S754_finite false 6189700708564992 (-89)
  /\ PyFloat.round (S754_finite false 6189700708564992 (-89)) 10 = S754_zero false
  /\ PyFloat.leb (S754_zero false) (S754_zero false) = true
  /\ within_tolerance (S754_zero false) "1.0000000001" "1.0" = Some false
  /\ (exists eps a b,
        PyFloat.of_string "1e-10" = Some eps
        /\ PyFloat.of_string "1.0000000001" = Some a
        /\ PyFloat.of_string "1.0" = Some b
        /\ PyFloat.leb (PyFloat.abs (PyFloat.sub a b)) eps = false
        /\ PyFloat.round (PyFloat.abs (PyFloat.sub a b)) 10 = eps
        /\ within_tolerance eps "1.0000000001" "1.0" = Some true)
  /\ (forall eps outdata out,
        within_tolerance eps outdata out
        = match PyFloat.of_string outdata, PyFloat.of_string out with
          | Some a, Some b =>
              Some (PyFloat.leb (PyFloat.round (PyFloat.abs (PyFloat.sub a b)) 10) eps)
          | _, _ => None
          end).
Proof.
  do 7 (split; [vm_compute; reflexivity|]). split.
  - do 3 eexists. repeat split; vm_compute; reflexivity.
  - intros eps outdata out. unfold within_tolerance.
    destruct (PyFloat.of_string outdata), (PyFloat.of_string out); reflexivity.
Qed.

(** ** C5: one evaluator, by precedence *)

Lemma call_for_status_code_exit {W} (E : Env W) command input (s : state W) r w :
  check_output E command input (world s) = (r, w) ->
  call_for_status_code E command input s
  = (match r with
     | inl _ => Ret 0
     | inr (ExitStatus c) => Ret c
     | inr e => Raise (of_os_exn e)
     end,
     {| world := w; stdout := stdout s; vars := vars s |}).
Proof.
  intros H. unfold call_for_status_code, try_else, os_call. rewrite H.
  destruct r as [[]|[]]; reflexivity.
Qed.

(** C5. The verdict of a test is computed by the one evaluator that the
    precedence selects. With a numeric tolerance, the rounded distance
    decides (or [ValueError] is raised) and nothing else happens, checker
    or not. Otherwise, with a checker, the checker is run on the input, a
    newline and the output, and its exit status decides: 0 is correct,
    any other status is incorrect. Otherwise the verdict is
    [(empty_means_any and not outdata) or outdata == out], computed with
    no effect. *)
Theorem verdict_by_precedence {W} (E : Env W) (cfg : config)
    (indata outdata out : string) (s : state W) :
  match active_mode cfg with
  | ExternalChecker chk =>
      checker cfg = Some chk
      /\ forall r w,
           check_output E chk (indata ++ newline ++ out)%string (world s) = (r, w) ->
           let s1 := {| world := w; stdout := stdout s; vars := vars s |} in
           match r with
           | inl _ =>
               evaluate E cfg indata outdata out s
               = (Ret (true, StatusNote 0 chk),
                  printing (if extra_verbose cfg
                            then [EvChecker (StatusNote 0 chk)] else []) s1)
           | inr (ExitStatus c) =>
               evaluate E cfg indata outdata out s
               = (Ret (c =? 0, StatusNote c chk),
                  printing (if extra_verbose cfg
                            then [EvChecker (StatusNote c chk)] else []) s1)
               /\ spec_verdict (ExternalChecker chk) outdata out c = Some (c =? 0)
           | inr e =>
               evaluate E cfg indata outdata out s = (Raise (of_os_exn e), s1)
           end
  | mode =>
      evaluate E cfg indata outdata out s
      = (match spec_verdict mode outdata out 0 with
         | Some is_correct => Ret (is_correct, Text outdata)
         | None => Raise ValueError
         end, s)
      /\ (mode = EmptyMeansAny \/ mode = ExactMatch ->
          spec_verdict mode outdata out 0
          = Some (empty_means_any cfg && PyStr.is_empty outdata
                  || String.eqb outdata out))
  end.
Proof.
  unfold active_mode, evaluate, within_tolerance.
  destruct (result_dist cfg) as [eps|].
  - cbn [spec_verdict]. split.
    + destruct (PyFloat.of_string outdata), (PyFloat.of_string out); reflexivity.
    + intros [H|H]; discriminate H.
  - destruct (checker cfg) as [chk|].
    + split; [reflexivity|]. intros r w Hcheck. cbv zeta.
      pose proof (call_for_status_code_exit E _ _ _ _ _ Hcheck) as Hcode.
      destruct r as [[]|[|c|name]]; cbn [of_os_exn] in *;
        try split; try reflexivity; unfold bind at 1; rewrite Hcode;
        try reflexivity;
        unfold extra_verbose_print;
        destruct (extra_verbose cfg); cbn [when]; unfold bind, print, ret, printing;
        cbn [stdout vars world]; rewrite ?app_nil_r; reflexivity.
    + destruct (empty_means_any cfg) eqn:Hema; cbn [spec_verdict andb orb];
        (split; [|intros _]); unfold ret;
        destruct (PyStr.is_empty outdata); reflexivity.
Qed.

(** The three branches at work: tolerance 0 on equal numbers, a checker
    that accepts, and the exact comparison of different texts. *)
Lemma verdict_by_precedence_witness :
  (evaluate Script.env (Script.with_result_dist (S754_zero false) Script.defaults)
     "5" "2.50" "2.5" (loop_state 1 (Script.tests []))
   = (Ret (true, Text "2.50"), loop_state 1 (Script.tests [])))
  /\ (evaluate Script.env (Script.with_checker "./chk" Script.defaults)
        "5" "6" "7" (loop_state 1 (Script.tests []))
      = (Ret (true, StatusNote 0 "./chk"), loop_state 1 (Script.tests [])))
  /\ (evaluate Script.env Script.defaults "5" "6" "7" (loop_state 1 (Script.tests []))
      = (Ret (false, Text "6"), loop_state 1 (Script.tests []))).
Proof.
  split; [|split].
  - exact (proj1 (verdict_by_precedence Script.env
             (Script.with_result_dist (S754_zero false) Script.defaults)
             "5" "2.50" "2.5" (loop_state 1 (Script.tests [])))).
  - exact (proj2 (verdict_by_precedence Script.env
             (Script.with_checker "./chk" Script.defaults)
             "5" "6" "7" (loop_state 1 (Script.tests [])))
             (inl tt) (Script.tests []) eq_refl).
  - exact (proj1 (verdict_by_precedence Script.env Script.defaults
             "5" "6" "7" (loop_state 1 (Script.tests [])))).
Defined.

(** ** C6: a cancelled run *)

(** C6 as stated does not hold: Ctrl-C arrives while the checker judges
    the first test, which took two seconds. The run ends without an
    error, but the overtime list and the recorded time gathered before
    the interruption are not in the report, which says that no test was
    found. *)
Lemma cancelled_run_counterexample :
  Script.run (Script.with_timer (Script.with_checker "./chk" Script.defaults))
    (Script.with_checker_program Script.interrupted
       (Script.with_clock [PyFloat.of_Z 0; PyFloat.of_Z 2]
          (Script.tests [("a.in", "5")])))
  = (Ret false,
     {| world := Script.with_checker_program Script.interrupted
                   (Script.tests [("a.in", "5")]);
        stdout := [EvDone "./app"; EvNoValidTests];
        vars := {| approx_total := 1; total := 0; correct := 0;
                   overtime_count := 1; wrong := [];
                   overtime := ["tests/a"];
                   times := [PyFloat.of_Z 2] |} |}).
Proof. vm_compute. reflexivity. Qed.

(** C6, amended. When Ctrl-C ends the loop, the interruption goes no
    further: [main] goes on to the report, which is computed from the
    statistics gathered so far exactly as after a loop that ran to its
    end. If a test was counted ([total] is not 0), the summary line, the
    names of the failed tests, the overtime tests and, with the timer,
    the times are all printed; if none was, the report is the line "No
    valid tests were found" and the result is [False], whatever the
    overtime list and the times hold. *)
Theorem cancelled_run_reports {W} (E : Env W) (cfg : config)
    (all_files files : list string) (approx : Z) (s : state W)
    (r : res unit) (s1 : state W) :
  test_loop E cfg all_files files
    {| world := world s; stdout := stdout s; vars := fresh_locals approx |}
  = (r, s1) ->
  r = Ret tt \/ r = Raise KeyboardInterrupt ->
  run_tests E cfg all_files files approx s
  = (Ret (negb (total (vars s1) =? 0)),
     printing (report_lines cfg (vars s1)) s1)
  /\ (total (vars s1) = 0 ->
      report_lines cfg (vars s1) = [EvDone (app cfg); EvNoValidTests])
  /\ (total (vars s1) <> 0 ->
      In (EvSummary (correct (vars s1)) (total (vars s1))
            (percent (correct (vars s1)) (total (vars s1))))
         (report_lines cfg (vars s1))
      /\ (wrong (vars s1) <> [] ->
          In (EvNames (wrong (vars s1))) (report_lines cfg (vars s1)))
      /\ (overtime (vars s1) <> [] ->
          In (EvOvertime (overtime_count (vars s1)) (total (vars s1))
                (percent (overtime_count (vars s1)) (total (vars s1))))
             (report_lines cfg (vars s1))
          /\ In (EvNames (overtime (vars s1))) (report_lines cfg (vars s1)))
      /\ (timer cfg = true ->
          In (EvTimes (printed_times (times (vars s1))))
             (report_lines cfg (vars s1)))).
Proof.
  intros Hloop Hr. split; [|split].
  - rewrite run_tests_eq. cbv zeta. rewrite Hloop.
    destruct Hr as [-> | ->]; apply report_eq.
  - intros H0. unfold report_lines. rewrite H0. reflexivity.
  - intros H0. unfold report_lines.
    destruct (Z.eqb_spec (total (vars s1)) 0) as [|_]; [contradiction|].
    split; [right; left; reflexivity|]. split; [|split].
    + intros Hw. right. right. apply in_or_app. left.
      destruct (wrong (vars s1)); [contradiction|]. right. left. reflexivity.
    + intros Ho.
      destruct (overtime (vars s1)) eqn:Hov; [contradiction|].
      split; right; right; apply in_or_app; right; apply in_or_app; left.
      * left. reflexivity.
      * right. left. reflexivity.
    + intros ->. right. right. apply in_or_app. right. apply in_or_app. right.
      left. reflexivity.
Qed.

(** Ctrl-C while the program runs on the second of two tests: the first
    verdict is reported. *)
Lemma cancelled_run_reports_witness :
  run_tests Script.env Script.defaults ["tests/a.out"; "tests/b.out"]
    ["tests/a.in"; "tests/b.in"] 2
    (initial_state
       (Script.with_program (Script.echo_until "6")
          (Script.tests [("a.in", "5"); ("a.out", "5");
                         ("b.in", "6"); ("b.out", "6")])))
  = (Ret true,
     {| world := Script.with_program (Script.echo_until "6")
                   (Script.tests [("a.in", "5"); ("a.out", "5");
                                  ("b.in", "6"); ("b.out", "6")]);
        stdout := [EvDone "./app"; EvSummary 1 1 (PyFloat.of_Z 100)];
        vars := {| approx_total := 2; total := 1; correct := 1;
                   overtime_count := 0; wrong := []; overtime := [];
                   times := [] |} |}).
Proof.
  exact (proj1 (cancelled_run_reports Script.env Script.defaults
                  ["tests/a.out"; "tests/b.out"] ["tests/a.in"; "tests/b.in"] 2
                  (initial_state
                     (Script.with_program (Script.echo_until "6")
                        (Script.tests [("a.in", "5"); ("a.out", "5");
                                       ("b.in", "6"); ("b.out", "6")])))
                  (Raise KeyboardInterrupt)
                  {| world := Script.with_program (Script.echo_until "6")
                                (Script.tests [("a.in", "5"); ("a.out", "5");
                                               ("b.in", "6"); ("b.out", "6")]);
                     stdout := [];
                     vars := {| approx_total := 2; total := 1; correct := 1;
                                overtime_count := 0; wrong := []; overtime := [];
                                times := [] |} |}
                  eq_refl (or_intror eq_refl))).
Defined.

(** ** C7: no test at all *)

Lemma main_returns_from_report {W} (E : Env W) cfg (s : state W) b s' :
  main E cfg s = (Ret b, s') ->
  exists s1, report cfg s1 = (Ret b, s').
Proof.
  unfold main. unfold bind at 1.
  destruct (discover E cfg s) as [[found|e] s0]; [|discriminate].
  unfold bind at 1.
  destruct (order_files E cfg _ s0) as [[ordered|e] s2]; [|discriminate].
  rewrite run_tests_eq. cbv zeta.
  destruct (test_loop E cfg _ _ _) as [[[]|e] s1].
  - intros H. exists s1. exact H.
  - destruct e; try discriminate. intros H. exists s1. exact H.
Qed.

(** C7. The report, which never fails, tells a run without a test from
    a run where none was correct. When [total] is 0 it prints "No valid
    tests were found" and nothing else after the heading, and returns
    [False]; when [total] is not 0 it prints the line "Correct ... out of
    ... (...%)", never "No valid tests were found", and returns [True].
    Every run of [main] that returns ends with this report. *)
Theorem no_tests_signal {W} (E : Env W) (cfg : config) :
  (forall s : state W,
      report cfg s
      = (Ret (negb (total (vars s) =? 0)), printing (report_lines cfg (vars s)) s))
  /\ (forall v, total v = 0 ->
        report_lines cfg v = [EvDone (app cfg); EvNoValidTests])
  /\ (forall v, total v <> 0 ->
        exists rest,
          report_lines cfg v
          = EvDone (app cfg)
            :: EvSummary (correct v) (total v) (percent (correct v) (total v))
            :: rest
          /\ ~ In EvNoValidTests rest)
  /\ (forall (s : state W) b s',
        main E cfg s = (Ret b, s') ->
        b = negb (total (vars s') =? 0)
        /\ exists before, stdout s' = before ++ report_lines cfg (vars s')).
Proof.
  split; [|split; [|split]].
  - intros s. apply report_eq.
  - intros v H0. unfold report_lines. rewrite H0. reflexivity.
  - intros v H0. unfold report_lines.
    destruct (Z.eqb_spec (total v) 0) as [|_]; [contradiction|].
    eexists. split; [reflexivity|].
    intros Hin. apply in_app_or in Hin. destruct Hin as [Hin|Hin].
    + destruct (wrong v); cbn in Hin; intuition discriminate.
    + apply in_app_or in Hin. destruct Hin as [Hin|Hin].
      * destruct (overtime v); cbn in Hin; intuition discriminate.
      * destruct (timer cfg); cbn in Hin; intuition discriminate.
  - intros s b s' Hmain.
    destruct (main_returns_from_report E cfg s b s' Hmain) as (s1 & Hrep).
    rewrite report_eq in Hrep. injection Hrep as <- <-.
    split; [reflexivity|]. exists (stdout s1). reflexivity.
Qed.

Lemma no_tests_signal_witness :
  false = negb (total (vars (snd (Script.run Script.defaults (Script.tests [])))) =? 0)
  /\ exists before,
       stdout (snd (Script.run Script.defaults (Script.tests [])))
       = before ++ report_lines Script.defaults
                     (vars (snd (Script.run Script.defaults (Script.tests [])))).
Proof.
  exact (proj2 (proj2 (proj2 (no_tests_signal Script.env Script.defaults)))
           (initial_state (Script.tests [])) false
           (snd (Script.run Script.defaults (Script.tests [])))
           eq_refl).
Defined.

(** ** C8: the checker and the expected output *)

(** C8 as stated does not hold: a checker is configured and accepts
    everything, but so is a numeric tolerance, which takes precedence.
    The program prints 5; with [5] in [a.out] the test is correct, with
    [6] it is wrong. *)
Lemma checker_counterexample :
  checker (Script.with_checker "./chk"
             (Script.with_result_dist (S754_zero false) Script.defaults))
  = Some "./chk"
  /\ vars (snd (Script.run
                  (Script.with_checker "./chk"
                     (Script.with_result_dist (S754_zero false) Script.defaults))
                  (Script.tests [("a.in", "5"); ("a.out", "5")])))
     = {| approx_total := 1; total := 1; correct := 1; overtime_count := 0;
          wrong := []; overtime := []; times := [] |}
  /\ vars (snd (Script.run
                  (Script.with_checker "./chk"
                     (Script.with_result_dist (S754_zero false) Script.defaults))
                  (Script.tests [("a.in", "5"); ("a.out", "6")])))
     = {| approx_total := 1; total := 1; correct := 0; overtime_count := 0;
          wrong := ["tests/a"]; overtime := []; times := [] |}.
Proof. repeat split; vm_compute; reflexivity. Qed.

Lemma open_case_trimmed {W} (E : Env W) cfg test_name infile filenote
    (s : state W) indata s1 :
  open_case E cfg test_name infile filenote s = (Ret indata, s1) ->
  exists raw, indata = PyStr.strip raw.
Proof.
  intros H.
  refine (wp_run _ (fun r _ => match r with
                               | Ret i => exists raw, i = PyStr.strip raw
                               | Raise _ => True
                               end) _ _ _ H _).
  unfold open_case, readfile, verbose_print. wp_steps; eauto.
Qed.

(** C8, amended. When a checker is configured and no numeric tolerance
    is, the expected output has no part in the verdict: whatever it is,
    the evaluation, and with it the whole test from the run of the
    program on, is the same computation, namely the checker run on the
    trimmed input, a newline and the trimmed output of the program, whose
    exit status decides. With a checker configured, tolerance or not, a
    missing file of expected output is no error: the test proceeds with
    an empty expected output. *)
Theorem checker_ignores_expected {W} (E : Env W) (cfg : config) (chk : string) :
  checker cfg = Some chk ->
  (forall all_files tq file (s : state W) indata s1,
      open_case E cfg (PyStr.drop_last3 file) file
        (if extra_verbose cfg
         then Some (file, (PyStr.drop_last3 file ++ ".out")%string) else None) s
      = (Ret indata, s1) ->
      PyStr.mem (PyStr.drop_last3 file ++ ".out") all_files = false ->
      for_body E cfg all_files tq file s
      = run_case E cfg tq (PyStr.drop_last3 file) file indata "" s1)
  /\ (result_dist cfg = None ->
      (forall indata outdata out (s : state W),
          evaluate E cfg indata outdata out s
          = (code <- call_for_status_code E chk (indata ++ newline ++ out)%string ;;
             extra_verbose_print cfg (EvChecker (StatusNote code chk)) ;;
             ret (code =? 0, StatusNote code chk)) s)
      /\ (forall test_name indata outdata1 outdata2 out t (s : state W),
            judge E cfg test_name indata outdata1 out t s
            = judge E cfg test_name indata outdata2 out t s)
      /\ (forall tq test_name indata outdata1 outdata2 (s : state W),
            try_case E cfg tq test_name indata outdata1 s
            = try_case E cfg tq test_name indata outdata2 s)
      /\ (forall tq test_name indata outdata (s : state W) raw t s1,
            call_with_io_timed E (app cfg) indata s = (Ret (raw, t), s1) ->
            try_case E cfg tq test_name indata outdata s
            = judge E cfg test_name indata outdata (PyStr.strip raw) t s1)
      /\ (forall test_name infile filenote (s : state W) indata s1,
            open_case E cfg test_name infile filenote s = (Ret indata, s1) ->
            exists raw, indata = PyStr.strip raw)).
Proof.
  intros Hchk. split.
  - intros all_files tq file s indata s1 Hopen Hmem.
    rewrite (for_body_missing_out E cfg all_files tq file s indata s1 Hopen Hmem).
    rewrite Hchk, andb_false_r. reflexivity.
  - intros Hdist.
    assert (Heval : forall indata outdata out (s : state W),
               evaluate E cfg indata outdata out s
               = (code <- call_for_status_code E chk (indata ++ newline ++ out)%string ;;
                  extra_verbose_print cfg (EvChecker (StatusNote code chk)) ;;
                  ret (code =? 0, StatusNote code chk)) s).
    { intros. unfold evaluate. rewrite Hdist, Hchk. reflexivity. }
    assert (Hjudge : forall test_name indata outdata1 outdata2 out t (s : state W),
               judge E cfg test_name indata outdata1 out t s
               = judge E cfg test_name indata outdata2 out t s).
    { intros. rewrite !judge_eq. apply bind_same_run. rewrite !Heval. reflexivity. }
    split; [exact Heval|]. split; [exact Hjudge|]. split; [|split].
    + intros. unfold try_case, try_else.
      destruct (bind _ _ s) as [[r|e] s1]; [apply Hjudge|reflexivity].
    + intros. apply try_case_judge. assumption.
    + intros. eapply open_case_trimmed. eassumption.
Qed.

(** Whatever the expected output, the verdict is the checker's. *)
Lemma checker_ignores_expected_witness :
  judge Script.env (Script.with_checker "./chk" Script.defaults)
    "tests/a" "5" "right" "5" (S754_zero false) (loop_state 1 (Script.tests []))
  = judge Script.env (Script.with_checker "./chk" Script.defaults)
      "tests/a" "5" "wrong" "5" (S754_zero false) (loop_state 1 (Script.tests [])).
Proof.
  exact (proj1 (proj2 (proj2 (checker_ignores_expected Script.env
                                (Script.with_checker "./chk" Script.defaults)
                                "./chk" eq_refl) eq_refl))
           "tests/a" "5" "right" "wrong" "5" (S754_zero false)
           (loop_state 1 (Script.tests []))).
Defined.

(** ** C9: divisions *)

Section Divisions.
Context {W : Type} (E : Env W) (cfg : config).

(** A loop whose invariant follows the elements that remain. *)
Lemma wp_for_each_rest {A} (body : A -> M W unit) (I : list A -> state W -> Prop)
    (Q : res unit -> state W -> Prop) l s :
  I l s ->
  (forall x rest s1, I (x :: rest) s1 ->
     wp (body x)
        (fun r s2 => match r with Ret _ => I rest s2 | Raise e => Q (Raise e) s2 end) s1) ->
  (forall s1, I [] s1 -> Q (Ret tt) s1) ->
  wp (for_each body l) Q s.
Proof.
  revert s. induction l as [|x l IH]; intros s HI Hbody Hend; cbn [for_each].
  - apply wp_ret. auto.
  - apply wp_bind. eapply wp_conseq; [apply Hbody; exact HI|].
    intros [[]|e] s1 H; unfold bind_post; [|exact H].
    apply IH; auto.
Qed.

Lemma os_call_no_division {A} (e : os_exn) :
  divides_by_zero (A := A) (Raise (of_os_exn e)) = false.
Proof. destruct e; reflexivity. Qed.

Lemma evaluate_no_division indata outdata out (s : state W) :
  wp (evaluate E cfg indata outdata out)
     (fun r s' => vars s' = vars s /\ divides_by_zero r = false) s.
Proof.
  unfold evaluate, call_for_status_code, extra_verbose_print.
  wp_steps; simpl_state; try congruence; try (split; reflexivity).
  all: try (split; [reflexivity|apply os_call_no_division]).
  all: wp_steps; simpl_state; try congruence; try (split; reflexivity).
Qed.

Lemma judge_no_division test_name indata outdata out t (s : state W) :
  wp (judge E cfg test_name indata outdata out t)
     (fun r s' => approx_total (vars s') = approx_total (vars s)
                  /\ divides_by_zero r = false) s.
Proof.
  unfold judge, verbose_print, extra_verbose_print.
  wp_steps.
  all: (eapply wp_conseq; [apply evaluate_no_division|]);
    intros [[b shown]|e] s1 [Hv Hz]; unfold bind_post; simpl_state;
    [|rewrite Hv; simpl_state; split; [reflexivity|destruct e; cbn in Hz |- *; congruence]].
  all: wp_steps; simpl_state; rewrite ?Hv; simpl_state; split; reflexivity.
Qed.

Lemma run_case_no_division tq test_name infile indata outdata (s : state W) :
  wp (run_case E cfg tq test_name infile indata outdata)
     (fun r s' => pool_step (vars s) (vars s') /\ divides_by_zero r = false) s.
Proof.
  unfold run_case, try_case, call_with_io_timed, extra_verbose_print, pool_step.
  wp_steps; simpl_state; try congruence;
    try (split; [auto|first [reflexivity|apply os_call_no_division]]).
  all: try (eapply wp_conseq; [apply judge_no_division|]; simpl_state;
            intros [[]|?] ? [? ?]; split; auto).
Qed.

(** One test takes at most one from [approx_total], and divides by zero
    only if [approx_total] is 0 when it starts. *)
Lemma for_body_no_division all_files tq file (s : state W) :
  wp (for_body E cfg all_files tq file)
     (fun r s' => pool_step (vars s) (vars s')
                  /\ (approx_total (vars s) <> 0 -> divides_by_zero r = false)) s.
Proof.
  unfold for_body, open_case, readfile, verbose_print, pool_step.
  wp_steps; simpl_state; try congruence;
    try (split; [auto|intros; first [reflexivity|apply os_call_no_division|contradiction]]).
  all: try (eapply wp_conseq; [apply run_case_no_division|]; simpl_state;
            intros [[]|?] ? [? ?]; split; auto).
Qed.

(** While [headroom] holds for the tests that remain, the loop does not
    divide by zero, and no test starts with [approx_total] at 0. *)
Lemma test_loop_no_division all_files files (s : state W) :
  headroom (List.length files) (vars s) ->
  wp (test_loop E cfg all_files files) (fun r _ => divides_by_zero r = false) s.
Proof.
  intros H. unfold test_loop.
  apply wp_for_each_rest
    with (I := fun rest s1 => headroom (List.length rest) (vars s1));
    [exact H| |reflexivity].
  intros file rest s1 H1.
  eapply wp_conseq; [apply for_body_no_division|].
  unfold headroom, pool_step in *. cbn [List.length] in H1.
  intros [[]|e] s2 [Hstep Hz].
  - lia.
  - apply Hz. lia.
Qed.

(** No test starts with [approx_total] at 0: if the tests of [pre] and
    [n] more were counted at the start, the [n] that remain after [pre]
    still are; and a negative count stays negative. *)
Lemma headroom_after all_files tq pre (n : nat) (s : state W) :
  wp (for_each (for_body E cfg all_files tq) pre)
     (fun r s1 =>
        r = Ret tt ->
        (Z.of_nat (List.length pre + n) <= approx_total (vars s) ->
         Z.of_nat n <= approx_total (vars s1))
        /\ (approx_total (vars s) < 0 -> approx_total (vars s1) < 0)) s.
Proof.
  apply wp_for_each_rest
    with (I := fun rest s1 =>
                 (Z.of_nat (List.length pre + n) <= approx_total (vars s) ->
                  Z.of_nat (List.length rest + n) <= approx_total (vars s1))
                 /\ (approx_total (vars s) < 0 -> approx_total (vars s1) < 0)).
  - split; auto.
  - intros file rest s1 H1.
    eapply wp_conseq; [apply for_body_no_division|].
    unfold pool_step. cbn [List.length] in H1.
    intros [[]|e] s2 [Hstep _]; [|discriminate]. split; intros; lia.
  - cbn [List.length]. auto.
Qed.

(** *** Ordering keeps the number of tests *)

Lemma set_nth_length {A} (l : list A) i a :
  List.length (Ordering.set_nth l i a) = List.length l.
Proof.
  unfold Ordering.set_nth.
  rewrite <- (firstn_skipn i l) at 3. rewrite !length_app.
  destruct (skipn i l); reflexivity.
Qed.

Lemma swap_length {A} (l : list A) i j :
  List.length (Ordering.swap l i j) = List.length l.
Proof.
  unfold Ordering.swap.
  destruct (nth_error l i), (nth_error l j); try reflexivity.
  rewrite !set_nth_length. reflexivity.
Qed.

Lemma insert_length {K A} (lt : K -> K -> bool) (x : K * A) l :
  List.length (Ordering.insert lt x l) = S (List.length l).
Proof.
  induction l as [|y l IH]; cbn [Ordering.insert]; [reflexivity|].
  destruct (lt (fst y) (fst x)); cbn [List.length]; [rewrite IH|]; reflexivity.
Qed.

Lemma sorted_by_length {K A} (lt : K -> K -> bool) keys (l : list A) :
  (List.length (Ordering.sorted_by lt keys l) <= List.length l)%nat.
Proof.
  unfold Ordering.sorted_by, Ordering.sort_by_key. rewrite length_map.
  assert (H : forall p : list (K * A),
             List.length (fold_right (Ordering.insert lt) [] p) = List.length p).
  { induction p as [|x p IH]; cbn [fold_right List.length];
      [reflexivity|rewrite insert_length, IH; reflexivity]. }
  rewrite H, length_combine. apply Nat.le_min_r.
Qed.

Lemma shuffle_from_length i x (s : state W) :
  wp (shuffle_from E i x)
     (fun r s' =>
        vars s' = vars s
        /\ match r with
           | Ret l => List.length l = List.length x
           | Raise _ => divides_by_zero r = false
           end) s.
Proof.
  revert x s. induction i as [|i IH]; intros x s; cbn [shuffle_from].
  - wp_steps. split; reflexivity.
  - wp_steps; simpl_state.
    + eapply wp_conseq; [apply IH|]. simpl_state.
      intros [l|e] s1 [Hv Hl]; (split; [exact Hv|]); [|exact Hl].
      rewrite Hl. apply swap_length.
    + split; [reflexivity|apply os_call_no_division].
Qed.

Lemma map_M_os_call {A B} (f : A -> W -> (B + os_exn) * W) l (s : state W) :
  wp (map_M (fun x => os_call (f x)) l)
     (fun r s' => vars s' = vars s /\ divides_by_zero r = false) s.
Proof.
  revert s. induction l as [|x l IH]; intros s; cbn [map_M].
  - wp_steps. split; reflexivity.
  - wp_steps; simpl_state.
    + eapply wp_conseq; [apply IH|]. simpl_state.
      intros [ys|e] s1 [Hv Hz]; unfold bind_post.
      * wp_steps. split; [exact Hv|reflexivity].
      * split; [exact Hv|destruct e; cbn in Hz |- *; congruence].
    + split; [reflexivity|apply os_call_no_division].
Qed.

Lemma order_files_length files (s : state W) :
  wp (order_files E cfg files)
     (fun r s' =>
        vars s' = vars s
        /\ match r with
           | Ret l => (List.length l <= List.length files)%nat
           | Raise _ => divides_by_zero r = false
           end) s.
Proof.
  unfold order_files, random_shuffle.
  destruct (shuffle cfg).
  - eapply wp_conseq; [apply shuffle_from_length|].
    intros [l|e] s1 [Hv Hl]; (split; [exact Hv|]); [|exact Hl].
    rewrite Hl. apply Nat.le_refl.
  - destruct (do_sort cfg).
    + apply wp_bind. eapply wp_conseq; [apply map_M_os_call|].
      intros [sizes|e] s1 [Hv Hz]; unfold bind_post.
      * wp_steps. split; [exact Hv|apply sorted_by_length].
      * split; [exact Hv|destruct e; cbn in Hz |- *; congruence].
    + destruct (natural_sort cfg); wp_steps; (split; [reflexivity|]).
      * apply sorted_by_length.
      * apply Nat.le_refl.
Qed.

(** *** The pool at the start *)

Lemma discover_headroom (s : state W) :
  listing_stable E ->
  wp (discover E cfg)
     (fun r s' =>
        match r with
        | Ret found =>
            Z.of_nat (List.length (snd (fst found))) <= snd found
        | Raise _ => divides_by_zero r = false
        end) s.
Proof.
  intros Hstable. unfold discover.
  destruct (one_file cfg) as [one|].
  - apply wp_bind. eapply wp_conseq; [apply map_M_os_call|].
    intros [found|e] s1 [Hv Hz]; unfold bind_post.
    + wp_steps. cbn. lia.
    + destruct e; cbn in Hz |- *; congruence.
  - wp_steps; simpl_state; try apply os_call_no_division.
    rewrite (Hstable _ _ _ _ _ _ Hos0 Hos1). lia.
Qed.

Lemma apply_limit_headroom files approx :
  Z.of_nat (List.length files) <= approx ->
  headroom (List.length (fst (apply_limit cfg files approx)))
    (fresh_locals (snd (apply_limit cfg files approx))).
Proof.
  intros H. unfold apply_limit, headroom, PyStr.slice_to.
  destruct (limit cfg) as [n|]; [|left; exact H].
  destruct (Z.ltb_spec n approx); [|left; exact H].
  cbn [fst snd fresh_locals approx_total].
  destruct (Z.ltb_spec n 0); [right; assumption|left].
  rewrite length_firstn. lia.
Qed.

Lemma run_tests_no_division all_files files approx (s : state W) :
  headroom (List.length files) (fresh_locals approx) ->
  divides_by_zero (fst (run_tests E cfg all_files files approx s)) = false.
Proof.
  intros H. rewrite run_tests_eq. cbv zeta.
  pose proof (test_loop_no_division all_files files
                {| world := world s; stdout := stdout s;
                   vars := fresh_locals approx |} H) as Hloop.
  unfold wp in Hloop.
  destruct (test_loop E cfg all_files files _) as [[[]|e] s1].
  - rewrite report_eq. reflexivity.
  - destruct e; try (rewrite report_eq); try reflexivity.
    discriminate Hloop.
Qed.

Lemma main_no_division (s : state W) :
  listing_stable E ->
  divides_by_zero (fst (main E cfg s)) = false.
Proof.
  intros Hstable. unfold main.
  pose proof (discover_headroom s Hstable) as Hd. unfold wp in Hd.
  unfold bind at 1. destruct (discover E cfg s) as [[found|e] s0];
    [|destruct e; cbn in Hd |- *; congruence].
  pose proof (order_files_length (snd (fst found)) s0) as Ho. unfold wp in Ho.
  unfold bind at 1.
  destruct (order_files E cfg _ s0) as [[ordered|e] s1]; cbn [fst snd] in Ho;
    [|destruct Ho as [_ Ho]; destruct e; cbn in Ho |- *; congruence].
  apply run_tests_no_division. apply apply_limit_headroom.
  cbn [fst snd] in Hd. destruct Ho as [_ Ho]. lia.
Qed.

End Divisions.

(** C9 as stated does not hold: with the limit -1 and two tests, the
    list of tests loses its last element and [approx_total] is -1 when
    the progress percentage of the first test is computed (it is printed
    as 0 out of -1). *)
Lemma division_guard_counterexample :
  Script.run (Script.with_verbose (Script.with_limit (-1) Script.defaults))
    (Script.tests [("a.in", "5"); ("a.out", "5"); ("b.in", "5"); ("b.out", "5")])
  = (Ret true,
     {| world := Script.tests [("a.in", "5"); ("a.out", "5");
                               ("b.in", "5"); ("b.out", "5")];
        stdout := [EvTest "tests/a" None 0 (-1) (S754_zero true);
                   EvCorrect;
                   EvDone "./app";
                   EvSummary 1 1 (PyFloat.of_Z 100)];
        vars := {| approx_total := -1; total := 1; correct := 1;
                   overtime_count := 0; wrong := []; overtime := [];
                   times := [] |} |}).
Proof. vm_compute. reflexivity. Qed.

(** Why the two listings must agree: a file disappears between them, so
    that two tests are run against a count of one; the first has no
    expected output and takes the count to 0, and the progress line of the
    second divides by zero. *)
Example listing_race_divides_by_zero :
  fst (main Script.shrinking_env Script.defaults
         (initial_state
            (Script.with_clock [PyFloat.of_Z 0]
               (Script.tests [("a.in", "5"); ("b.in", "6"); ("b.out", "6")]))))
  = Raise ZeroDivisionError.
Proof. vm_compute. reflexivity. Qed.

Lemma script_listing_stable : listing_stable Script.env.
Proof.
  intros pattern w l1 w1 l2 w2 H1 H2. cbn in H1, H2.
  injection H1 as <- <-. injection H2 as <- _. reflexivity.
Qed.

(** C9, amended. No division of [main] is a division by zero, as long
    as the two listings of the directory agree in length. In the loop,
    [approx_total] is not 0 when the progress percentage of a test is
    computed: if it counted all the tests at the start, it is at least 1
    before each of them (a test takes at most one from it); if it was
    negative at the start, as it is with a negative limit, it stays
    negative. With no limit or a limit that is not negative it counts all
    the tests at the start. The two percentages of the report are
    computed only when [total] is not 0: the report never fails. *)
Theorem divisions_guarded {W} (E : Env W) (cfg : config) :
  (listing_stable E ->
   forall s : state W, divides_by_zero (fst (main E cfg s)) = false)
  /\ (forall all_files tq pre file post (s s1 : state W),
        for_each (for_body E cfg all_files tq) pre s = (Ret tt, s1) ->
        (Z.of_nat (List.length (pre ++ file :: post)) <= approx_total (vars s) ->
         1 <= approx_total (vars s1))
        /\ (approx_total (vars s) < 0 -> approx_total (vars s1) < 0))
  /\ (forall files approx,
        Z.of_nat (List.length files) <= approx ->
        match limit cfg with
        | Some n =>
            if n <? 0 then snd (apply_limit cfg files approx) = n
            else Z.of_nat (List.length (fst (apply_limit cfg files approx)))
                 <= snd (apply_limit cfg files approx)
        | None => apply_limit cfg files approx = (files, approx)
        end)
  /\ (forall s : state W,
        report cfg s
        = (Ret (negb (total (vars s) =? 0)), printing (report_lines cfg (vars s)) s)).
Proof.
  split; [|split; [|split]].
  - intros Hstable s. apply main_no_division. exact Hstable.
  - intros all_files tq pre file post s s1 Hrun.
    pose proof (wp_run _ _ _ _ _ Hrun
                  (headroom_after E cfg all_files tq pre (List.length (file :: post)) s)
                  eq_refl) as [Hpos Hneg].
    split; [|exact Hneg].
    rewrite length_app. intros H. specialize (Hpos H). cbn [List.length] in Hpos. lia.
  - intros files approx H. unfold apply_limit, PyStr.slice_to.
    destruct (limit cfg) as [n|]; [|reflexivity].
    destruct (Z.ltb_spec n 0) as [Hn|Hn].
    + destruct (Z.ltb_spec n approx); [reflexivity|lia].
    + destruct (Z.ltb_spec n approx); cbn [fst snd]; [|exact H].
      rewrite length_firstn. lia.
  - intros s. apply report_eq.
Qed.

Lemma divisions_guarded_witness :
  divides_by_zero
    (fst (Script.run (Script.with_verbose Script.defaults)
            (Script.tests [("a.in", "5"); ("b.in", ""); ("b.out", "1")])))
  = false.
Proof.
  exact (proj1 (divisions_guarded Script.env (Script.with_verbose Script.defaults))
           script_listing_stable
           (initial_state (Script.tests [("a.in", "5"); ("b.in", ""); ("b.out", "1")]))).
Defined.

(** ** C10: the times of the report *)

Section Rounding.

Lemma digits2_pos_bound m : Z.pos m < 2 ^ Z.pos (digits2_pos m).
Proof.
  induction m as [m IH|m IH|]; cbn [digits2_pos].
  - rewrite Pos2Z.inj_succ, Z.pow_succ_r by apply Pos2Z.is_nonneg.
    rewrite Pos2Z.inj_xI. lia.
  - rewrite Pos2Z.inj_succ, Z.pow_succ_r by apply Pos2Z.is_nonneg.
    rewrite Pos2Z.inj_xO. lia.
  - reflexivity.
Qed.

(** The mantissa of a valid float has at most 53 bits. *)
Lemma valid_mantissa s m e :
  PyFloat.valid (S754_finite s m e) = true -> Z.pos m < 2 ^ 53.
Proof.
  unfold PyFloat.valid, valid_binary, bounded, canonical_mantissa, fexp, emin.
  intros H. apply andb_prop in H. destruct H as [H _].
  apply Z.eqb_eq in H.
  assert (Hd : Z.pos (digits2_pos m) <= 53).
  { unfold PyFloat.prec, PyFloat.emax in H. lia. }
  eapply Z.lt_le_trans; [apply digits2_pos_bound|].
  apply Z.pow_le_mono_r; lia.
Qed.

Lemma round_half_even_small p q :
  0 <= p -> 2 * p < q -> PyFloat.round_half_even p q = 0.
Proof.
  intros Hp Hq. unfold PyFloat.round_half_even.
  pose proof (Z_div_mod p q ltac:(lia)) as H.
  destruct (Z.div_eucl p q) as [d r]. destruct H as [H Hr].
  assert (d = 0) by nia. subst d.
  assert (r = p) by lia. subst r.
  destruct (Z.compare_spec (2 * p) q); [lia|reflexivity|lia].
Qed.

(** A duration under 0.00005 seconds, either way, rounds to zero at 4
    decimals. *)
Lemma short_time_rounds_to_zero t :
  PyFloat.valid t = true ->
  PyFloat.ltb (PyFloat.abs t) (PyFloat.ratio false 5 100000) = true ->
  PyFloat.truthy (PyFloat.round t 4) = false.
Proof.
  intros Hvalid Hlt.
  replace (PyFloat.ratio false 5 100000)
    with (S754_finite false 7378697629483821 (-67)) in Hlt
    by (vm_compute; reflexivity).
  destruct t as [s|s| |s m e]; try reflexivity; try discriminate Hlt.
  pose proof (valid_mantissa s m e Hvalid) as Hm.
  replace (2 ^ 53) with 9007199254740992 in Hm by (vm_compute; reflexivity).
  unfold PyFloat.ltb, SFltb, PyFloat.abs, SFabs, SFcompare in Hlt.
  clear Hvalid.
  unfold PyFloat.round. replace (10 ^ 4) with 10000 by reflexivity.
  assert (Hpos : 0 < Z.pos m) by apply Pos2Z.is_pos.
  assert (He : e < 0 /\ 2 * (Z.pos m * 10000) < 2 ^ (- e)).
  { destruct (Z.compare_spec e (-67)) as [Heq | He | He];
      [| |discriminate Hlt].
    - subst e.
      assert (Hm' : Z.pos m < 7378697629483821).
      { apply Pos2Z.pos_lt_pos. unfold Pos.lt, Pos.compare.
        destruct (Pos.compare_cont Eq m 7378697629483821);
          [discriminate Hlt|reflexivity|discriminate Hlt]. }
      clear Hlt Hm. split; [reflexivity|].
      replace (2 ^ (- -67)) with 147573952589676412928 by (vm_compute; reflexivity).
      generalize dependent (Z.pos m). intros x Hx Hx'. lia.
    - clear Hlt. split; [lia|].
      apply Z.lt_le_trans with 295147905179352825856.
      + clear He. generalize dependent (Z.pos m). intros x Hx Hx'. lia.
      + replace 295147905179352825856 with (2 ^ 68) by (vm_compute; reflexivity).
        apply Z.pow_le_mono_r; lia. }
  destruct He as [He Hsmall]. clear Hm Hlt.
  destruct (Z.leb_spec 0 e); [lia|].
  rewrite round_half_even_small; [reflexivity| |exact Hsmall].
  generalize dependent (Z.pos m). intros x Hx _. lia.
Qed.

Lemma printed_times_drop l1 t l2 :
  PyFloat.truthy (PyFloat.round t 4) = false ->
  printed_times (l1 ++ t :: l2) = printed_times (l1 ++ l2).
Proof.
  intros H. unfold printed_times. rewrite !filter_app. cbn [filter].
  rewrite H. reflexivity.
Qed.

Lemma printed_times_length l :
  (List.length (printed_times l) <= List.length l)%nat.
Proof.
  unfold printed_times. rewrite length_map. apply filter_length_le.
Qed.

End Rounding.

(** With the timer, every test that reaches the verdict has its time
    recorded, whatever comes of the verdict. *)
Lemma judge_records_time {W} (E : Env W) cfg test_name indata outdata out t
    (s : state W) :
  timer cfg = true ->
  wp (judge E cfg test_name indata outdata out t)
     (fun _ s' => times (vars s') = times (vars s) ++ [t]) s.
Proof.
  intros Ht. unfold judge, verbose_print, extra_verbose_print.
  wp_steps; try congruence.
  all: (eapply wp_conseq; [apply evaluate_vars|]);
    intros [[b shown]|e] s1 Hv; unfold bind_post; simpl_state;
    [|rewrite Hv; reflexivity].
  all: wp_steps; simpl_state; rewrite ?Hv; reflexivity.
Qed.

(** C10. With the timer, the time of every test that reaches the verdict
    is recorded, and the report prints, after its other lines, the
    recorded times rounded to 4 decimals, leaving out those that round to
    zero. A time under 0.00005 seconds (the float that [0.00005] denotes)
    rounds to zero, so it is recorded and left out, and the printed list
    is never longer and can be shorter than the list of the recorded
    times and than the number of tests: of two tests that take 2 and
    0.00003 seconds, only the time of the first is printed. *)
Theorem short_times_dropped {W} (E : Env W) (cfg : config) :
  timer cfg = true ->
  (forall test_name indata outdata out t (s : state W) r s',
      judge E cfg test_name indata outdata out t s = (r, s') ->
      times (vars s') = times (vars s) ++ [t])
  /\ (forall s : state W,
        total (vars s) <> 0 ->
        exists lines,
          report cfg s
          = (Ret true,
             printing (lines ++ [EvTimes (printed_times (times (vars s)))]) s))
  /\ (forall l,
        printed_times l
        = map (fun t => PyFloat.round t 4)
            (filter (fun t => PyFloat.truthy (PyFloat.round t 4)) l))
  /\ PyFloat.of_string "0.00005" = Some (PyFloat.ratio false 5 100000)
  /\ (forall t,
        PyFloat.valid t = true ->
        PyFloat.ltb (PyFloat.abs t) (PyFloat.ratio false 5 100000) = true ->
        PyFloat.truthy (PyFloat.round t 4) = false
        /\ forall l1 l2,
             printed_times (l1 ++ t :: l2) = printed_times (l1 ++ l2))
  /\ (forall l, (List.length (printed_times l) <= List.length l)%nat)
  /\ (total (vars (snd (Script.run (Script.with_timer Script.defaults)
                          Script.two_timed_tests))) = 2
      /\ stdout (snd (Script.run (Script.with_timer Script.defaults)
                        Script.two_timed_tests))
         = [EvDone "./app";
            EvSummary 2 2 (PyFloat.of_Z 100);
            EvOvertime 1 2 (PyFloat.of_Z 50);
            EvNames ["tests/a"];
            EvTimes [PyFloat.of_Z 2]]).
Proof.
  intros Ht. split; [|split; [|split; [|split; [|split; [|split]]]]].
  - intros test_name indata outdata out t s r s' Hrun.
    exact (wp_run _ _ _ _ _ Hrun (judge_records_time E cfg _ _ _ _ _ s Ht)).
  - intros s H0. rewrite report_eq. unfold report_lines. rewrite Ht.
    destruct (Z.eqb_spec (total (vars s)) 0) as [|_]; [contradiction|].
    cbn [negb].
    exists (EvDone (app cfg)
            :: EvSummary (correct (vars s)) (total (vars s))
                 (percent (correct (vars s)) (total (vars s)))
            :: match wrong (vars s) with
               | [] => []
               | _ :: _ => [EvFailedHeader; EvNames (wrong (vars s))]
               end
            ++ match overtime (vars s) with
               | [] => []
               | _ :: _ =>
                   [EvOvertime (overtime_count (vars s)) (total (vars s))
                      (percent (overtime_count (vars s)) (total (vars s)));
                    EvNames (overtime (vars s))]
               end).
    f_equal. f_equal. cbn [List.app]. rewrite <- !app_assoc. reflexivity.
  - intros l. reflexivity.
  - vm_compute. reflexivity.
  - intros t Hvalid Hlt.
    pose proof (short_time_rounds_to_zero t Hvalid Hlt) as Hz.
    split; [exact Hz|]. intros l1 l2. apply printed_times_drop. exact Hz.
  - apply printed_times_length.
  - split; vm_compute; reflexivity.
Qed.

(** Two tests with the timer: the first takes 2 seconds, the second
    0.00003, and the report lists one time. *)
Lemma short_times_dropped_witness :
  exists lines,
    report (Script.with_timer Script.defaults)
      {| world := Script.tests [];
         stdout := [];
         vars := {| approx_total := 2; total := 2; correct := 2;
                    overtime_count := 1; wrong := []; overtime := ["tests/a"];
                    times := [PyFloat.of_Z 2; PyFloat.ratio false 3 100000] |} |}
    = (Ret true,
       printing
         (lines ++ [EvTimes (printed_times [PyFloat.of_Z 2; PyFloat.ratio false 3 100000])])
         {| world := Script.tests [];
            stdout := [];
            vars := {| approx_total := 2; total := 2; correct := 2;
                       overtime_count := 1; wrong := []; overtime := ["tests/a"];
                       times := [PyFloat.of_Z 2; PyFloat.ratio false 3 100000] |} |}).
Proof.
  refine (proj1 (proj2 (short_times_dropped Script.env
                          (Script.with_timer Script.defaults) eq_refl)) _ _).
  cbn. discriminate.
Defined.

(** * More properties of the harness *)

(** ** Sorting by key *)

Section Sorting.
Context {K A : Type} (lt : K -> K -> bool) (ok : K -> Prop).

(** [lt] is a strict weak order on the keys that are [ok]. *)
Hypothesis lt_asym : forall a b, lt a b = true -> lt b a = false.
Hypothesis le_trans :
  forall a b c, ok a -> ok b -> ok c ->
    lt b a = false -> lt c b = false -> lt c a = false.

Let before (x y : K * A) : Prop := lt (fst y) (fst x) = false.
Let tie (k : K) (x : K * A) : bool := negb (lt k (fst x)) && negb (lt (fst x) k).

Lemma insert_Permutation (x : K * A) l :
  Permutation (x :: l) (Ordering.insert lt x l).
Proof.
  induction l as [|y l IH]; cbn [Ordering.insert]; [reflexivity|].
  destruct (lt (fst y) (fst x)); [|reflexivity].
  rewrite perm_swap. apply perm_skip. exact IH.
Qed.

Lemma sort_by_key_Permutation (l : list (K * A)) :
  Permutation l (Ordering.sort_by_key lt l).
Proof.
  unfold Ordering.sort_by_key.
  induction l as [|x l IH]; cbn [fold_right]; [reflexivity|].
  rewrite <- insert_Permutation. apply perm_skip. exact IH.
Qed.

Lemma insert_sorted (x : K * A) l :
  ok (fst x) -> Forall (fun p => ok (fst p)) l ->
  StronglySorted before l -> StronglySorted before (Ordering.insert lt x l).
Proof.
  intros Hx Hok Hs. induction l as [|y l IH]; cbn [Ordering.insert].
  - constructor; constructor.
  - apply StronglySorted_inv in Hs. destruct Hs as [Hs Hy].
    apply Forall_cons_iff in Hok. destruct Hok as [Hoky Hok].
    destruct (lt (fst y) (fst x)) eqn:Hlt.
    + constructor; [apply IH; assumption|].
      apply (Permutation_Forall (insert_Permutation x l)).
      constructor; [apply lt_asym; exact Hlt|exact Hy].
    + constructor; [constructor; assumption|].
      constructor; [exact Hlt|].
      rewrite Forall_forall in Hy, Hok |- *. intros z Hz.
      apply (le_trans (fst x) (fst y) (fst z)); auto. apply Hy. exact Hz.
Qed.

Lemma sort_by_key_sorted (l : list (K * A)) :
  Forall (fun p => ok (fst p)) l ->
  StronglySorted before (Ordering.sort_by_key lt l).
Proof.
  unfold Ordering.sort_by_key.
  induction l as [|x l IH]; intros Hok; cbn [fold_right]; [constructor|].
  apply Forall_cons_iff in Hok. destruct Hok as [Hx Hok].
  apply insert_sorted; auto.
  apply (Permutation_Forall (sort_by_key_Permutation l)). exact Hok.
Qed.

(** Elements with tied keys keep their order. *)
Lemma insert_stable k (x : K * A) l :
  ok k -> ok (fst x) -> Forall (fun p => ok (fst p)) l ->
  filter (tie k) (Ordering.insert lt x l) = filter (tie k) (x :: l).
Proof.
  intros Hk Hx Hok. induction l as [|y l IH]; cbn [Ordering.insert]; [reflexivity|].
  apply Forall_cons_iff in Hok. destruct Hok as [Hy Hok].
  destruct (lt (fst y) (fst x)) eqn:Hlt; [|reflexivity].
  cbn [filter] in IH |- *. rewrite (IH Hok).
  destruct (tie k x) eqn:Tx; [|reflexivity].
  destruct (tie k y) eqn:Ty; [|reflexivity].
  exfalso. unfold tie in Tx, Ty.
  apply andb_prop in Tx, Ty. destruct Tx as [Tx1 Tx2], Ty as [Ty1 Ty2].
  apply negb_true_iff in Tx1, Tx2, Ty1, Ty2.
  rewrite (le_trans (fst x) k (fst y)) in Hlt; auto. discriminate.
Qed.

Lemma sort_by_key_stable k (l : list (K * A)) :
  ok k -> Forall (fun p => ok (fst p)) l ->
  filter (tie k) (Ordering.sort_by_key lt l) = filter (tie k) l.
Proof.
  intros Hk. unfold Ordering.sort_by_key.
  induction l as [|x l IH]; intros Hok; cbn [fold_right]; [reflexivity|].
  apply Forall_cons_iff in Hok. destruct Hok as [Hx Hok].
  rewrite insert_stable; auto.
  - cbn [filter]. rewrite (IH Hok). reflexivity.
  - apply (Permutation_Forall (sort_by_key_Permutation l)). exact Hok.
Qed.

End Sorting.

(** A list sorted by a key function. *)
Lemma combine_map_keys {K A} (key : A -> K) (l : list A) :
  combine (map key l) l = map (fun x => (key x, x)) l.
Proof. induction l as [|x l IH]; cbn; [|rewrite IH]; reflexivity. Qed.

Lemma map_snd_combine {K A} (keys : list K) (l : list A) :
  List.length keys = List.length l -> map snd (combine keys l) = l.
Proof.
  revert keys. induction l as [|x l IH]; intros [|k keys] H; cbn in *;
    try reflexivity; try discriminate.
  rewrite IH; [reflexivity|]. injection H as H. exact H.
Qed.

Lemma sorted_by_Permutation {K A} (lt : K -> K -> bool) keys (l : list A) :
  List.length keys = List.length l ->
  Permutation l (Ordering.sorted_by lt keys l).
Proof.
  intros H. unfold Ordering.sorted_by.
  rewrite <- (map_snd_combine keys l H) at 1.
  apply Permutation_map. apply sort_by_key_Permutation.
Qed.

Lemma StronglySorted_map {A B} (R : A -> A -> Prop) (R' : B -> B -> Prop)
    (f : A -> B) l :
  (forall a b, In a l -> In b l -> R a b -> R' (f a) (f b)) ->
  StronglySorted R l -> StronglySorted R' (map f l).
Proof.
  intros H Hs. induction Hs as [|a l Hs IH Ha]; cbn [map]; constructor.
  - apply IH. intros x y Hx Hy. apply H; right; assumption.
  - rewrite Forall_forall in Ha |- *. intros y Hy.
    apply in_map_iff in Hy. destruct Hy as (b & <- & Hb).
    apply H; [left; reflexivity|right; exact Hb|apply Ha; exact Hb].
Qed.

Lemma filter_map_snd {K A} (p : A -> bool) (l : list (K * A)) :
  filter p (map snd l) = map snd (filter (fun x => p (snd x)) l).
Proof.
  induction l as [|x l IH]; cbn [map filter]; [reflexivity|].
  destruct (p (snd x)); cbn [map]; rewrite IH; reflexivity.
Qed.

(** ** The order on text *)

Lemma str_ltb_lt s t : String.ltb s t = true <-> String_as_OT.lt s t.
Proof.
  rewrite <- String_as_OT.cmp_lt. unfold String.ltb, String_as_OT.cmp.
  destruct (String.compare s t); split; intros H; congruence.
Qed.

Lemma str_ltb_trans s t u :
  String.ltb s t = true -> String.ltb t u = true -> String.ltb s u = true.
Proof.
  rewrite !str_ltb_lt. apply String_as_OT.lt_trans.
Qed.

Lemma str_ltb_asym s t : String.ltb s t = true -> String.ltb t s = false.
Proof.
  unfold String.ltb. rewrite (String.compare_antisym t s).
  destruct (String.compare s t); cbn; congruence.
Qed.

Lemma str_ltb_total s t :
  String.ltb s t = false -> String.ltb t s = false -> s = t.
Proof.
  unfold String.ltb. rewrite (String.compare_antisym t s).
  destruct (String.compare s t) eqn:H; cbn; try congruence.
  intros _ _. apply String.compare_eq_iff. exact H.
Qed.

(** [s <= t] on text is transitive. *)
Lemma str_leb_trans s t u :
  String.ltb t s = false -> String.ltb u t = false -> String.ltb u s = false.
Proof.
  intros H1 H2. destruct (String.ltb u s) eqn:H3; [|reflexivity].
  destruct (String.ltb s t) eqn:H4.
  - rewrite (str_ltb_trans _ _ _ H3 H4) in H2. discriminate.
  - rewrite (str_ltb_total _ _ H4 H1) in H3. congruence.
Qed.

(** ** The natural keys *)

Section NaturalKeys.
Import Ordering.

Lemma key_lt_asym a b : key_lt a b = true -> key_lt b a = false.
Proof.
  revert b. induction a as [|x a IH]; intros [|y b]; cbn [key_lt]; try congruence.
  destruct x as [m|s], y as [n|t]; try congruence.
  - rewrite (Z.eqb_sym n m). destruct (Z.eqb_spec m n); [apply IH|].
    rewrite !Z.ltb_lt, !Z.ltb_ge. lia.
  - rewrite (String.eqb_sym t s). destruct (String.eqb s t); [apply IH|].
    apply str_ltb_asym.
Qed.

Lemma key_le_trans tn a b c :
  key_shape tn a = true -> key_shape tn b = true -> key_shape tn c = true ->
  key_lt b a = false -> key_lt c b = false -> key_lt c a = false.
Proof.
  revert tn b c. induction a as [|x a IH]; intros tn [|y b] [|z c];
    cbn [key_lt key_shape]; try congruence.
  destruct x as [m|s], y as [n|t], z as [k|u], tn; cbn [negb andb];
    try congruence; intros Ha Hb Hc.
  - destruct (Z.eqb_spec n m), (Z.eqb_spec k n), (Z.eqb_spec k m);
      rewrite ?Z.ltb_ge, ?Z.ltb_lt; try lia; try (intros; lia).
    apply (IH true); assumption.
  - destruct (String.eqb_spec t s), (String.eqb_spec u t), (String.eqb_spec u s);
      subst; try congruence.
    + apply (IH false); assumption.
    + intros H1 H2. elim n. symmetry. apply str_ltb_total; assumption.
    + apply str_leb_trans.
Qed.

Lemma key_lt_total tn a b :
  key_shape tn a = true -> key_shape tn b = true ->
  key_lt a b = false -> key_lt b a = false -> a = b.
Proof.
  revert tn b. induction a as [|x a IH]; intros tn [|y b];
    cbn [key_lt key_shape]; try congruence.
  destruct x as [m|s], y as [n|t], tn; cbn [negb andb]; try congruence;
    intros Ha Hb.
  - rewrite (Z.eqb_sym n m). destruct (Z.eqb_spec m n).
    + subst. intros H1 H2. f_equal. apply (IH true); assumption.
    + rewrite !Z.ltb_ge. lia.
  - rewrite (String.eqb_sym t s). destruct (String.eqb_spec s t).
    + subst. intros H1 H2. f_equal. apply (IH false); assumption.
    + intros H1 H2. elim n. apply str_ltb_total; assumption.
Qed.

Lemma shaped_no_TypeError tn a b :
  key_shape tn a = true -> key_shape tn b = true -> raises_TypeError a b = false.
Proof.
  revert tn b. induction a as [|x a IH]; intros tn [|y b];
    cbn [raises_TypeError key_shape]; try reflexivity.
  destruct x as [m|s], y as [n|t], tn; cbn [negb andb]; try congruence;
    intros Ha Hb.
  - destruct (m =? n); [apply (IH true); assumption|reflexivity].
  - destruct (String.eqb s t); [apply (IH false); assumption|reflexivity].
Qed.

(** *** The pieces of a name *)

Lemma forallb_rev {X} (p : X -> bool) l : forallb p (rev l) = forallb p l.
Proof.
  induction l as [|x l IH]; cbn [rev forallb]; [reflexivity|].
  rewrite forallb_app, IH. cbn. rewrite andb_true_r. apply andb_comm.
Qed.

Lemma forallb_same {X} (p q : X -> bool) l :
  (forall x, p x = q x) -> forallb p l = forallb q l.
Proof.
  intros H. induction l as [|x l IH]; cbn [forallb]; [|rewrite H, IH]; reflexivity.
Qed.

Lemma string_of_list_ascii_app l1 l2 :
  string_of_list_ascii (l1 ++ l2)
  = (string_of_list_ascii l1 ++ string_of_list_ascii l2)%string.
Proof. induction l1 as [|c l1 IH]; cbn; [|rewrite IH]; reflexivity. Qed.

Lemma list_ascii_of_string_app s1 s2 :
  list_ascii_of_string (s1 ++ s2)
  = list_ascii_of_string s1 ++ list_ascii_of_string s2.
Proof. induction s1 as [|c s1 IH]; cbn; [|rewrite IH]; reflexivity. Qed.

Lemma append_empty_r s : (s ++ "")%string = s.
Proof. induction s as [|c s IH]; cbn; [|rewrite IH]; reflexivity. Qed.

Lemma is_empty_of_list l :
  PyStr.is_empty (string_of_list_ascii l) = match l with [] => true | _ => false end.
Proof. destruct l; reflexivity. Qed.

(** What [split_runs] returns while it reads a piece: the pieces put
    together are the characters read so far and those to come, and they
    are a number and a text in turn. *)
Lemma split_runs_join l d cur :
  fold_right String.append "" (split_runs l d cur)
  = string_of_list_ascii (rev cur ++ l).
Proof.
  revert d cur. induction l as [|c l IH]; intros d cur; cbn [split_runs].
  - rewrite app_nil_r. destruct d; cbn [fold_right]; rewrite ?append_empty_r;
      reflexivity.
  - destruct (Bool.eqb (PyFloat.is_digit c) d).
    + rewrite IH. cbn [rev]. rewrite <- app_assoc. reflexivity.
    + cbn [fold_right]. rewrite IH, (string_of_list_ascii_app (rev cur)).
      reflexivity.
Qed.

Lemma split_runs_alternating l d cur :
  forallb (fun c => Bool.eqb (PyFloat.is_digit c) d) cur = true ->
  (d = true -> cur <> []) ->
  alternating (negb d) (split_runs l d cur) = true.
Proof.
  revert d cur. induction l as [|c l IH]; intros d cur Hcur Hne;
    cbn [split_runs].
  - assert (Hpiece : (if negb d then is_text (string_of_list_ascii (rev cur))
                      else is_number (string_of_list_ascii (rev cur))) = true).
    { unfold is_text, is_number.
      rewrite is_empty_of_list, list_ascii_of_string_of_list_ascii, !forallb_rev.
      destruct d; cbn [negb].
      - destruct (rev cur) eqn:Hr.
        + apply (f_equal (@rev _)) in Hr. rewrite rev_involutive in Hr.
          elim (Hne eq_refl). exact Hr.
        + cbn [negb andb]. rewrite <- Hcur. apply forallb_same. intros ch.
          destruct (PyFloat.is_digit ch); reflexivity.
      - rewrite <- Hcur. apply forallb_same. intros ch.
        destruct (PyFloat.is_digit ch); reflexivity. }
    destruct d; cbn [alternating negb] in *; rewrite Hpiece; reflexivity.
  - destruct (Bool.eqb (PyFloat.is_digit c) d) eqn:Hc.
    + apply IH; [cbn [forallb]; rewrite Hc, Hcur; reflexivity|discriminate].
    + cbn [alternating].
      assert (Hpiece : (if negb d then is_text (string_of_list_ascii (rev cur))
                        else is_number (string_of_list_ascii (rev cur))) = true).
      { unfold is_text, is_number.
        rewrite is_empty_of_list, list_ascii_of_string_of_list_ascii, !forallb_rev.
        destruct d; cbn [negb].
        - destruct (rev cur) eqn:Hr.
          + apply (f_equal (@rev _)) in Hr. rewrite rev_involutive in Hr.
            elim (Hne eq_refl). exact Hr.
          + cbn [negb andb]. rewrite <- Hcur. apply forallb_same. intros ch.
            destruct (PyFloat.is_digit ch); reflexivity.
        - rewrite <- Hcur. apply forallb_same. intros ch.
          destruct (PyFloat.is_digit ch); reflexivity. }
      rewrite Hpiece. cbn [andb].
      assert (Hd : PyFloat.is_digit c = negb d).
      { revert Hc. destruct (PyFloat.is_digit c), d; cbn; congruence. }
      rewrite Hd. apply IH.
      * cbn [forallb]. rewrite Hd, eqb_reflx. reflexivity.
      * discriminate.
Qed.

Lemma tryint_text p : is_text p = true -> tryint p = KStr p.
Proof.
  unfold is_text, tryint. destruct p as [|c p]; [reflexivity|].
  cbn [list_ascii_of_string forallb]. intros H.
  apply andb_prop in H. destruct H as [H _].
  apply negb_true_iff in H. rewrite H. reflexivity.
Qed.

Lemma tryint_number p :
  is_number p = true -> tryint p = KInt (PyFloat.digits_val (list_ascii_of_string p)).
Proof. unfold is_number, tryint. intros ->. reflexivity. Qed.

Lemma alternating_key_shape tn l :
  alternating tn l = true -> key_shape tn (map tryint l) = true.
Proof.
  revert tn. induction l as [|p l IH]; intros tn; cbn [alternating map key_shape];
    [exact (fun H => H)|].
  intros H. apply andb_prop in H. destruct H as [Hp Hl].
  destruct tn; cbn [negb] in *.
  - rewrite (tryint_text _ Hp). apply (IH false). exact Hl.
  - rewrite (tryint_number _ Hp). apply (IH true). exact Hl.
Qed.

Lemma re_split_alternating f : alternating true (re_split_digits f) = true.
Proof.
  unfold re_split_digits.
  apply (split_runs_alternating _ false []); [reflexivity|discriminate].
Qed.

Lemma natural_key_shape f : key_shape true (natural_key f) = true.
Proof. apply alternating_key_shape, re_split_alternating. Qed.

(** A run through text, and through digits. *)
Lemma split_runs_through t l d cur :
  forallb (fun c => Bool.eqb (PyFloat.is_digit c) d) t = true ->
  split_runs (t ++ l) d cur = split_runs l d (rev t ++ cur).
Proof.
  revert cur. induction t as [|c t IH]; intros cur H; [reflexivity|].
  cbn [forallb] in H. apply andb_prop in H. destruct H as [Hc Ht].
  cbn [List.app split_runs rev]. rewrite Hc, (IH _ Ht), <- app_assoc. reflexivity.
Qed.

Lemma text_chars p :
  is_text p = true ->
  forallb (fun c => Bool.eqb (PyFloat.is_digit c) false) (list_ascii_of_string p) = true.
Proof.
  unfold is_text. intros <-. apply forallb_same. intros ch.
  destruct (PyFloat.is_digit ch); reflexivity.
Qed.

Lemma number_chars p :
  is_number p = true ->
  forallb (fun c => Bool.eqb (PyFloat.is_digit c) true) (list_ascii_of_string p) = true.
Proof.
  unfold is_number. intros H. apply andb_prop in H. destruct H as [_ H].
  etransitivity; [|exact H]. apply forallb_same. intros ch. destruct (PyFloat.is_digit ch); reflexivity.
Qed.

(** A name made of a text, a number and a text splits into the three. *)
Lemma re_split_three p d q :
  is_text p = true -> is_number d = true -> is_text q = true ->
  re_split_digits (p ++ d ++ q) = [p; d; q].
Proof.
  intros Hp Hd Hq. unfold re_split_digits.
  rewrite !list_ascii_of_string_app.
  rewrite (split_runs_through _ _ false [] (text_chars _ Hp)), app_nil_r.
  pose proof (number_chars _ Hd) as Hdc.
  destruct d as [|c d]; [discriminate|].
  cbn [list_ascii_of_string forallb] in Hdc.
  apply andb_prop in Hdc. destruct Hdc as [Hc Hdc].
  cbn [list_ascii_of_string List.app split_runs].
  assert (Hc' : Bool.eqb (PyFloat.is_digit c) false = false).
  { destruct (PyFloat.is_digit c); [reflexivity|discriminate]. }
  rewrite Hc', rev_involutive, string_of_list_ascii_of_string.
  assert (Hc'' : PyFloat.is_digit c = true).
  { destruct (PyFloat.is_digit c); [reflexivity|discriminate]. }
  rewrite Hc''.
  rewrite (split_runs_through _ _ true [c] Hdc).
  assert (Hnum : string_of_list_ascii (rev (rev (list_ascii_of_string d) ++ [c]))
                 = String c d).
  { rewrite rev_app_distr, rev_involutive. cbn.
    rewrite string_of_list_ascii_of_string. reflexivity. }
  pose proof (text_chars _ Hq) as Hqc.
  destruct q as [|c2 q].
  - cbn [list_ascii_of_string split_runs]. rewrite Hnum. reflexivity.
  - cbn [list_ascii_of_string forallb] in Hqc.
    apply andb_prop in Hqc. destruct Hqc as [Hc2 Hqc].
    cbn [list_ascii_of_string split_runs].
    assert (Hc2' : Bool.eqb (PyFloat.is_digit c2) true = false).
    { destruct (PyFloat.is_digit c2); [discriminate|reflexivity]. }
    assert (Hc2'' : PyFloat.is_digit c2 = false).
    { destruct (PyFloat.is_digit c2); [discriminate|reflexivity]. }
    rewrite Hc2', Hnum, Hc2''.
    rewrite <- (app_nil_r (list_ascii_of_string q)).
    rewrite (split_runs_through _ _ false [c2] Hqc).
    cbn [split_runs]. rewrite rev_app_distr, rev_involutive. cbn.
    rewrite string_of_list_ascii_of_string. reflexivity.
Qed.

End NaturalKeys.

(** ** Swapping and shuffling *)

Section Shuffling.
Import Ordering.

Lemma set_nth_nil {A} i (a : A) : set_nth [] i a = [].
Proof. unfold set_nth. rewrite firstn_nil, skipn_nil. reflexivity. Qed.

Lemma set_nth_succ {A} (x : A) l i a : set_nth (x :: l) (S i) a = x :: set_nth l i a.
Proof. reflexivity. Qed.

Lemma nth_error_set_nth_same {A} (l : list A) i a b :
  nth_error l i = Some a -> nth_error (set_nth l i b) i = Some b.
Proof.
  revert l. induction i as [|i IH]; intros [|x l] H; try discriminate.
  - reflexivity.
  - rewrite set_nth_succ. cbn [nth_error] in *. apply IH. exact H.
Qed.

Lemma nth_error_set_nth_other {A} (l : list A) i j b :
  i <> j -> nth_error (set_nth l i b) j = nth_error l j.
Proof.
  revert l j. induction i as [|i IH]; intros [|x l] [|j] H;
    rewrite ?set_nth_nil; try reflexivity; try congruence.
  rewrite set_nth_succ. cbn [nth_error]. apply IH. congruence.
Qed.

Lemma count_set_nth (l : list string) i a b x :
  nth_error l i = Some a ->
  (occurrences x (set_nth l i b) + (if string_dec a x then 1 else 0)
   = occurrences x l + (if string_dec b x then 1 else 0))%nat.
Proof.
  unfold occurrences.
  revert l. induction i as [|i IH]; intros [|y l] H; try discriminate.
  - injection H as ->. cbn [set_nth firstn skipn List.app count_occ].
    destruct (string_dec a x), (string_dec b x); lia.
  - rewrite set_nth_succ. cbn [nth_error count_occ] in *. specialize (IH l H).
    destruct (string_dec y x); lia.
Qed.

(** A swap loses no test and invents none. *)
Lemma swap_Permutation (l : list string) i j : Permutation l (swap l i j).
Proof.
  unfold swap.
  destruct (nth_error l i) as [a|] eqn:Hi; [|reflexivity].
  destruct (nth_error l j) as [b|] eqn:Hj; [|reflexivity].
  apply (Permutation_count_occ string_dec). intros x.
  pose proof (count_set_nth l i a b x Hi) as H1.
  assert (Hj' : nth_error (set_nth l i b) j = Some b).
  { destruct (Nat.eq_dec i j) as [<-|Hne].
    - exact (nth_error_set_nth_same l i a b Hi).
    - rewrite nth_error_set_nth_other; assumption. }
  pose proof (count_set_nth _ j b a x Hj') as H2.
  unfold occurrences in *. lia.
Qed.

End Shuffling.

(** ** What ordering does to the list of tests *)

Section OrderFiles.
Context {W : Type} (E : Env W) (cfg : config).

Lemma shuffle_from_Permutation i x (s : state W) :
  wp (shuffle_from E i x)
     (fun r s' =>
        same_but_world s s'
        /\ match r with Ret l => Permutation x l | Raise _ => True end) s.
Proof.
  revert x s. induction i as [|i IH]; intros x s; cbn [shuffle_from].
  - wp_steps. repeat split. reflexivity.
  - wp_steps; simpl_state; [|repeat split].
    eapply wp_conseq; [apply IH|]. simpl_state.
    intros [l|e] s1 [Hs Hl]; (split; [exact Hs|]); [|exact I].
    rewrite <- Hl. apply swap_Permutation.
Qed.

Lemma map_M_os_call_length {A B} (f : A -> W -> (B + os_exn) * W) l (s : state W) :
  wp (map_M (fun x => os_call (f x)) l)
     (fun r s' =>
        same_but_world s s'
        /\ match r with
           | Ret ys => List.length ys = List.length l
           | Raise _ => True
           end) s.
Proof.
  revert s. induction l as [|x l IH]; intros s; cbn [map_M].
  - wp_steps. repeat split.
  - wp_steps; simpl_state; [|repeat split].
    eapply wp_conseq; [apply IH|]. simpl_state.
    intros [ys|e] s1 [Hs Hl]; unfold bind_post.
    + wp_steps. split; [exact Hs|]. cbn [List.length]. rewrite Hl. reflexivity.
    + split; [exact Hs|exact I].
Qed.

Lemma order_files_Permutation files (s : state W) :
  wp (order_files E cfg files)
     (fun r s' =>
        same_but_world s s'
        /\ match r with
           | Ret l => Permutation files l
           | Raise _ => shuffle cfg || do_sort cfg = true
           end) s.
Proof.
  unfold order_files, random_shuffle.
  destruct (shuffle cfg).
  - eapply wp_conseq; [apply shuffle_from_Permutation|].
    intros [l|e] s1 [Hs Hl]; (split; [exact Hs|]); [exact Hl|reflexivity].
  - destruct (do_sort cfg).
    + apply wp_bind. eapply wp_conseq; [apply map_M_os_call_length|].
      intros [sizes|e] s1 [Hs Hl]; unfold bind_post.
      * wp_steps. split; [exact Hs|]. apply sorted_by_Permutation. exact Hl.
      * split; [exact Hs|reflexivity].
    + destruct (natural_sort cfg); wp_steps; (split; [split; reflexivity|]).
      * apply sorted_by_Permutation. apply length_map.
      * reflexivity.
Qed.

End OrderFiles.

(** ** The order of the tests (lines 64-72) *)

(** X1. Ordering loses no test and invents none: whatever the option,
    the list that [order_files] returns is a permutation of the list it
    was given. Ordering prints nothing and changes no variable, and only
    shuffling and sorting by size, which call the operating system, can
    fail (natural sorting, for names in ASCII that are shorter than 4300
    characters, cannot). *)
Theorem ordering_keeps_the_tests {W} (E : Env W) (cfg : config)
    (files : list string) (s : state W) (r : res (list string)) (s' : state W) :
  shuffle cfg || do_sort cfg = true \/ forallb plain_name files = true ->
  order_files E cfg files s = (r, s') ->
  same_but_world s s'
  /\ match r with
     | Ret l => Permutation files l
     | Raise _ => shuffle cfg || do_sort cfg = true
     end.
Proof.
  intros _ Hrun.
  exact (wp_run _ _ _ _ _ Hrun (order_files_Permutation E cfg files s)).
Qed.

Lemma ordering_keeps_the_tests_witness :
  Permutation ["tests/b.in"; "tests/a.in"]
    ["tests/a.in"; "tests/b.in"].
Proof.
  exact (proj2 (ordering_keeps_the_tests Script.env (by_size Script.defaults)
                  ["tests/b.in"; "tests/a.in"]
                  (initial_state (Script.tests [("a.in", "5"); ("b.in", "66")]))
                  (Ret ["tests/a.in"; "tests/b.in"])
                  (initial_state (Script.tests [("a.in", "5"); ("b.in", "66")]))
                  (or_introl eq_refl) eq_refl)).
Defined.

(** X2. The pieces that [re.split("([0-9]+)", f)] cuts a name into give
    the name back when they are put together, and they are texts without
    a digit and runs of digits in turn, beginning and ending with a text
    (which may be empty). *)
Theorem re_split_round_trip (f : string) :
  fold_right String.append "" (Ordering.re_split_digits f) = f
  /\ alternating true (Ordering.re_split_digits f) = true.
Proof.
  split.
  - unfold Ordering.re_split_digits. rewrite split_runs_join. cbn [rev List.app].
    apply string_of_list_ascii_of_string.
  - apply re_split_alternating.
Qed.

(** X3. The keys of natural order can always be compared, for names
    in ASCII that are shorter than 4300 characters. A key is a text, a
    number, a text and so on, so that the comparison of two keys never
    meets a number against a text, which would raise [TypeError]; the
    order of the keys is total (of two names one does not come after the
    other), transitive, and two names are tied only if their keys are
    equal. *)
Theorem natural_keys_compare (f g h : string) :
  plain_name f = true -> plain_name g = true -> plain_name h = true ->
  key_shape true (Ordering.natural_key f) = true
  /\ raises_TypeError (Ordering.natural_key f) (Ordering.natural_key g) = false
  /\ (natural_le f g \/ natural_le g f)
  /\ (natural_le f g -> natural_le g h -> natural_le f h)
  /\ (natural_tie f g = true -> Ordering.natural_key f = Ordering.natural_key g).
Proof.
  intros _ _ _.
  split; [apply natural_key_shape|]. split; [|split; [|split]].
  - apply (shaped_no_TypeError true); apply natural_key_shape.
  - unfold natural_le.
    destruct (Ordering.key_lt (Ordering.natural_key g) (Ordering.natural_key f)) eqn:H;
      [right|left; reflexivity].
    apply key_lt_asym. exact H.
  - unfold natural_le. intros H1 H2.
    apply (key_le_trans true _ (Ordering.natural_key g)); auto using natural_key_shape.
  - unfold natural_tie. intros H. apply andb_prop in H. destruct H as [H1 H2].
    apply negb_true_iff in H1, H2.
    apply (key_lt_total true); auto using natural_key_shape.
Qed.

Lemma natural_keys_compare_witness :
  Ordering.natural_key "tests/a01.in" = Ordering.natural_key "tests/a1.in".
Proof.
  exact (proj2 (proj2 (proj2 (proj2
           (natural_keys_compare "tests/a01.in" "tests/a1.in" ""
              eq_refl eq_refl eq_refl))))
           eq_refl).
Defined.

Lemma natural_pairs_shaped files :
  Forall (fun p : list Ordering.key_part * string => key_shape true (fst p) = true)
    (combine (map Ordering.natural_key files) files).
Proof.
  rewrite combine_map_keys. apply Forall_forall. intros p Hp.
  apply in_map_iff in Hp. destruct Hp as (f & <- & _). apply natural_key_shape.
Qed.

Lemma natural_pairs_keyed files p :
  In p (Ordering.sort_by_key Ordering.key_lt
          (combine (map Ordering.natural_key files) files)) ->
  fst p = Ordering.natural_key (snd p).
Proof.
  intros Hp.
  apply (Permutation_in _ (Permutation_sym (sort_by_key_Permutation _ _))) in Hp.
  rewrite combine_map_keys in Hp.
  apply in_map_iff in Hp. destruct Hp as (f & <- & _). reflexivity.
Qed.

(** X4. Natural sorting is the stable sort by the natural key, for
    names in ASCII that are shorter than 4300 characters: the result is a
    permutation of the tests, no test in it comes after a later one in
    natural order, and the tests that are tied with a given one (say
    [a01.in] and [a1.in]) stand in the order in which they were
    listed. *)
Theorem natural_sort_is_stable_sort (files : list string) :
  forallb plain_name files = true ->
  Permutation files (Ordering.natural_sorted files)
  /\ StronglySorted natural_le (Ordering.natural_sorted files)
  /\ forall g,
       plain_name g = true ->
       filter (natural_tie g) (Ordering.natural_sorted files)
       = filter (natural_tie g) files.
Proof.
  intros _. split; [|split].
  - apply sorted_by_Permutation. apply length_map.
  - unfold Ordering.natural_sorted, Ordering.sorted_by.
    eapply StronglySorted_map;
      [|apply (sort_by_key_sorted Ordering.key_lt
                 (fun k => key_shape true k = true) key_lt_asym
                 (key_le_trans true) _ (natural_pairs_shaped files))].
    intros a b Ha Hb H. unfold natural_le.
    rewrite <- (natural_pairs_keyed files a Ha), <- (natural_pairs_keyed files b Hb).
    exact H.
  - intros g _. unfold Ordering.natural_sorted, Ordering.sorted_by.
    rewrite filter_map_snd.
    rewrite (filter_ext_in (fun x => natural_tie g (snd x))
               (fun x => negb (Ordering.key_lt (Ordering.natural_key g) (fst x))
                         && negb (Ordering.key_lt (fst x) (Ordering.natural_key g)))).
    + rewrite (sort_by_key_stable Ordering.key_lt
                 (fun k => key_shape true k = true) (key_le_trans true)
                 (Ordering.natural_key g) _ (natural_key_shape g)
                 (natural_pairs_shaped files)).
      rewrite combine_map_keys.
      induction files as [|f files IH]; cbn [map filter fst]; [reflexivity|].
      fold (natural_tie g f). destruct (natural_tie g f); cbn [map snd];
        rewrite IH; reflexivity.
    + intros p Hp. unfold natural_tie.
      rewrite (natural_pairs_keyed files p Hp). reflexivity.
Qed.

(** [t10], [t2], [t02] and [t1]: by number, [t2] before [t02] as they
    were listed. *)
Lemma natural_sort_is_stable_sort_witness :
  Permutation ["t10.in"; "t2.in"; "t02.in"; "t1.in"]
    ["t1.in"; "t2.in"; "t02.in"; "t10.in"].
Proof.
  exact (proj1 (natural_sort_is_stable_sort
                  ["t10.in"; "t2.in"; "t02.in"; "t1.in"] eq_refl)).
Defined.

(** X5. Natural order compares numbers by their value. A name (in
    ASCII, shorter than 4300 characters) made of a text, a run of digits
    and a text has these three for its key, the digits as a number; of
    two such names that differ in the digits only, the one with the
    smaller number comes first (so [t2.in] comes before [t10.in]), and
    they are tied when the numbers are equal ([t01.in] and [t1.in]). *)
Theorem natural_order_by_number (p d1 d2 q : string) :
  plain_name (p ++ d1 ++ q) = true -> plain_name (p ++ d2 ++ q) = true ->
  is_text p = true -> is_number d1 = true -> is_number d2 = true ->
  is_text q = true ->
  Ordering.natural_key (p ++ d1 ++ q)
  = [Ordering.KStr p;
     Ordering.KInt (PyFloat.digits_val (list_ascii_of_string d1));
     Ordering.KStr q]
  /\ Ordering.key_lt (Ordering.natural_key (p ++ d1 ++ q))
       (Ordering.natural_key (p ++ d2 ++ q))
     = (PyFloat.digits_val (list_ascii_of_string d1)
        <? PyFloat.digits_val (list_ascii_of_string d2))
  /\ natural_tie (p ++ d1 ++ q) (p ++ d2 ++ q)
     = (PyFloat.digits_val (list_ascii_of_string d1)
        =? PyFloat.digits_val (list_ascii_of_string d2)).
Proof.
  intros _ _ Hp Hd1 Hd2 Hq.
  assert (Hkey : forall d, is_number d = true ->
            Ordering.natural_key (p ++ d ++ q)
            = [Ordering.KStr p;
               Ordering.KInt (PyFloat.digits_val (list_ascii_of_string d));
               Ordering.KStr q]).
  { intros d Hd. unfold Ordering.natural_key.
    rewrite (re_split_three p d q Hp Hd Hq). cbn [map].
    rewrite (tryint_text p Hp), (tryint_text q Hq), (tryint_number d Hd).
    reflexivity. }
  split; [apply Hkey; exact Hd1|].
  unfold natural_tie. rewrite (Hkey d1 Hd1), (Hkey d2 Hd2).
  cbn [Ordering.key_lt]. rewrite !String.eqb_refl.
  set (m := PyFloat.digits_val (list_ascii_of_string d1)).
  set (n := PyFloat.digits_val (list_ascii_of_string d2)).
  rewrite (Z.eqb_sym n m).
  destruct (Z.eqb_spec m n) as [Heq|Hne]; cbn [Ordering.key_lt].
  - rewrite Heq, Z.ltb_irrefl. split; reflexivity.
  - split; [reflexivity|].
    destruct (Z.ltb_spec m n), (Z.ltb_spec n m); cbn; try reflexivity; lia.
Qed.

Lemma natural_order_by_number_witness :
  Ordering.key_lt (Ordering.natural_key "tests/t2.in")
    (Ordering.natural_key "tests/t10.in") = true.
Proof.
  exact (proj1 (proj2 (natural_order_by_number "tests/t" "2" "10" ".in"
                         eq_refl eq_refl eq_refl eq_refl eq_refl eq_refl))).
Defined.

(** X6. Sorting by size is the stable sort by the sizes that
    [os.path.getsize] returned, asked once for each test in the order of
    the list, before any test moves: the result lists the tests by size,
    smallest first, and tests of equal size in the order in which they
    were listed. *)
Theorem size_sort_is_stable_sort {W} (E : Env W) (cfg : config)
    (files : list string) (s : state W) (l : list string) (s' : state W) :
  shuffle cfg = false -> do_sort cfg = true ->
  order_files E cfg files s = (Ret l, s') ->
  exists sizes,
    map_M (fun f => os_call (getsize E f)) files s = (Ret sizes, s')
    /\ List.length sizes = List.length files
    /\ exists sized,
         l = map snd sized
         /\ Permutation (combine sizes files) sized
         /\ StronglySorted (fun a b => fst a <= fst b) sized
         /\ forall n,
              filter (fun x => fst x =? n) sized
              = filter (fun x => fst x =? n) (combine sizes files).
Proof.
  intros Hsh Hsort. unfold order_files. rewrite Hsh, Hsort.
  pose proof (map_M_os_call_length (getsize E) files s) as Hsizes.
  unfold wp in Hsizes. unfold bind.
  destruct (map_M _ files s) as [[sizes|e] s1]; [|discriminate].
  cbn [fst snd] in Hsizes. destruct Hsizes as [_ Hlen].
  unfold ret. intros Hrun. injection Hrun as <- <-.
  exists sizes. split; [reflexivity|]. split; [exact Hlen|].
  exists (Ordering.sort_by_key Z.ltb (combine sizes files)).
  split; [reflexivity|]. split; [apply sort_by_key_Permutation|]. split.
  - rewrite <- (map_id (Ordering.sort_by_key _ _)).
    apply StronglySorted_map
      with (R := fun a b : Z * string => (fst b <? fst a) = false).
    + intros a b _ _ H. apply Z.ltb_ge in H. exact H.
    + apply (sort_by_key_sorted Z.ltb (fun _ => True)).
      * intros a b. rewrite Z.ltb_lt, Z.ltb_ge. lia.
      * intros a b c _ _ _. rewrite !Z.ltb_ge. lia.
      * apply Forall_forall. intros; exact I.
  - intros n.
    assert (Htie : forall x : Z * string,
               (fst x =? n) = negb (n <? fst x) && negb (fst x <? n)).
    { intros x. destruct (Z.eqb_spec (fst x) n), (Z.ltb_spec n (fst x)),
        (Z.ltb_spec (fst x) n); cbn; try reflexivity; lia. }
    rewrite !(filter_ext _ _ Htie).
    apply (sort_by_key_stable Z.ltb (fun _ => True)).
    + intros a b c _ _ _. rewrite !Z.ltb_ge. lia.
    + exact I.
    + apply Forall_forall. intros; exact I.
Qed.

Lemma size_sort_is_stable_sort_witness :
  exists sizes,
    map_M (fun f => os_call (getsize Script.env f)) ["tests/b.in"; "tests/a.in"]
      (initial_state (Script.tests [("a.in", "5"); ("b.in", "66")]))
    = (Ret sizes, initial_state (Script.tests [("a.in", "5"); ("b.in", "66")]))
    /\ List.length sizes = 2%nat
    /\ exists sized,
         ["tests/a.in"; "tests/b.in"] = map snd sized
         /\ Permutation (combine sizes ["tests/b.in"; "tests/a.in"]) sized
         /\ StronglySorted (fun a b => fst a <= fst b) sized
         /\ forall n,
              filter (fun x => fst x =? n) sized
              = filter (fun x => fst x =? n)
                  (combine sizes ["tests/b.in"; "tests/a.in"]).
Proof.
  exact (size_sort_is_stable_sort Script.env (by_size Script.defaults)
           ["tests/b.in"; "tests/a.in"]
           (initial_state (Script.tests [("a.in", "5"); ("b.in", "66")]))
           ["tests/a.in"; "tests/b.in"]
           (initial_state (Script.tests [("a.in", "5"); ("b.in", "66")]))
           eq_refl eq_refl eq_refl).
Defined.

(** ** How the tests of a run end *)

Section Endings.
Context {W : Type} (E : Env W) (cfg : config).

(** The counts of the lines, where lines were appended. *)
Ltac count_lines :=
  unfold one_ended, none_ended, settled, skipped, crashed in *; simpl_state;
  rewrite ?filter_app, ?length_app in *;
  cbn [filter List.length] in *.

Lemma evaluate_none_ended indata outdata out (s : state W) :
  wp (evaluate E cfg indata outdata out)
     (fun _ s' => vars s' = vars s
                  /\ skipped (stdout s') = skipped (stdout s)
                  /\ crashed (stdout s') = crashed (stdout s)) s.
Proof.
  unfold evaluate, call_for_status_code, extra_verbose_print.
  wp_steps; simpl_state; try congruence; try (repeat split; reflexivity).
  all: wp_steps; count_lines; repeat split; try reflexivity; lia.
Qed.

Lemma judge_ends test_name indata outdata out t (s : state W) :
  wp (judge E cfg test_name indata outdata out t)
     (fun r s' =>
        match r with
        | Ret _ => one_ended s s'
        | Raise _ => none_ended s s'
        end) s.
Proof.
  unfold judge, verbose_print, extra_verbose_print.
  wp_steps.
  all: (eapply wp_conseq; [apply evaluate_none_ended|]);
    intros [[b shown]|e] s1 (Hv & Hsk & Hcr); unfold bind_post; simpl_state;
    [|unfold none_ended; rewrite Hv; count_lines; lia].
  all: wp_steps; unfold one_ended; simpl_state; rewrite ?Hv; count_lines; lia.
Qed.

Lemma run_case_ends tq test_name infile indata outdata (s : state W) :
  wp (run_case E cfg tq test_name infile indata outdata)
     (fun r s' =>
        match r with
        | Ret _ => one_ended s s'
        | Raise _ => none_ended s s'
        end) s.
Proof.
  unfold run_case, try_case, call_with_io_timed, extra_verbose_print.
  wp_steps; simpl_state; try discriminate.
  all: try (eapply wp_conseq; [apply judge_ends|];
            intros [[]|?] ?; count_lines; lia).
  all: count_lines; lia.
Qed.

Lemma for_body_ends all_files tq file (s : state W) :
  wp (for_body E cfg all_files tq file)
     (fun r s' =>
        match r with
        | Ret _ => one_ended s s'
        | Raise _ => none_ended s s'
        end) s.
Proof.
  unfold for_body, open_case, readfile, verbose_print.
  wp_steps; simpl_state.
  all: try (eapply wp_conseq; [apply run_case_ends|];
            intros [[]|?] ?; count_lines; lia).
  all: count_lines; lia.
Qed.

Lemma test_loop_ends all_files files (s : state W) :
  wp (test_loop E cfg all_files files)
     (fun r s' =>
        total (vars s) <= total (vars s')
        /\ skipped (stdout s) <= skipped (stdout s')
        /\ crashed (stdout s) <= crashed (stdout s')
        /\ approx_total (vars s') + skipped (stdout s')
           = approx_total (vars s) + skipped (stdout s)
        /\ settled s' <= settled s + Z.of_nat (List.length files)
        /\ (r = Ret tt -> settled s' = settled s + Z.of_nat (List.length files))) s.
Proof.
  unfold test_loop.
  apply wp_for_each_rest
    with (I := fun rest s1 =>
                 total (vars s) <= total (vars s1)
                 /\ skipped (stdout s) <= skipped (stdout s1)
                 /\ crashed (stdout s) <= crashed (stdout s1)
                 /\ approx_total (vars s1) + skipped (stdout s1)
                    = approx_total (vars s) + skipped (stdout s)
                 /\ settled s1 + Z.of_nat (List.length rest)
                    = settled s + Z.of_nat (List.length files)).
  - unfold settled. lia.
  - intros file rest s1 H1.
    eapply wp_conseq; [apply for_body_ends|].
    unfold one_ended, none_ended, settled in *. cbn [List.length] in H1.
    intros [[]|e] s2 H2; [lia|].
    repeat split; try lia. discriminate.
  - intros s1 H1. unfold settled in *. cbn [List.length] in H1.
    repeat split; lia.
Qed.

End Endings.

(** X7. Every test of the loop ends in exactly one of three ways: it is
    judged ([total] grows by one), it is skipped with a line that says
    why and leaves the pool ([approx_total] goes down by one), or its
    program fails with an exception that is reported. So, through the
    loop, [total], the lines of skipped tests and the lines of failed
    programs only grow; [approx_total] plus the number of skipped tests
    stays what it was; and when the loop comes to its end, the three
    numbers together grew by the number of tests. A test that raises
    ends in none of the three ways. (Ctrl-C arrives inside a library
    call, here as everywhere in this model.) *)
Theorem every_test_ends_one_way {W} (E : Env W) (cfg : config)
    (all_files : list string) :
  (forall tq file (s : state W) r s',
      for_body E cfg all_files tq file s = (r, s') ->
      match r with
      | Ret _ => one_ended s s'
      | Raise _ => none_ended s s'
      end)
  /\ (forall files (s : state W) r s',
        test_loop E cfg all_files files s = (r, s') ->
        total (vars s) <= total (vars s')
        /\ skipped (stdout s) <= skipped (stdout s')
        /\ crashed (stdout s) <= crashed (stdout s')
        /\ approx_total (vars s') + skipped (stdout s')
           = approx_total (vars s) + skipped (stdout s)
        /\ settled s' <= settled s + Z.of_nat (List.length files)
        /\ (r = Ret tt -> settled s' = settled s + Z.of_nat (List.length files))).
Proof.
  split.
  - intros tq file s r s' Hrun.
    exact (wp_run _ _ _ _ _ Hrun (for_body_ends E cfg all_files tq file s)).
  - intros files s r s' Hrun.
    exact (wp_run _ _ _ _ _ Hrun (test_loop_ends E cfg all_files files s)).
Qed.

(** Three tests: [a] is judged, [b] has no expected output and is
    skipped, and the program fails on [c]. *)
Lemma every_test_ends_one_way_witness :
  settled
    (snd (test_loop Script.env Script.defaults ["tests/a.out"; "tests/c.out"]
            ["tests/a.in"; "tests/b.in"; "tests/c.in"]
            (loop_state 3
               (Script.with_program
                  (fun input => if String.eqb input "7"
                                then inr (Failure "OSError") else inl input)
                  (Script.tests [("a.in", "5"); ("a.out", "5"); ("b.in", "6");
                                 ("c.in", "7"); ("c.out", "7")])))))
  = 3.
Proof.
  refine (proj2 (proj2 (proj2 (proj2 (proj2
    (proj2 (every_test_ends_one_way Script.env Script.defaults
              ["tests/a.out"; "tests/c.out"])
       ["tests/a.in"; "tests/b.in"; "tests/c.in"] _ _ _
       (surjective_pairing _)))))) _).
  vm_compute. reflexivity.
Defined.

(** ** Durations and overtime (lines 121-127) *)

Section Timing.
Context {W : Type} (E : Env W) (cfg : config).

Lemma timing_consistent_pending v : timing_consistent cfg v -> timing_pending cfg v.
Proof.
  unfold timing_consistent, timing_pending. intros (H1 & H2 & H3).
  destruct (timer cfg); repeat split; try assumption; lia.
Qed.

Ltac timing :=
  unfold timing_consistent, timing_pending in *; simpl_state;
  rewrite ?length_app in *; cbn [List.length] in *;
  repeat split; try assumption; try lia.

Lemma judge_timing test_name indata outdata out t (s : state W) :
  timing_consistent cfg (vars s) ->
  wp (judge E cfg test_name indata outdata out t)
     (fun r s' =>
        match r with
        | Ret _ => timing_consistent cfg (vars s')
        | Raise _ => timing_pending cfg (vars s')
        end) s.
Proof.
  intros (H1 & H2 & H3).
  unfold timing_consistent, timing_pending.
  destruct (timer cfg) eqn:Ht;
    unfold judge, verbose_print, extra_verbose_print; rewrite Ht.
  all: wp_steps; try discriminate.
  all: (eapply wp_conseq; [apply evaluate_vars|]);
    intros [[b shown]|e] s1 Hv; unfold bind_post; simpl_state;
    [|rewrite Hv; timing].
  all: wp_steps; simpl_state; rewrite ?Hv; timing.
Qed.

Lemma run_case_timing tq test_name infile indata outdata (s : state W) :
  timing_consistent cfg (vars s) ->
  wp (run_case E cfg tq test_name infile indata outdata)
     (fun r s' =>
        match r with
        | Ret _ => timing_consistent cfg (vars s')
        | Raise _ => timing_pending cfg (vars s')
        end) s.
Proof.
  intros H. pose proof (timing_consistent_pending _ H) as Hp.
  unfold run_case, try_case, call_with_io_timed, extra_verbose_print.
  wp_steps; simpl_state; try discriminate; try assumption.
  all: try (eapply wp_conseq; [apply judge_timing; exact H|];
            intros [[]|?] ? ?; assumption).
  all: destruct H as (H1 & H2 & H3), (timer cfg); timing.
Qed.

Lemma for_body_timing all_files tq file (s : state W) :
  timing_consistent cfg (vars s) ->
  wp (for_body E cfg all_files tq file)
     (fun r s' =>
        match r with
        | Ret _ => timing_consistent cfg (vars s')
        | Raise _ => timing_pending cfg (vars s')
        end) s.
Proof.
  intros H. pose proof (timing_consistent_pending _ H) as Hp.
  unfold for_body, open_case, readfile, verbose_print.
  wp_steps; simpl_state; try discriminate; try assumption.
  all: try (eapply wp_conseq; [apply run_case_timing; exact H|];
            intros [[]|?] ? ?; assumption).
  all: destruct H as (H1 & H2 & H3), (timer cfg); timing.
Qed.

Lemma test_loop_timing all_files files (s : state W) :
  timing_consistent cfg (vars s) ->
  wp (test_loop E cfg all_files files)
     (fun r s' =>
        match r with
        | Ret _ => timing_consistent cfg (vars s')
        | Raise _ => timing_pending cfg (vars s')
        end) s.
Proof.
  intros H. unfold test_loop.
  apply wp_for_each with (I := fun s1 => timing_consistent cfg (vars s1)); auto.
  intros file s1 _ H1. eapply wp_conseq; [apply for_body_timing; exact H1|].
  intros [[]|e] s2 H2; exact H2.
Qed.

End Timing.

(** X8. The overtime counter and the list of durations follow the
    tests that are judged. When the loop starts, and after each test
    while it runs to its end, [overtime_count] is the length of the
    overtime list and is at most [total], and the durations number
    [total] with the timer and none without it. When the loop is left by
    an exception (Ctrl-C included), one test may have been timed and not
    judged, so that the counts exceed [total] by one at most; these are
    the numbers that the report prints after Ctrl-C (which arrives
    inside a library call, here as everywhere in this model). *)
Theorem overtime_follows_total {W} (E : Env W) (cfg : config)
    (all_files files : list string) :
  (forall (s : state W) r s',
      timing_consistent cfg (vars s) ->
      test_loop E cfg all_files files s = (r, s') ->
      match r with
      | Ret _ => timing_consistent cfg (vars s')
      | Raise _ => timing_pending cfg (vars s')
      end)
  /\ (forall approx, timing_consistent cfg (fresh_locals approx))
  /\ (forall approx (s : state W) b s',
        run_tests E cfg all_files files approx s = (Ret b, s') ->
        timing_pending cfg (vars s')).
Proof.
  assert (Hfresh : forall approx, timing_consistent cfg (fresh_locals approx)).
  { intros approx. unfold timing_consistent. cbn [fresh_locals overtime_count
      overtime total times List.length]. destruct (timer cfg); repeat split; lia. }
  split; [|split; [exact Hfresh|]].
  - intros s r s' H Hrun.
    exact (wp_run _ _ _ _ _ Hrun (test_loop_timing E cfg all_files files s H)).
  - intros approx s b s'. rewrite run_tests_eq. cbv zeta.
    pose proof (test_loop_timing E cfg all_files files
                  {| world := world s; stdout := stdout s;
                     vars := fresh_locals approx |} (Hfresh approx)) as Hloop.
    unfold wp in Hloop.
    destruct (test_loop E cfg all_files files _) as [r s1]. cbn [fst snd] in Hloop.
    assert (Hreport : timing_pending cfg (vars s1) ->
              report cfg s1 = (Ret b, s') -> timing_pending cfg (vars s')).
    { intros Hp. rewrite report_eq. intros Hr. injection Hr as _ <-. exact Hp. }
    destruct r as [[]|e].
    + apply Hreport. apply timing_consistent_pending. exact Hloop.
    + destruct e; try discriminate. apply Hreport. exact Hloop.
Qed.

(** Two tests with the timer, the first of which takes two seconds. *)
Lemma overtime_follows_total_witness :
  timing_pending (Script.with_timer Script.defaults)
    (vars (snd (run_tests Script.env (Script.with_timer Script.defaults)
                  ["tests/a.out"; "tests/b.out"] ["tests/a.in"; "tests/b.in"] 2
                  (initial_state Script.two_timed_tests)))).
Proof.
  refine (proj2 (proj2 (overtime_follows_total Script.env
                          (Script.with_timer Script.defaults)
                          ["tests/a.out"; "tests/b.out"]
                          ["tests/a.in"; "tests/b.in"]))
            2 (initial_state Script.two_timed_tests) true _ _).
  vm_compute. reflexivity.
Defined.

(** ** What a quiet run prints *)

Section Quiet.
Context {W : Type} (E : Env W) (cfg : config).
Hypothesis Hverbose : verbose cfg = false.
Hypothesis Hextra : extra_verbose cfg = false.

Lemma only_errors_refl (s : state W) : only_errors_since s s.
Proof. exists []. split; [rewrite app_nil_r; reflexivity|reflexivity]. Qed.

Lemma only_errors_trans (s1 s2 s3 : state W) :
  only_errors_since s1 s2 -> only_errors_since s2 s3 -> only_errors_since s1 s3.
Proof.
  intros (l1 & H1 & F1) (l2 & H2 & F2). exists (l1 ++ l2). split.
  - rewrite H2, H1, app_assoc. reflexivity.
  - rewrite forallb_app, F1, F2. reflexivity.
Qed.

Ltac errors_only :=
  first
    [ exists []; split; [simpl_state; rewrite ?app_nil_r; reflexivity|reflexivity]
    | eexists; split;
      [simpl_state; rewrite <- ?app_assoc; reflexivity|reflexivity] ].

Lemma evaluate_quiet indata outdata out (s : state W) :
  wp (evaluate E cfg indata outdata out) (fun _ s' => only_errors_since s s') s.
Proof.
  unfold evaluate, call_for_status_code, extra_verbose_print. rewrite Hextra.
  wp_steps; simpl_state; try discriminate; try errors_only.
  all: wp_steps; try discriminate; errors_only.
Qed.

Lemma judge_quiet test_name indata outdata out t (s : state W) :
  wp (judge E cfg test_name indata outdata out t) (fun _ s' => only_errors_since s s') s.
Proof.
  unfold judge, verbose_print, extra_verbose_print, verbose'.
  rewrite Hverbose, Hextra. cbn [orb andb negb].
  wp_steps; try discriminate.
  all: (eapply wp_conseq; [apply evaluate_quiet|]);
    intros [[b shown]|e] s1 Hs; unfold bind_post;
    [|refine (only_errors_trans _ _ _ _ Hs); errors_only].
  all: wp_steps; try discriminate;
    (eapply only_errors_trans; [|eapply only_errors_trans; [exact Hs|]]);
    errors_only.
Qed.

Lemma run_case_quiet tq test_name infile indata outdata (s : state W) :
  wp (run_case E cfg tq test_name infile indata outdata)
     (fun _ s' => only_errors_since s s') s.
Proof.
  unfold run_case, try_case, call_with_io_timed, extra_verbose_print.
  rewrite Hextra.
  wp_steps; try discriminate.
  all: try (eapply wp_conseq; [apply judge_quiet|];
            intros ? ? Hs; refine (only_errors_trans _ _ _ _ Hs); errors_only).
  all: errors_only.
Qed.

Lemma for_body_quiet all_files tq file (s : state W) :
  wp (for_body E cfg all_files tq file) (fun _ s' => only_errors_since s s') s.
Proof.
  unfold for_body, open_case, readfile, verbose_print, verbose'.
  rewrite Hverbose, Hextra. cbn [orb].
  wp_steps; try discriminate.
  all: try (eapply wp_conseq; [apply run_case_quiet|];
            intros ? ? Hs; refine (only_errors_trans _ _ _ _ Hs); errors_only).
  all: errors_only.
Qed.

Lemma test_loop_quiet all_files files (s : state W) :
  wp (test_loop E cfg all_files files) (fun _ s' => only_errors_since s s') s.
Proof.
  unfold test_loop.
  apply wp_for_each with (I := fun s1 => only_errors_since s s1).
  - apply only_errors_refl.
  - intros file s1 _ H1. eapply wp_conseq; [apply for_body_quiet|].
    intros [[]|e] s2 H2; exact (only_errors_trans _ _ _ H1 H2).
  - auto.
Qed.

End Quiet.

(** X9. Without [-v] and [-ev], the loop prints nothing but the lines
    that report errors (a missing expected output, an empty input, an
    exception of the program with its traceback, and the blank line that
    sets them off from the progress bar): no progress line, no verdict,
    no duration. The output of a run that comes to its report is these
    lines followed by the report. *)
Theorem quiet_run_prints_errors_only {W} (E : Env W) (cfg : config)
    (all_files files : list string) (approx : Z) (s : state W) :
  verbose cfg = false -> extra_verbose cfg = false ->
  (forall r s', test_loop E cfg all_files files s = (r, s') ->
                only_errors_since s s')
  /\ (forall b s',
        run_tests E cfg all_files files approx s = (Ret b, s') ->
        exists lines,
          stdout s' = stdout s ++ lines ++ report_lines cfg (vars s')
          /\ forallb is_error_line lines = true).
Proof.
  intros Hv Hev. split.
  - intros r s' Hrun.
    exact (wp_run _ _ _ _ _ Hrun (test_loop_quiet E cfg Hv Hev all_files files s)).
  - intros b s'. rewrite run_tests_eq. cbv zeta.
    pose proof (test_loop_quiet E cfg Hv Hev all_files files
                  {| world := world s; stdout := stdout s;
                     vars := fresh_locals approx |}) as Hloop.
    unfold wp in Hloop.
    destruct (test_loop E cfg all_files files _) as [r s1].
    cbn [fst snd] in Hloop. destruct Hloop as (lines & Hl & Hf).
    cbn [stdout] in Hl.
    assert (Hreport : report cfg s1 = (Ret b, s') ->
              exists lines0,
                stdout s' = stdout s ++ lines0 ++ report_lines cfg (vars s')
                /\ forallb is_error_line lines0 = true).
    { rewrite report_eq. intros Hr. injection Hr as _ <-.
      exists lines. split; [|exact Hf].
      unfold printing. cbn [stdout vars]. rewrite Hl, app_assoc. reflexivity. }
    destruct r as [[]|e]; [exact Hreport|].
    destruct e; try discriminate. exact Hreport.
Qed.

(** A quiet run of two tests, the second of which has no expected
    output: one error line, then the report. *)
Lemma quiet_run_prints_errors_only_witness :
  exists lines,
    stdout (snd (Script.run Script.defaults
                   (Script.tests [("a.in", "5"); ("a.out", "5"); ("b.in", "6")])))
    = [] ++ lines
      ++ report_lines Script.defaults
           (vars (snd (Script.run Script.defaults
                         (Script.tests [("a.in", "5"); ("a.out", "5");
                                        ("b.in", "6")]))))
    /\ forallb is_error_line lines = true.
Proof.
  exact (proj2 (quiet_run_prints_errors_only Script.env Script.defaults
                  ["tests/a.in"; "tests/a.out"; "tests/b.in"]
                  ["tests/a.in"; "tests/b.in"] 2
                  (initial_state (Script.tests [("a.in", "5"); ("a.out", "5");
                                                ("b.in", "6")]))
                  eq_refl eq_refl)
           true _ (surjective_pairing _)).
Defined.

(** ** The limit (lines 73-75) *)

Section Limit.
Context {W : Type} (E : Env W) (cfg : config).

Lemma discover_quiet (s : state W) :
  wp (discover E cfg) (fun _ s' => same_but_world s s') s.
Proof.
  unfold discover. destruct (one_file cfg) as [one|].
  - apply wp_bind. eapply wp_conseq; [apply map_M_os_call_length|].
    intros [found|e] s1 [Hs _]; unfold bind_post; [|exact Hs].
    wp_steps. exact Hs.
  - wp_steps; simpl_state; split; reflexivity.
Qed.

Lemma report_lines_count v :
  skipped (report_lines cfg v) = 0 /\ crashed (report_lines cfg v) = 0.
Proof.
  unfold report_lines, skipped, crashed.
  destruct (total v =? 0); [split; reflexivity|].
  destruct (wrong v), (overtime v), (timer cfg); split; reflexivity.
Qed.

Lemma apply_limit_length files approx n :
  limit cfg = Some n -> 0 <= n ->
  Z.of_nat (List.length files) <= approx ->
  Z.of_nat (List.length (fst (apply_limit cfg files approx))) <= n.
Proof.
  intros Hl Hn H. unfold apply_limit, PyStr.slice_to. rewrite Hl.
  destruct (Z.ltb_spec n approx); cbn [fst]; [|lia].
  destruct (Z.ltb_spec n 0); [lia|]. rewrite length_firstn. lia.
Qed.

End Limit.

(** X10. With a limit [n] that is not negative, and a directory that
    does not change while it is listed, a run that comes to its report
    has judged at most [n] tests; counting the tests that were skipped
    and those whose program failed as well, at most [n] tests came to an
    end. *)
Theorem limit_bounds_the_run {W} (E : Env W) (cfg : config) (n : Z)
    (s : state W) (b : bool) (s' : state W) :
  listing_stable E -> limit cfg = Some n -> 0 <= n ->
  main E cfg s = (Ret b, s') ->
  0 <= total (vars s') <= n
  /\ total (vars s')
     + (skipped (stdout s') - skipped (stdout s))
     + (crashed (stdout s') - crashed (stdout s)) <= n.
Proof.
  intros Hstable Hl Hn. unfold main. unfold bind at 1.
  destruct (discover E cfg s) as [[found|e] s0] eqn:Hd; [|discriminate].
  pose proof (wp_run _ _ _ _ _ Hd (discover_headroom E cfg s Hstable)) as Hroom.
  pose proof (wp_run _ _ _ _ _ Hd (discover_quiet E cfg s)) as [Hout0 _].
  cbv beta in Hroom. unfold bind at 1.
  destruct (order_files E cfg (snd (fst found)) s0) as [[ordered|e] s1] eqn:Ho;
    [|discriminate].
  pose proof (wp_run _ _ _ _ _ Ho (order_files_length E cfg _ s0)) as [_ Hlen].
  pose proof (wp_run _ _ _ _ _ Ho (order_files_Permutation E cfg _ s0))
    as [[Hout1 _] _].
  cbv beta in Hlen.
  pose proof (apply_limit_length cfg ordered (snd found) n Hl Hn) as Hcut.
  rewrite run_tests_eq. cbv zeta.
  destruct (test_loop E cfg (fst (fst found)) _ _) as [r s2] eqn:Hloop.
  pose proof (wp_run _ _ _ _ _ Hloop (test_loop_ends E cfg _ _ _))
    as (Ht & Hsk & Hcr & _ & Hsettled & _).
  cbv beta in Ht, Hsk, Hcr, Hsettled. unfold settled in Hsettled. simpl_state.
  assert (Hreport : report cfg s2 = (Ret b, s') ->
            0 <= total (vars s') <= n
            /\ total (vars s')
               + (skipped (stdout s') - skipped (stdout s))
               + (crashed (stdout s') - crashed (stdout s)) <= n).
  { rewrite report_eq. intros Hr. injection Hr as _ <-. simpl_state.
    pose proof (report_lines_count cfg (vars s2)) as [Hrs Hrc].
    unfold skipped, crashed in *. rewrite !filter_app, !length_app.
    rewrite Hout1, Hout0 in *. lia. }
  destruct r as [[]|e]; [exact Hreport|].
  destruct e; try discriminate. exact Hreport.
Qed.

(** Three tests and the limit 2: two are judged. *)
Lemma limit_bounds_the_run_witness :
  0 <= total (vars (snd (Script.run (Script.with_limit 2 Script.defaults)
                           (Script.tests [("a.in", "5"); ("a.out", "5");
                                          ("b.in", "6"); ("b.out", "6");
                                          ("c.in", "7"); ("c.out", "7")]))))
    <= 2.
Proof.
  refine (proj1 (limit_bounds_the_run Script.env (Script.with_limit 2 Script.defaults)
                   2 (initial_state
                        (Script.tests [("a.in", "5"); ("a.out", "5");
                                       ("b.in", "6"); ("b.out", "6");
                                       ("c.in", "7"); ("c.out", "7")]))
                   true _ script_listing_stable eq_refl _ _)).
  - lia.
  - vm_compute. reflexivity.
Defined.

(** ** Failures outside the tests *)

Section Failures.
Context {W : Type} (E : Env W) (cfg : config).

(** Lines 93-95, when [approx_total] is not 0: the progress line, then
    the input is read. *)
Lemma open_case_eq file (s : state W) :
  approx_total (vars s) <> 0 ->
  open_case E cfg (PyStr.drop_last3 file) file
    (if extra_verbose cfg
     then Some (file, (PyStr.drop_last3 file ++ ".out")%string) else None) s
  = let s1 := printing (progress_line cfg file (vars s)) s in
    match read_text E file (world s) with
    | (inl raw, w) => (Ret (PyStr.strip raw), seeing w s1)
    | (inr o, w) => (Raise (of_os_exn o), seeing w s1)
    end.
Proof.
  intros Hz. cbv zeta.
  destruct (read_text E file (world s)) as [[raw|o] w] eqn:Hread;
    apply wp_eq; unfold open_case, readfile, verbose_print, progress_line;
    wp_steps; try contradiction; simpl_state;
    rewrite Hread in Hos; inversion Hos; subst;
    unfold seeing; simpl_state; (split; [reflexivity|]);
    rewrite ?app_nil_r; reflexivity.
Qed.

Lemma of_os_exn_not_interrupt o :
  o <> Sigint -> is_KeyboardInterrupt (of_os_exn o) = false.
Proof. destruct o; [contradiction|reflexivity|reflexivity]. Qed.

(** An exception of a test that is not Ctrl-C leaves the run without a
    report. *)
Lemma run_tests_raise all_files pre file rest approx (s0 s : state W) e s' :
  test_loop E cfg all_files pre
    {| world := world s0; stdout := stdout s0; vars := fresh_locals approx |}
  = (Ret tt, s) ->
  for_body E cfg all_files (tqdm_enabled E && negb (verbose' cfg)) file s
  = (Raise e, s') ->
  is_KeyboardInterrupt e = false ->
  run_tests E cfg all_files (pre ++ file :: rest) approx s0 = (Raise e, s').
Proof.
  intros Hpre Hbody He. rewrite run_tests_eq. cbv zeta. unfold test_loop in *.
  rewrite for_each_app, (bind_ret_run _ _ _ _ _ Hpre).
  rewrite (for_each_raise _ _ _ _ _ _ Hbody).
  destruct e; [discriminate| | | |]; reflexivity.
Qed.

End Failures.

(** X11. A failure before the first test ends [main] at once: when the
    directory cannot be listed, or when listing, sorting by size or
    shuffling fails or is interrupted by Ctrl-C, [main] raises that
    exception, Ctrl-C included, having printed nothing; there is no
    report. *)
Theorem setup_failure_ends_main {W} (E : Env W) (cfg : config) (s : state W) :
  (forall o w,
      one_file cfg = None ->
      listdir E (directory cfg) (world s) = (inr o, w) ->
      main E cfg s = (Raise (of_os_exn o), seeing w s))
  /\ (forall e s1,
        discover E cfg s = (Raise e, s1) ->
        main E cfg s = (Raise e, s1) /\ same_but_world s s1)
  /\ (forall found s0 e s1,
        discover E cfg s = (Ret found, s0) ->
        order_files E cfg (snd (fst found)) s0 = (Raise e, s1) ->
        main E cfg s = (Raise e, s1) /\ same_but_world s s1).
Proof.
  split; [|split].
  - intros o w Hone Hlist. unfold main, discover. rewrite Hone.
    unfold bind, os_call. rewrite Hlist. reflexivity.
  - intros e s1 Hd. split.
    + unfold main. apply bind_raise_run. exact Hd.
    + exact (wp_run _ _ _ _ _ Hd (discover_quiet E cfg s)).
  - intros found s0 e s1 Hd Ho. split.
    + unfold main. rewrite (bind_ret_run _ _ _ _ _ Hd).
      apply bind_raise_run. exact Ho.
    + pose proof (wp_run _ _ _ _ _ Hd (discover_quiet E cfg s)) as [H1 H2].
      pose proof (wp_run _ _ _ _ _ Ho (order_files_Permutation E cfg _ s0))
        as [[H3 H4] _].
      split; congruence.
Qed.

(** The directory [tests] does not exist. *)
Lemma setup_failure_ends_main_witness :
  main Script.env Script.defaults
    (initial_state
       {| Script.dir := "elsewhere"; Script.files := []; Script.clock := [];
          Script.program := Script.echo; Script.checker_program := Script.accept |})
  = (Raise (LibraryError "FileNotFoundError"),
     initial_state
       {| Script.dir := "elsewhere"; Script.files := []; Script.clock := [];
          Script.program := Script.echo; Script.checker_program := Script.accept |}).
Proof.
  exact (proj1 (setup_failure_ends_main Script.env Script.defaults
                  (initial_state
                     {| Script.dir := "elsewhere"; Script.files := [];
                        Script.clock := []; Script.program := Script.echo;
                        Script.checker_program := Script.accept |}))
           (Failure "FileNotFoundError") _ eq_refl eq_refl).
Defined.

(** X12. A file that cannot be read ends the run. When reading the
    input of a test, or its expected output, fails with an exception
    other than Ctrl-C (the file was removed, it is a directory, it is not
    valid text), the exception leaves the loop and [main]: the tests
    after it are not run and no report is printed; the output ends with
    the progress line of that test, if progress is shown. *)
Theorem read_failure_ends_run {W} (E : Env W) (cfg : config)
    (all_files pre : list string) (file : string) (rest : list string)
    (approx : Z) (s0 s : state W) :
  test_loop E cfg all_files pre
    {| world := world s0; stdout := stdout s0; vars := fresh_locals approx |}
  = (Ret tt, s) ->
  approx_total (vars s) <> 0 ->
  let s1 := printing (progress_line cfg file (vars s)) s in
  (forall o w,
      o <> Sigint ->
      read_text E file (world s) = (inr o, w) ->
      run_tests E cfg all_files (pre ++ file :: rest) approx s0
      = (Raise (of_os_exn o), seeing w s1))
  /\ (forall raw w o w2,
        o <> Sigint ->
        read_text E file (world s) = (inl raw, w) ->
        PyStr.mem (PyStr.drop_last3 file ++ ".out") all_files = true ->
        read_text E (PyStr.drop_last3 file ++ ".out") w = (inr o, w2) ->
        run_tests E cfg all_files (pre ++ file :: rest) approx s0
        = (Raise (of_os_exn o), seeing w2 s1)).
Proof.
  intros Hpre Hz s1. split.
  - intros o w Ho Hread.
    apply (run_tests_raise E cfg _ _ _ _ _ _ _ _ _ Hpre);
      [|apply of_os_exn_not_interrupt; exact Ho].
    unfold for_body. apply bind_raise_run.
    rewrite (open_case_eq E cfg file s Hz). cbv zeta. rewrite Hread. reflexivity.
  - intros raw w o w2 Ho Hread Hmem Hout.
    apply (run_tests_raise E cfg _ _ _ _ _ _ _ _ _ Hpre);
      [|apply of_os_exn_not_interrupt; exact Ho].
    unfold for_body.
    erewrite bind_ret_run;
      [|rewrite (open_case_eq E cfg file s Hz); cbv zeta; rewrite Hread; reflexivity].
    rewrite Hmem. cbn [negb]. apply bind_raise_run.
    unfold readfile, os_call, seeing. cbn [world stdout vars]. rewrite Hout.
    reflexivity.
Qed.

(** The one test asked for has no input file. *)
Lemma read_failure_ends_run_witness :
  run_tests Script.env (only_test "tests/a" Script.defaults) []
    ([] ++ "tests/a.in" :: []) 1 (initial_state (Script.tests []))
  = (Raise (LibraryError "FileNotFoundError"), loop_state 1 (Script.tests [])).
Proof.
  refine (proj1 (read_failure_ends_run Script.env
                   (only_test "tests/a" Script.defaults) [] [] "tests/a.in" [] 1
                   (initial_state (Script.tests [])) (loop_state 1 (Script.tests []))
                   eq_refl _)
            (Failure "FileNotFoundError") _ _ eq_refl).
  - cbn. discriminate.
  - discriminate.
Defined.

(** ** A test with a blank input (lines 95-110) *)






(** ** One test only (lines 56-59, 90-91) *)

Lemma substring_prefix s t :
  substring 0 (String.length s) (s ++ t) = s.
Proof. induction s as [|c s IH]; cbn; [destruct t|rewrite IH]; reflexivity. Qed.

Lemma length_append s t :
  String.length (s ++ t) = (String.length s + String.length t)%nat.
Proof. induction s as [|c s IH]; cbn; [|rewrite IH]; reflexivity. Qed.

(** The name of a test is its input file without [.in]. *)
Lemma drop_last3_in name : PyStr.drop_last3 (name ++ ".in") = name.
Proof.
  unfold PyStr.drop_last3. rewrite length_append. cbn [String.length].
  replace (String.length name + 3 - 3)%nat with (String.length name) by lia.
  apply substring_prefix.
Qed.

(** X14. With [-o name], the directory is not listed: the only test is
    [name.in], counted as one test whether the file exists or not, and
    the test looks for its expected output in [name.out], which counts
    as present exactly if it existed when [main] started. Only the
    existence of the two files is asked. *)
Theorem one_file_discovery {W} (E : Env W) (cfg : config) (name : string)
    (s : state W) (found : list string * list string * Z) (s' : state W) :
  one_file cfg = Some name ->
  discover E cfg s = (Ret found, s') ->
  snd (fst found) = [(name ++ ".in")%string]
  /\ snd found = 1
  /\ PyStr.drop_last3 (name ++ ".in") = name
  /\ exists has_in w1 has_out,
       path_exists E (name ++ ".in") (world s) = (inl has_in, w1)
       /\ path_exists E (name ++ ".out") w1 = (inl has_out, world s')
       /\ PyStr.mem (name ++ ".out") (fst (fst found)) = has_out
       /\ PyStr.mem (name ++ ".in") (fst (fst found)) = has_in
       /\ same_but_world s s'.
Proof.
  intros Hone. unfold discover. rewrite Hone. cbn [map_M].
  unfold bind, os_call, ret.
  destruct (path_exists E (name ++ ".in") (world s)) as [[has_in|o] w1] eqn:H1;
    [|discriminate].
  cbn [world].
  destruct (path_exists E (name ++ ".out") w1) as [[has_out|o] w2] eqn:H2;
    [|discriminate].
  intros Hrun. injection Hrun as <- <-. cbn [fst snd world].
  split; [reflexivity|]. split; [reflexivity|]. split; [apply drop_last3_in|].
  exists has_in, w1, has_out.
  split; [reflexivity|]. split; [exact H2|].
  assert (Hne : String.eqb (name ++ ".out") (name ++ ".in") = false).
  { apply String.eqb_neq. intros Heq.
    apply (f_equal (fun x => substring (String.length name) 4 x)) in Heq.
    revert Heq. clear. induction name as [|c n IH]; cbn; [discriminate|exact IH]. }
  assert (Hne' : String.eqb (name ++ ".in") (name ++ ".out") = false).
  { rewrite String.eqb_sym. exact Hne. }
  unfold PyStr.mem.
  destruct has_in, has_out; cbn [combine filter map snd fst existsb];
    rewrite ?String.eqb_refl, ?Hne, ?Hne'; repeat split; reflexivity.
Qed.

(** The test [tests/a] with its input only. *)
Lemma one_file_discovery_witness :
  exists has_in w1 has_out,
    path_exists Script.env "tests/a.in" (Script.tests [("a.in", "5")])
    = (inl has_in, w1)
    /\ path_exists Script.env "tests/a.out" w1
       = (inl has_out, Script.tests [("a.in", "5")])
    /\ PyStr.mem "tests/a.out" ["tests/a.in"] = has_out
    /\ PyStr.mem "tests/a.in" ["tests/a.in"] = has_in
    /\ same_but_world (initial_state (Script.tests [("a.in", "5")]))
         (initial_state (Script.tests [("a.in", "5")])).
Proof.
  exact (proj2 (proj2 (proj2
           (one_file_discovery Script.env (only_test "tests/a" Script.defaults)
              "tests/a" (initial_state (Script.tests [("a.in", "5")]))
              (["tests/a.in"], ["tests/a.in"], 1)
              (initial_state (Script.tests [("a.in", "5")]))
              eq_refl eq_refl)))).
Defined.

(** ** The fallback of [call_with_io] *)

Section CrLf.
Import Fallback.

(** Induction on a text, two characters at a time. *)
Lemma string_ind2 (P : string -> Prop) :
  P "" ->
  (forall c, P (String c "")) ->
  (forall c c' r, P r -> P (String c' r) -> P (String c (String c' r))) ->
  forall s, P s.
Proof.
  intros H0 H1 H2 s.
  assert (H : P s /\ forall c, P (String c s)).
  { induction s as [|c' r [IH1 IH2]]; [split; [exact H0|exact H1]|].
    split; [apply IH2|]. intros c. apply H2; [exact IH1|apply IH2]. }
  exact (proj1 H).
Qed.

Lemma crlf_to_lf_without_cr s : without_cr (crlf_to_lf s) = without_cr s.
Proof.
  induction s as [| |c c' r IH1 IH2] using string_ind2; try reflexivity.
  cbn [crlf_to_lf].
  destruct (Ascii.eqb c CR) eqn:Hc; cbn [andb].
  - destruct (Ascii.eqb c' LF) eqn:Hc'.
    + apply Ascii.eqb_eq in Hc, Hc'. subst. cbn. rewrite IH1. reflexivity.
    + change (without_cr (String c (crlf_to_lf (String c' r)))
              = without_cr (String c (String c' r))).
      cbn [without_cr]. rewrite Hc. exact IH2.
  - change (without_cr (String c (crlf_to_lf (String c' r)))
            = without_cr (String c (String c' r))).
    cbn [without_cr]. rewrite Hc, IH2. reflexivity.
Qed.

Lemma crlf_to_lf_line_feeds s : line_feeds (crlf_to_lf s) = line_feeds s.
Proof.
  induction s as [| |c c' r IH1 IH2] using string_ind2; try reflexivity.
  cbn [crlf_to_lf].
  destruct (Ascii.eqb c CR && Ascii.eqb c' LF) eqn:Hcc.
  - apply andb_prop in Hcc. destruct Hcc as [Hc Hc'].
    apply Ascii.eqb_eq in Hc, Hc'. subst. cbn. rewrite IH1. reflexivity.
  - change (line_feeds (String c (crlf_to_lf (String c' r)))
            = line_feeds (String c (String c' r))).
    cbn [line_feeds]. rewrite IH2. reflexivity.
Qed.

Lemma crlf_to_lf_fixed s : has_crlf s = false -> crlf_to_lf s = s.
Proof.
  induction s as [| |c c' r IH1 IH2] using string_ind2; try reflexivity.
  cbn [has_crlf crlf_to_lf]. intros H. apply orb_false_iff in H.
  destruct H as [Hcc H]. rewrite Hcc.
  change (String c (crlf_to_lf (String c' r)) = String c (String c' r)).
  rewrite (IH2 H). reflexivity.
Qed.

Lemma crlf_to_lf_length s :
  (String.length (crlf_to_lf s) <= String.length s)%nat.
Proof.
  induction s as [| |c c' r IH1 IH2] using string_ind2; try (cbn; lia).
  cbn [crlf_to_lf].
  destruct (Ascii.eqb c CR && Ascii.eqb c' LF).
  - cbn [String.length]. lia.
  - change (String.length (String c (crlf_to_lf (String c' r)))
            <= String.length (String c (String c' r)))%nat.
    cbn [String.length] in *. lia.
Qed.

End CrLf.

(** X15. The fallback of [call_with_io] returns what the command
    printed with every CR LF replaced by LF, and passes on what
    [subprocess.run] raises. The replacement removes carriage returns
    and nothing else: the text without its carriage returns is the same
    before and after, no line feed is lost, the text does not grow, and
    a text without CR LF is returned as it is. It is one pass from left to
    right, so that CR CR LF becomes CR LF: the result may still hold a
    CR LF. *)
Theorem fallback_replaces_crlf {W}
    (subprocess_run : string -> string -> W -> (string + os_exn) * W)
    (command input : string) (w : W) :
  Fallback.call_with_io subprocess_run command input w
  = (match fst (subprocess_run command input w) with
     | inl result => inl (Fallback.crlf_to_lf result)
     | inr e => inr e
     end, snd (subprocess_run command input w))
  /\ (forall s,
        Fallback.without_cr (Fallback.crlf_to_lf s) = Fallback.without_cr s
        /\ Fallback.line_feeds (Fallback.crlf_to_lf s) = Fallback.line_feeds s
        /\ (String.length (Fallback.crlf_to_lf s) <= String.length s)%nat
        /\ (Fallback.has_crlf s = false -> Fallback.crlf_to_lf s = s))
  /\ Fallback.crlf_to_lf
       (String Fallback.CR (String Fallback.CR (String Fallback.LF "")))
     = String Fallback.CR (String Fallback.LF "").
Proof.
  split; [|split].
  - unfold Fallback.call_with_io.
    destruct (subprocess_run command input w) as [[result|e] w1]; reflexivity.
  - intros s. split; [apply crlf_to_lf_without_cr|].
    split; [apply crlf_to_lf_line_feeds|].
    split; [apply crlf_to_lf_length|apply crlf_to_lf_fixed].
  - reflexivity.
Qed.

Lemma fallback_replaces_crlf_witness :
  Fallback.crlf_to_lf "5" = "5".
Proof.
  exact (proj2 (proj2 (proj2
           (proj1 (proj2 (fallback_replaces_crlf
                            (fun _ input (w : unit) => (inl input, w)) "" "" tt))
              "5")))
           eq_refl).
Defined.

(** ** The command line *)

Section EntryFacts.
Context {W : Type} (E : Env W) (normpath : string -> string).

(** The script, case by case. *)
Lemma entry_eq realpath (a : arguments) (w : W) :
  entry E normpath realpath a w
  = if searches a then
      match glob E "*.exe" w with
      | (inl exelist, w1) =>
          match exelist with
          | [exe] =>
              (Launched {| l_app := Some exe; l_directory := normpath "tests";
                           l_natural_sort := natural_or_default a;
                           l_notice := None |}, w1)
          | _ => (Refused (AmbiguousAuto (Z.of_nat (List.length exelist))), w1)
          end
      | (inr e, w1) => (Raised e, w1)
      end
    else if negb (given (a_app a)) && negb (a_auto a)
    then (Refused AppNotProvided, w)
    else
      (Launched {| l_app := a_app a;
                   l_directory := normpath (directory_or_tests a);
                   l_natural_sort := natural_or_default a;
                   l_notice := if given (a_dir a) then None
                               else Some (DirectoryNotProvided (negb (a_auto a))) |},
       w).
Proof.
  unfold entry, locate, searches, natural_or_default, directory_or_tests.
  destruct (a_auto a) eqn:Hauto; cbn [andb negb].
  - destruct (given (a_app a) || given (a_dir a)) eqn:Hgiven; cbn [negb].
    + rewrite andb_false_r.
      destruct (a_dir a) as [[|c d]|]; reflexivity.
    + destruct (glob E "*.exe" w) as [[exelist|e] w1]; [|reflexivity].
      destruct exelist as [|exe [|exe2 rest]]; try reflexivity.
      cbn [negb]. rewrite andb_false_r. reflexivity.
  - rewrite andb_true_r.
    destruct (given (a_app a)); cbn [negb]; [|reflexivity].
    destruct (a_dir a) as [[|c d]|]; reflexivity.
Qed.

End EntryFacts.

(** X16. The script refuses to start, through [parser.error], in two
    cases only: "app argument not provided" exactly when no application
    is given and [--auto] is off, and "Ambiguous --auto switch" exactly
    when [--auto] is on, neither an application nor a directory is given
    and the files [*.exe] of the current directory are not exactly one
    (the message gives their number). *)
Theorem entry_refuses {W} (E : Env W) (normpath : string -> string)
    (realpath : option string -> W -> (string + os_exn) * W)
    (a : arguments) (w : W) :
  (fst (entry E normpath realpath a w) = Refused AppNotProvided
   <-> given (a_app a) = false /\ a_auto a = false)
  /\ (forall found,
        fst (entry E normpath realpath a w) = Refused (AmbiguousAuto found)
        <-> a_auto a = true /\ given (a_app a) = false /\ given (a_dir a) = false
            /\ exists exelist,
                 fst (glob E "*.exe" w) = inl exelist
                 /\ found = Z.of_nat (List.length exelist)
                 /\ List.length exelist <> 1%nat).
Proof.
  rewrite entry_eq. unfold searches.
  destruct (a_auto a), (given (a_app a)), (given (a_dir a)); cbn [andb orb negb fst].
  all: try (split; [split; [discriminate|intros []; discriminate]
                   |intros found; split;
                    [discriminate|intros (H1 & H2 & H3 & _); discriminate]]).
  - destruct (glob E "*.exe" w) as [[exelist|e] w1]; cbn [fst].
    + destruct exelist as [|exe [|exe2 rest]]; cbn [fst List.length];
        (split; [split; [discriminate|intros []; discriminate]|]);
        intros found; split.
      * intros H. injection H as <-. repeat split.
        exists []. repeat split. discriminate.
      * intros (_ & _ & _ & l & Hl & -> & _). injection Hl as <-. reflexivity.
      * discriminate.
      * intros (_ & _ & _ & l & Hl & _ & Hne). injection Hl as <-.
        elim Hne. reflexivity.
      * intros H. injection H as <-. repeat split.
        exists (exe :: exe2 :: rest). repeat split. discriminate.
      * intros (_ & _ & _ & l & Hl & -> & _). injection Hl as <-. reflexivity.
    + split; [split; [discriminate|intros []; discriminate]|].
      intros found; split; [discriminate|].
      intros (_ & _ & _ & l & Hl & _). discriminate.
  - split; [split; [intros _; split; reflexivity|reflexivity]|].
    intros found; split; [discriminate|intros (H1 & _); discriminate].
  - split; [split; [intros _; split; reflexivity|reflexivity]|].
    intros found; split; [discriminate|intros (H1 & _); discriminate].
Qed.

(** No option at all: the application is missing. *)
Lemma entry_refuses_witness :
  fst (entry Script.env plain_normpath plain_realpath no_arguments (Script.tests []))
  = Refused AppNotProvided.
Proof.
  exact (proj2 (proj1 (entry_refuses Script.env plain_normpath plain_realpath
                         no_arguments (Script.tests [])))
           (conj eq_refl eq_refl)).
Defined.

(** X17. When the script starts [main], the directory it passes is the
    normalised directory of [-d], or [tests] when no directory is given
    (with [-o] in particular). Line 217 never calls [os.path.realpath]:
    by then a directory is always set. The line "directory argument not
    provided" is printed exactly when no directory is given and the
    script did not look for the application itself. *)
Theorem entry_directory {W} (E : Env W) (normpath : string -> string)
    (realpath : option string -> W -> (string + os_exn) * W)
    (a : arguments) (w : W) (l : launch) (w' : W) :
  entry E normpath realpath a w = (Launched l, w') ->
  (forall realpath', entry E normpath realpath' a w = (Launched l, w'))
  /\ l_directory l = normpath (directory_or_tests a)
  /\ l_notice l
     = if given (a_dir a) || searches a then None
       else Some (DirectoryNotProvided (negb (a_auto a))).
Proof.
  intros Hrun. split.
  - intros realpath'. rewrite entry_eq. rewrite entry_eq in Hrun. exact Hrun.
  - rewrite entry_eq in Hrun. unfold searches, directory_or_tests in *.
    destruct (a_auto a), (given (a_app a)) eqn:Happ, (given (a_dir a)) eqn:Hdir;
      cbn [andb orb negb] in *; try discriminate;
      try (injection Hrun as <- <-; cbn [l_directory l_notice];
           split; reflexivity).
    destruct (glob E "*.exe" w) as [[exelist|e] w1]; [|discriminate].
    destruct exelist as [|exe [|exe2 rest]]; try discriminate.
    injection Hrun as <- <-. cbn [l_directory l_notice].
    split; [|reflexivity].
    unfold given in Hdir. destruct (a_dir a) as [[|c d]|]; try discriminate;
      reflexivity.
Qed.

(** [-a ./app] alone: the tests are looked for in [tests]. *)
Lemma entry_directory_witness :
  l_directory {| l_app := Some "./app"; l_directory := "tests";
                 l_natural_sort := true;
                 l_notice := Some (DirectoryNotProvided true) |}
  = plain_normpath (directory_or_tests (with_app "./app" no_arguments)).
Proof.
  exact (proj1 (proj2 (entry_directory Script.env plain_normpath plain_realpath
                         (with_app "./app" no_arguments) (Script.tests [])
                         {| l_app := Some "./app"; l_directory := "tests";
                            l_natural_sort := true;
                            l_notice := Some (DirectoryNotProvided true) |}
                         (Script.tests []) eq_refl))).
Defined.

(** X18. Started from the command line, [main] always orders the
    tests: when none of [-s], [-S] and [-N] is given the script turns
    natural sorting on, so that the list is shuffled, sorted by size or
    sorted in natural order, and never left in the order of the listing
    (the names are taken to be in ASCII and shorter than 4300
    characters, for the natural order). *)
Theorem entry_orders_the_tests {W} (E : Env W) (normpath : string -> string)
    (realpath : option string -> W -> (string + os_exn) * W)
    (a : arguments) (w : W) (l : launch) (w' : W) :
  entry E normpath realpath a w = (Launched l, w') ->
  l_natural_sort l = (a_natural_sort a || negb (a_shuffle a || a_do_sort a))
  /\ a_shuffle a || a_do_sort a || l_natural_sort l = true
  /\ forall app files,
       forallb plain_name files = true ->
       order_files E (launch_config a l app) files
       = if a_shuffle a then random_shuffle E files
         else if a_do_sort a then
           (sizes <- map_M (fun f => os_call (getsize E f)) files ;;
            ret (Ordering.sorted_by Z.ltb sizes files))
         else ret (Ordering.natural_sorted files).
Proof.
  intros Hrun.
  assert (Hn : l_natural_sort l = natural_or_default a).
  { rewrite entry_eq in Hrun.
    destruct (searches a).
    - destruct (glob E "*.exe" w) as [[exelist|e] w1]; [|discriminate].
      destruct exelist as [|exe [|exe2 rest]]; try discriminate.
      injection Hrun as <- _. reflexivity.
    - destruct (negb (given (a_app a)) && negb (a_auto a)); [discriminate|].
      injection Hrun as <- _. reflexivity. }
  unfold order_files, launch_config. cbn [shuffle do_sort natural_sort].
  rewrite Hn. unfold natural_or_default.
  destruct (a_shuffle a), (a_do_sort a), (a_natural_sort a); cbn;
    repeat split; intros; reflexivity.
Qed.

Lemma entry_orders_the_tests_witness :
  order_files Script.env
    (launch_config (with_app "./app" no_arguments)
       {| l_app := Some "./app"; l_directory := "tests"; l_natural_sort := true;
          l_notice := Some (DirectoryNotProvided true) |} "./app")
    ["t10.in"; "t2.in"]
  = ret (Ordering.natural_sorted ["t10.in"; "t2.in"]).
Proof.
  exact (proj2 (proj2 (entry_orders_the_tests Script.env plain_normpath
                         plain_realpath (with_app "./app" no_arguments)
                         (Script.tests [])
                         {| l_app := Some "./app"; l_directory := "tests";
                            l_natural_sort := true;
                            l_notice := Some (DirectoryNotProvided true) |}
                         (Script.tests []) eq_refl))
           "./app" ["t10.in"; "t2.in"] eq_refl).
Defined.

(** X19. [--auto] with a directory and without an application starts
    [main] with no application at all: the search for the one [*.exe]
    file is made only when the directory is missing too, and the check
    for a missing application is skipped under [--auto]. In every other
    start the application is the one given, or the file that the search
    found. *)
Theorem auto_with_directory_has_no_app {W} (E : Env W)
    (normpath : string -> string)
    (realpath : option string -> W -> (string + os_exn) * W)
    (a : arguments) (w : W) :
  (a_auto a = true -> given (a_app a) = false -> given (a_dir a) = true ->
   entry E normpath realpath a w
   = (Launched {| l_app := a_app a;
                  l_directory := normpath (directory_or_tests a);
                  l_natural_sort := natural_or_default a;
                  l_notice := None |}, w))
  /\ (forall l w',
        entry E normpath realpath a w = (Launched l, w') ->
        given (l_app l) = false ->
        a_auto a = true /\ given (a_app a) = false
        /\ (given (a_dir a) = true \/ fst (glob E "*.exe" w) = inl [""])).
Proof.
  split.
  - intros Hauto Happ Hdir. rewrite entry_eq. unfold searches.
    rewrite Hauto, Happ, Hdir. reflexivity.
  - intros l w'. rewrite entry_eq. unfold searches.
    destruct (a_auto a), (given (a_app a)) eqn:Happ, (given (a_dir a));
      cbn [andb orb negb]; try discriminate;
      try (intros Hrun; injection Hrun as <- _; cbn [l_app]; intros Hl;
           first [congruence | repeat split; left; reflexivity]).
    destruct (glob E "*.exe" w) as [[exelist|e] w1]; [|discriminate].
    destruct exelist as [|exe [|exe2 rest]]; try discriminate.
    intros Hrun. injection Hrun as <- _. cbn [l_app given fst].
    destruct exe; [|discriminate]. intros _. repeat split. right. reflexivity.
Qed.

(** [-x -d tests]: started without an application. *)
Lemma auto_with_directory_has_no_app_witness :
  entry Script.env plain_normpath plain_realpath
    (with_dir "tests" (with_auto no_arguments)) (Script.tests [])
  = (Launched {| l_app := None; l_directory := "tests"; l_natural_sort := true;
                 l_notice := None |}, Script.tests []).
Proof.
  exact (proj1 (auto_with_directory_has_no_app Script.env plain_normpath
                  plain_realpath (with_dir "tests" (with_auto no_arguments))
                  (Script.tests []))
           eq_refl eq_refl eq_refl).
Defined.

(** ** The lines of a verbose run and the statistics *)

Section VerboseLines.
Context {W : Type} (E : Env W) (cfg : config).
Hypothesis Hverbose : verbose' cfg = true.

Ltac count_verdicts :=
  unfold verdicts_shown, correct_lines, wrong_lines, progress_lines in *;
  simpl_state; rewrite ?filter_app, ?length_app in *;
  cbn [filter List.length] in *.

Lemma evaluate_shows_nothing indata outdata out (s : state W) :
  wp (evaluate E cfg indata outdata out)
     (fun _ s' =>
        vars s' = vars s
        /\ correct_lines (stdout s') = correct_lines (stdout s)
        /\ wrong_lines (stdout s') = wrong_lines (stdout s)
        /\ progress_lines (stdout s') = progress_lines (stdout s)) s.
Proof.
  unfold evaluate, call_for_status_code, extra_verbose_print.
  wp_steps; simpl_state; try congruence; try (repeat split; reflexivity).
  all: wp_steps; count_verdicts; repeat split; try reflexivity; lia.
Qed.

Lemma judge_shows_verdict test_name indata outdata out t (s : state W) :
  wp (judge E cfg test_name indata outdata out t)
     (fun _ s' =>
        verdicts_shown cfg s s'
        /\ progress_lines (stdout s') = progress_lines (stdout s)) s.
Proof.
  unfold verdicts_shown.
  destruct (extra_verbose cfg) eqn:Hextra;
    unfold judge, verbose_print, extra_verbose_print; rewrite Hverbose, Hextra.
  all: wp_steps; try discriminate.
  all: (eapply wp_conseq; [apply evaluate_shows_nothing|]);
    intros [[b shown]|e] s1 (Hv & Hc & Hw & Hp); unfold bind_post; simpl_state;
    [|rewrite Hv; count_verdicts; lia].
  all: wp_steps; try discriminate; simpl_state; rewrite ?Hv; count_verdicts; lia.
Qed.

Lemma run_case_shows_verdict tq test_name infile indata outdata (s : state W) :
  wp (run_case E cfg tq test_name infile indata outdata)
     (fun _ s' =>
        verdicts_shown cfg s s'
        /\ progress_lines (stdout s') = progress_lines (stdout s)) s.
Proof.
  unfold run_case, try_case, call_with_io_timed, extra_verbose_print.
  wp_steps; try discriminate.
  all: try (eapply wp_conseq; [apply judge_shows_verdict|];
            intros ? ?; unfold verdicts_shown; destruct (extra_verbose cfg);
            count_verdicts; lia).
  all: unfold verdicts_shown; destruct (extra_verbose cfg); count_verdicts; lia.
Qed.

Lemma for_body_shows_verdict all_files tq file (s : state W) :
  wp (for_body E cfg all_files tq file)
     (fun r s' =>
        verdicts_shown cfg s s'
        /\ (r = Ret tt ->
            progress_lines (stdout s') = progress_lines (stdout s) + 1)) s.
Proof.
  unfold for_body, open_case, readfile, verbose_print. rewrite Hverbose.
  wp_steps; try discriminate.
  all: try (eapply wp_conseq; [apply run_case_shows_verdict|];
            intros ? ?; unfold verdicts_shown; destruct (extra_verbose cfg);
            count_verdicts; lia).
  all: unfold verdicts_shown; destruct (extra_verbose cfg); count_verdicts;
    (split; [lia|intros; first [discriminate|lia]]).
Qed.

Lemma test_loop_shows_verdicts all_files files (s : state W) :
  wp (test_loop E cfg all_files files)
     (fun r s' =>
        verdicts_shown cfg s s'
        /\ (r = Ret tt ->
            progress_lines (stdout s')
            = progress_lines (stdout s) + Z.of_nat (List.length files))) s.
Proof.
  unfold test_loop.
  apply wp_for_each_rest
    with (I := fun rest s1 =>
                 verdicts_shown cfg s s1
                 /\ progress_lines (stdout s1) + Z.of_nat (List.length rest)
                    = progress_lines (stdout s) + Z.of_nat (List.length files)).
  - unfold verdicts_shown. destruct (extra_verbose cfg); lia.
  - intros file rest s1 [H1 H2].
    eapply wp_conseq; [apply for_body_shows_verdict|].
    cbn [List.length] in H2.
    intros [[]|e] s2 [H3 H4]; unfold verdicts_shown in *;
      destruct (extra_verbose cfg).
    + specialize (H4 eq_refl). lia.
    + specialize (H4 eq_refl). lia.
    + split; [lia|discriminate].
    + split; [lia|discriminate].
  - intros s1 [H1 H2]. cbn [List.length] in H2. split; [exact H1|]. lia.
Qed.

End VerboseLines.

(** X20. With [-v] or [-ev], the lines of the loop tell the statistics:
    through the loop, however it ends, one line "[+] Correct" is printed
    for each test that is counted as correct and, without [-ev], one line
    "[-] Wrong" for each test that joins the failed tests ([-ev] prints
    none of these); and a loop that comes to its end printed one progress
    line for each test. (Ctrl-C arrives inside a library call, not
    between a line and its counter.) *)
Theorem verbose_lines_tell_the_counts {W} (E : Env W) (cfg : config)
    (all_files files : list string) (s : state W) (r : res unit) (s' : state W) :
  verbose' cfg = true ->
  test_loop E cfg all_files files s = (r, s') ->
  verdicts_shown cfg s s'
  /\ (r = Ret tt ->
      progress_lines (stdout s')
      = progress_lines (stdout s) + Z.of_nat (List.length files)).
Proof.
  intros Hv Hrun.
  exact (wp_run _ _ _ _ _ Hrun (test_loop_shows_verdicts E cfg Hv all_files files s)).
Qed.

(** A verbose run of two tests, one correct and one wrong. *)
Lemma verbose_lines_tell_the_counts_witness :
  verdicts_shown (Script.with_verbose Script.defaults)
    (loop_state 2 (Script.tests [("a.in", "5"); ("a.out", "5");
                                 ("b.in", "6"); ("b.out", "7")]))
    (snd (test_loop Script.env (Script.with_verbose Script.defaults)
            ["tests/a.out"; "tests/b.out"] ["tests/a.in"; "tests/b.in"]
            (loop_state 2 (Script.tests [("a.in", "5"); ("a.out", "5");
                                         ("b.in", "6"); ("b.out", "7")])))).
Proof.
  exact (proj1 (verbose_lines_tell_the_counts Script.env
                  (Script.with_verbose Script.defaults)
                  ["tests/a.out"; "tests/b.out"] ["tests/a.in"; "tests/b.in"]
                  (loop_state 2 (Script.tests [("a.in", "5"); ("a.out", "5");
                                               ("b.in", "6"); ("b.out", "7")]))
                  _ _ eq_refl (surjective_pairing _))).
Defined.

(** ** The names in the report *)

Section Names.
Context {W : Type} (E : Env W) (cfg : config).

Ltac pick :=
  unfold listed; simpl_state;
  first [ exists false, false; split; rewrite ?app_nil_r; reflexivity
        | exists true, false; split; rewrite ?app_nil_r; reflexivity
        | exists false, true; split; rewrite ?app_nil_r; reflexivity
        | exists true, true; split; rewrite ?app_nil_r; reflexivity ].

Lemma judge_lists test_name indata outdata out t (s : state W) :
  wp (judge E cfg test_name indata outdata out t)
     (fun _ s' => listed test_name (vars s) (vars s')) s.
Proof.
  unfold judge, verbose_print, extra_verbose_print.
  wp_steps.
  all: (eapply wp_conseq; [apply evaluate_vars|]);
    intros [[b shown]|e] s1 Hv; unfold bind_post; simpl_state;
    [|rewrite Hv; pick].
  all: wp_steps; simpl_state; rewrite ?Hv; pick.
Qed.

Lemma run_case_lists tq test_name infile indata outdata (s : state W) :
  wp (run_case E cfg tq test_name infile indata outdata)
     (fun _ s' => listed test_name (vars s) (vars s')) s.
Proof.
  unfold run_case, try_case, call_with_io_timed, extra_verbose_print.
  wp_steps; try discriminate.
  all: try (eapply wp_conseq; [apply judge_lists|]; simpl_state;
            intros ? ? H; exact H).
  all: pick.
Qed.

Lemma for_body_lists all_files tq file (s : state W) :
  wp (for_body E cfg all_files tq file)
     (fun _ s' => listed (PyStr.drop_last3 file) (vars s) (vars s')) s.
Proof.
  unfold for_body, open_case, readfile, verbose_print.
  wp_steps; try discriminate.
  all: try (eapply wp_conseq; [apply run_case_lists|]; simpl_state;
            intros ? ? H; exact H).
  all: pick.
Qed.

Lemma chosen_cons file files (b : bool) picks :
  chosen (file :: files) (b :: picks)
  = (if b then [PyStr.drop_last3 file] else []) ++ chosen files picks.
Proof. unfold chosen. destruct b; reflexivity. Qed.

Lemma chosen_none files :
  chosen files (repeat false (List.length files)) = [].
Proof.
  induction files as [|f files IH]; [reflexivity|].
  cbn [List.length repeat]. rewrite chosen_cons, IH. reflexivity.
Qed.

Lemma for_each_lists all_files tq files (s : state W) r s' :
  for_each (for_body E cfg all_files tq) files s = (r, s') ->
  exists failed late,
    List.length failed = List.length files
    /\ List.length late = List.length files
    /\ wrong (vars s') = wrong (vars s) ++ chosen files failed
    /\ overtime (vars s') = overtime (vars s) ++ chosen files late.
Proof.
  revert s. induction files as [|file files IH]; intros s; cbn [for_each].
  - unfold ret. intros H. injection H as _ <-. exists [], [].
    rewrite !app_nil_r. repeat split.
  - unfold bind.
    pose proof (for_body_lists all_files tq file s) as Hbody. unfold wp in Hbody.
    destruct (for_body E cfg all_files tq file s) as [[[]|e] s1];
      cbn [fst snd] in Hbody; destruct Hbody as (b1 & b2 & Hw & Ho).
    + intros Hrest. destruct (IH s1 Hrest) as (failed & late & Hf & Hl & Hw' & Ho').
      exists (b1 :: failed), (b2 :: late). cbn [List.length].
      rewrite !chosen_cons, Hw', Ho', Hw, Ho, <- !app_assoc. auto.
    + intros H. injection H as _ <-.
      exists (b1 :: repeat false (List.length files)),
             (b2 :: repeat false (List.length files)).
      cbn [List.length]. rewrite !repeat_length, !chosen_cons, !chosen_none,
        !app_nil_r. auto.
Qed.

End Names.

(** X21. The two lists of names of the report hold tests of the run,
    in the order of the run: what the loop adds to the failed tests, and
    to the overtime tests, is the names (the input file without its last
    three characters, [.in]) of some of the tests, each at most once for
    each time the test is run, in the order in which the tests were run.
    This holds however the loop ends. *)
Theorem report_names_are_tests {W} (E : Env W) (cfg : config)
    (all_files files : list string) (s : state W) (r : res unit) (s' : state W) :
  test_loop E cfg all_files files s = (r, s') ->
  exists failed late,
    List.length failed = List.length files
    /\ List.length late = List.length files
    /\ wrong (vars s') = wrong (vars s) ++ chosen files failed
    /\ overtime (vars s') = overtime (vars s) ++ chosen files late.
Proof. apply for_each_lists. Qed.

(** Three tests, the second of which fails. *)
Lemma report_names_are_tests_witness :
  exists failed late,
    List.length failed = 3%nat
    /\ List.length late = 3%nat
    /\ ["tests/b"] = [] ++ chosen ["tests/a.in"; "tests/b.in"; "tests/c.in"] failed
    /\ [] = [] ++ chosen ["tests/a.in"; "tests/b.in"; "tests/c.in"] late.
Proof.
  exact (report_names_are_tests Script.env Script.defaults
           ["tests/a.out"; "tests/b.out"; "tests/c.out"]
           ["tests/a.in"; "tests/b.in"; "tests/c.in"]
           (loop_state 3 (Script.tests [("a.in", "5"); ("a.out", "5");
                                        ("b.in", "6"); ("b.out", "7");
                                        ("c.in", "8"); ("c.out", "8")]))
           (Ret tt)
           {| world := Script.tests [("a.in", "5"); ("a.out", "5");
                                     ("b.in", "6"); ("b.out", "7");
                                     ("c.in", "8"); ("c.out", "8")];
              stdout := [];
              vars := {| approx_total := 3; total := 3; correct := 2;
                         overtime_count := 0; wrong := ["tests/b"];
                         overtime := []; times := [] |} |}
           eq_refl).
Defined.

(** ** The distance of two numbers (line 131) *)

Section Distance.

Lemma abs_binary_round_aux s m e l :
  SFabs (binary_round_aux PyFloat.prec PyFloat.emax s m e l)
  = SFabs (binary_round_aux PyFloat.prec PyFloat.emax false m e l).
Proof.
  unfold binary_round_aux.
  destruct (shr_fexp PyFloat.prec PyFloat.emax m e l) as [mrs' e'].
  destruct (shr_fexp PyFloat.prec PyFloat.emax _ e' loc_Exact) as [mrs'' e''].
  destruct (shr_m mrs''); [reflexivity| |reflexivity].
  destruct (e'' <=? PyFloat.emax - PyFloat.prec); reflexivity.
Qed.

Lemma abs_binary_round s m e :
  SFabs (binary_round PyFloat.prec PyFloat.emax s m e)
  = SFabs (binary_round PyFloat.prec PyFloat.emax false m e).
Proof.
  unfold binary_round.
  destruct (shl_align m e _) as [mz ez]. apply abs_binary_round_aux.
Qed.

Lemma abs_binary_normalize_opp m e :
  SFabs (binary_normalize PyFloat.prec PyFloat.emax (- m) e false)
  = SFabs (binary_normalize PyFloat.prec PyFloat.emax m e false).
Proof.
  destruct m as [|p|p]; cbn [Z.opp binary_normalize]; [reflexivity| |].
  - apply abs_binary_round.
  - symmetry. apply abs_binary_round.
Qed.

(** The distance does not depend on the order of the two numbers. *)
Lemma abs_sub_swap x y :
  PyFloat.abs (PyFloat.sub x y) = PyFloat.abs (PyFloat.sub y x).
Proof.
  unfold PyFloat.abs, PyFloat.sub.
  destruct x as [sx|sx| |sx mx ex], y as [sy|sy| |sy my ey];
    try reflexivity; try (destruct sx, sy; reflexivity).
  cbn [SFsub]. cbv zeta. rewrite (Z.min_comm ey ex).
  rewrite <- abs_binary_normalize_opp. f_equal. f_equal. lia.
Qed.

Lemma binary_round_aux_sign s m e l :
  signed_minus (binary_round_aux PyFloat.prec PyFloat.emax s m e l) = true ->
  s = true.
Proof.
  unfold binary_round_aux.
  destruct (shr_fexp PyFloat.prec PyFloat.emax m e l) as [mrs' e'].
  destruct (shr_fexp PyFloat.prec PyFloat.emax _ e' loc_Exact) as [mrs'' e''].
  destruct (shr_m mrs''); [intros H; exact H| |discriminate].
  destruct (e'' <=? PyFloat.emax - PyFloat.prec); intros H; exact H.
Qed.

Lemma ratio_sign p q : signed_minus (PyFloat.ratio false p q) = false.
Proof.
  unfold PyFloat.ratio. destruct p as [|p|p]; [reflexivity| |reflexivity].
  destruct q as [|q|q]; try reflexivity.
  cbn [SFdiv]. destruct (SFdiv_core_binary _ _ _ _ _ _) as [[mz ez] lz].
  destruct (signed_minus (binary_round_aux _ _ _ mz ez lz)) eqn:H; [|reflexivity].
  apply binary_round_aux_sign in H. discriminate.
Qed.

(** A rounded distance has no minus sign. *)
Lemma round_abs_sign x n :
  signed_minus (PyFloat.round (PyFloat.abs x) n) = false.
Proof.
  destruct x as [s|s| |s m e]; try reflexivity.
  unfold PyFloat.abs, SFabs, PyFloat.round. apply ratio_sign.
Qed.

Lemma leb_negative x eps :
  signed_minus x = false ->
  PyFloat.ltb eps (PyFloat.of_Z 0) = true ->
  PyFloat.leb x eps = false.
Proof.
  unfold PyFloat.ltb, PyFloat.leb, SFltb, SFleb.
  change (PyFloat.of_Z 0) with (S754_zero false).
  destruct eps as [s|s| |s me ee]; cbn [SFcompare]; try discriminate;
    destruct s; try discriminate; intros Hx _;
    destruct x as [sx|sx| |sx mx ex]; cbn in Hx |- *; subst; reflexivity.
Qed.

End Distance.

(** X22. With a numeric tolerance the verdict does not depend on which
    of the two texts is the expected one. A text that is a finite number
    is within any tolerance of itself that is not negative (the distance
    is 0), but [inf] is not within any tolerance of [inf], nor [nan] of
    [nan]: the distance is not a number and the comparison fails. *)
Theorem tolerance_is_symmetric (eps : float) (a b : string) :
  within_tolerance eps a b = within_tolerance eps b a
  /\ (forall x,
        PyFloat.of_string a = Some x ->
        within_tolerance eps a a
        = Some (match x with
                | S754_infinity _ | S754_nan => false
                | _ => PyFloat.leb (S754_zero false) eps
                end))
  /\ within_tolerance (PyFloat.of_Z 1) "inf" "inf" = Some false.
Proof.
  split; [|split].
  - unfold within_tolerance.
    destruct (PyFloat.of_string a) as [x|], (PyFloat.of_string b) as [y|];
      try reflexivity.
    rewrite (abs_sub_swap x y). reflexivity.
  - intros x Hx. unfold within_tolerance. rewrite Hx. f_equal.
    destruct x as [s|s| |s m e].
    + destruct s; reflexivity.
    + destruct s; reflexivity.
    + reflexivity.
    + unfold PyFloat.sub. cbn [SFsub]. cbv zeta. rewrite Z.sub_diag. reflexivity.
  - vm_compute. reflexivity.
Qed.

Lemma tolerance_is_symmetric_witness :
  within_tolerance (PyFloat.of_Z 0) "2.5" "2.5"
  = Some (PyFloat.leb (S754_zero false) (PyFloat.of_Z 0)).
Proof.
  refine (proj1 (proj2 (tolerance_is_symmetric (PyFloat.of_Z 0) "2.5" "2.5"))
            (S754_finite false 5629499534213120 (-51)) _).
  vm_compute. reflexivity.
Defined.

(** X23. A negative tolerance accepts nothing: the rounded distance of
    two numbers is never below zero, so that with [result_dist] below 0
    every test that reaches a verdict is judged wrong (or ends the run
    when a text is not a number). *)
Theorem negative_tolerance_rejects_all {W} (E : Env W) (cfg : config)
    (eps : float) :
  result_dist cfg = Some eps ->
  PyFloat.ltb eps (PyFloat.of_Z 0) = true ->
  (forall a b, within_tolerance eps a b <> Some true)
  /\ (forall indata outdata out (s : state W) verdict s',
        evaluate E cfg indata outdata out s = (Ret verdict, s') ->
        fst verdict = false).
Proof.
  intros Heps Hneg.
  assert (Hall : forall a b, within_tolerance eps a b <> Some true).
  { intros a b. unfold within_tolerance.
    destruct (PyFloat.of_string a) as [x|]; [|discriminate].
    destruct (PyFloat.of_string b) as [y|]; [|discriminate].
    rewrite (leb_negative _ eps (round_abs_sign _ 10) Hneg). discriminate. }
  split; [exact Hall|].
  intros indata outdata out s verdict s'. unfold evaluate. rewrite Heps.
  destruct (within_tolerance eps outdata out) as [[]|] eqn:Hw.
  - elim (Hall _ _ Hw).
  - unfold ret. intros H. injection H as <- _. reflexivity.
  - discriminate.
Qed.

(** The tolerance -1: equal numbers are judged wrong. *)
Lemma negative_tolerance_rejects_all_witness :
  within_tolerance (PyFloat.of_Z (-1)) "5" "5" <> Some true.
Proof.
  exact (proj1 (negative_tolerance_rejects_all Script.env
                  (Script.with_result_dist (PyFloat.of_Z (-1)) Script.defaults)
                  (PyFloat.of_Z (-1)) eq_refl eq_refl)
           "5" "5").
Defined.

(** ** White space around the texts (lines 95, 105, 115) *)

Section Padding.









End Padding.



(** ** The exit status of the checker (lines 28-35) *)

(** X25. [call_for_status_code] turns the end of the command into a
    number: 0 when the command ends well, and the exit status that
    [CalledProcessError] carries otherwise. It never raises
    [CalledProcessError]; any other exception of [check_output] (the
    command cannot be started, Ctrl-C) passes through it. What the command
    prints is dropped: nothing is printed and no variable changes.
    So a checker that exits with a status other than 0 makes the test
    wrong, while any other failure of the call of the checker ends the
    whole run: the exception is raised in the [else] branch of the [try],
    where nothing catches it, the tests after it are not run and no
    report is printed. *)
Theorem status_code_of_command {W} (E : Env W) (cfg : config) (chk : string) :
  (forall input (s : state W),
      same_but_world s (snd (call_for_status_code E chk input s))
      /\ world (snd (call_for_status_code E chk input s))
         = snd (check_output E chk input (world s))
      /\ (forall c,
            fst (call_for_status_code E chk input s)
            <> Raise (CalledProcessError c))
      /\ (forall c,
            fst (call_for_status_code E chk input s) = Ret c
            <-> (c = 0 /\ fst (check_output E chk input (world s)) = inl tt)
                \/ fst (check_output E chk input (world s)) = inr (ExitStatus c))
      /\ (forall e,
            fst (call_for_status_code E chk input s) = Raise e
            <-> (e = KeyboardInterrupt
                 /\ fst (check_output E chk input (world s)) = inr Sigint)
                \/ exists name,
                     e = LibraryError name
                     /\ fst (check_output E chk input (world s))
                        = inr (Failure name)))
  /\ (forall all_files pre file rest approx (s0 s : state W)
             indata outdata out t s_j name w,
        result_dist cfg = None ->
        checker cfg = Some chk ->
        test_loop E cfg all_files pre
          {| world := world s0; stdout := stdout s0; vars := fresh_locals approx |}
        = (Ret tt, s) ->
        reaches_verdict E cfg all_files file s indata outdata out t s_j ->
        check_output E chk (indata ++ newline ++ out) (world s_j)
        = (inr (Failure name), w) ->
        run_tests E cfg all_files (pre ++ file :: rest) approx s0
        = (Raise (LibraryError name),
           seeing w (before_verdict cfg (PyStr.drop_last3 file) out t s_j))).
Proof.
  split.
  - intros input s.
    destruct (check_output E chk input (world s)) as [r w] eqn:Hc.
    rewrite (call_for_status_code_exit E chk input s r w Hc). cbn [fst snd].
    destruct r as [[]|[|c0|name]]; cbn [fst snd world stdout vars].
    + repeat split; try discriminate.
      * intros H. injection H as <-. left. split; reflexivity.
      * intros [[-> _]|H]; [reflexivity|discriminate].
      * intros [[_ H]|(name & _ & H)]; discriminate.
    + repeat split; try discriminate.
      * intros [[_ H]|H]; discriminate.
      * intros H. injection H as <-. left. split; reflexivity.
      * intros [[-> _]|(name & _ & H)]; [reflexivity|discriminate].
    + repeat split; try discriminate.
      * intros H. injection H as <-. right. reflexivity.
      * intros [[_ H]|H]; [discriminate|]. injection H as <-. reflexivity.
      * intros [[_ H]|(name & _ & H)]; discriminate.
    + repeat split; try discriminate.
      * intros [[_ H]|H]; discriminate.
      * intros H. injection H as <-. right. exists name. split; reflexivity.
      * intros [[_ H]|(n & -> & H)]; [discriminate|]. injection H as <-.
        reflexivity.
  - intros all_files pre file rest approx s0 s indata outdata out t s_j name w
      Hrd Hchk Hpre Hreach Hfail.
    apply (run_tests_raise E cfg _ _ _ _ _ _ _ _ _ Hpre); [|reflexivity].
    rewrite (for_body_reaches E cfg _ _ _ _ _ _ _ _ _ Hreach), judge_eq.
    apply bind_raise_run. unfold evaluate. rewrite Hrd, Hchk.
    apply bind_raise_run.
    assert (Hw : world (before_verdict cfg (PyStr.drop_last3 file) out t s_j)
                 = world s_j) by reflexivity.
    rewrite <- Hw in Hfail.
    rewrite (call_for_status_code_exit E chk _ _ _ _ Hfail). reflexivity.
Qed.

(** A checker that accepts. *)
Lemma status_code_of_command_witness :
  fst (call_for_status_code Script.env "./checker" "5"
         (initial_state (Script.tests [])))
  = Ret 0.
Proof.
  exact (proj2 (proj1 (proj2 (proj2 (proj2
           (proj1 (status_code_of_command Script.env Script.defaults "./checker")
              "5" (initial_state (Script.tests []))))))
           0)
           (or_introl (conj eq_refl eq_refl))).
Defined.

(** ** Blank lines and the progress bar (lines 83-88, 98, 107, 117) *)

Section BlankLines.
Context {W : Type} (E : Env W) (cfg : config).

Ltac count_blanks :=
  unfold one_ended, none_ended, settled, skipped, crashed, blank_lines in *;
  simpl_state; rewrite ?filter_app, ?length_app in *;
  cbn [filter List.length] in *.

Lemma evaluate_no_blank indata outdata out (s : state W) :
  wp (evaluate E cfg indata outdata out)
     (fun _ s' =>
        blank_lines (stdout s') = blank_lines (stdout s)
        /\ skipped (stdout s') = skipped (stdout s)
        /\ crashed (stdout s') = crashed (stdout s)) s.
Proof.
  unfold evaluate, call_for_status_code, extra_verbose_print.
  wp_steps; simpl_state; try congruence; try (repeat split; reflexivity).
  all: wp_steps; count_blanks; repeat split; try reflexivity; lia.
Qed.

Lemma judge_no_blank test_name indata outdata out t (s : state W) :
  wp (judge E cfg test_name indata outdata out t)
     (fun _ s' =>
        blank_lines (stdout s') = blank_lines (stdout s)
        /\ skipped (stdout s') = skipped (stdout s)
        /\ crashed (stdout s') = crashed (stdout s)) s.
Proof.
  unfold judge, verbose_print, extra_verbose_print.
  wp_steps.
  all: (eapply wp_conseq; [apply evaluate_no_blank|]);
    intros [[b shown]|e] s1 (Hb' & Hsk & Hcr); unfold bind_post; simpl_state;
    [|count_blanks; lia].
  all: wp_steps; count_blanks; lia.
Qed.

Lemma run_case_blanks tq test_name infile indata outdata (s : state W) :
  wp (run_case E cfg tq test_name infile indata outdata)
     (fun _ s' =>
        blank_lines (stdout s') - blank_lines (stdout s)
        = if tq
          then (skipped (stdout s') - skipped (stdout s))
               + (crashed (stdout s') - crashed (stdout s))
          else 0) s.
Proof.
  unfold run_case, try_case, call_with_io_timed, extra_verbose_print.
  destruct tq; wp_steps; try discriminate.
  all: try (eapply wp_conseq; [apply judge_no_blank|];
            intros ? ? (? & ? & ?); count_blanks; lia).
  all: count_blanks; lia.
Qed.

Lemma for_body_blanks all_files tq file (s : state W) :
  wp (for_body E cfg all_files tq file)
     (fun _ s' =>
        blank_lines (stdout s') - blank_lines (stdout s)
        = if tq
          then (skipped (stdout s') - skipped (stdout s))
               + (crashed (stdout s') - crashed (stdout s))
          else 0) s.
Proof.
  unfold for_body, open_case, readfile, verbose_print.
  destruct tq; wp_steps; try discriminate.
  all: try (eapply wp_conseq; [apply run_case_blanks|];
            intros ? ? ?; count_blanks; lia).
  all: count_blanks; lia.
Qed.

Lemma test_loop_blanks all_files files (s : state W) :
  wp (test_loop E cfg all_files files)
     (fun _ s' =>
        blank_lines (stdout s') - blank_lines (stdout s)
        = if tqdm_enabled E && negb (verbose' cfg)
          then (skipped (stdout s') - skipped (stdout s))
               + (crashed (stdout s') - crashed (stdout s))
          else 0) s.
Proof.
  unfold test_loop.
  apply wp_for_each
    with (I := fun s1 =>
                 blank_lines (stdout s1) - blank_lines (stdout s)
                 = if tqdm_enabled E && negb (verbose' cfg)
                   then (skipped (stdout s1) - skipped (stdout s))
                        + (crashed (stdout s1) - crashed (stdout s))
                   else 0).
  - destruct (tqdm_enabled E && negb (verbose' cfg)); lia.
  - intros file s1 _ H1. eapply wp_conseq; [apply for_body_blanks|].
    cbv beta. destruct (tqdm_enabled E && negb (verbose' cfg));
      intros [[]|e] s2 H2; lia.
  - auto.
Qed.

End BlankLines.

(** X26. A blank line is printed only to set an error line off from the
    progress bar: when the progress bar runs (tqdm is installed and
    neither [-v] nor [-ev] is given) the loop prints one blank line for
    each test that is skipped and for each program that fails, and no
    other; when it does not run, the loop prints no blank line at all. *)
Theorem blank_lines_go_with_errors {W} (E : Env W) (cfg : config)
    (all_files files : list string) (s : state W) (r : res unit) (s' : state W) :
  test_loop E cfg all_files files s = (r, s') ->
  blank_lines (stdout s') - blank_lines (stdout s)
  = if tqdm_enabled E && negb (verbose' cfg)
    then (skipped (stdout s') - skipped (stdout s))
         + (crashed (stdout s') - crashed (stdout s))
    else 0.
Proof.
  intros Hrun.
  exact (wp_run _ _ _ _ _ Hrun (test_loop_blanks E cfg all_files files s)).
Qed.

(** With the progress bar, a skipped test prints one blank line. *)
Lemma blank_lines_go_with_errors_witness :
  blank_lines
    (stdout (snd (test_loop (with_progress_bar Script.env) Script.defaults []
                    ["tests/a.in"]
                    (loop_state 1 (Script.tests [("a.in", "5")])))))
  - blank_lines []
  = (skipped
       (stdout (snd (test_loop (with_progress_bar Script.env) Script.defaults []
                       ["tests/a.in"]
                       (loop_state 1 (Script.tests [("a.in", "5")])))))
     - skipped [])
    + (crashed
         (stdout (snd (test_loop (with_progress_bar Script.env) Script.defaults []
                         ["tests/a.in"]
                         (loop_state 1 (Script.tests [("a.in", "5")])))))
       - crashed []).
Proof.
  exact (blank_lines_go_with_errors (with_progress_bar Script.env)
           Script.defaults [] ["tests/a.in"]
           (loop_state 1 (Script.tests [("a.in", "5")])) _ _
           (surjective_pairing _)).
Defined.
